(** * ScanLockin: the lock-in scan engine and its batch controller

    A shallow embedding of [daq/ScanLockin.py]: the two scan classes
    ([SingleScan], which drives the instruments, and [TestClass], its
    instrument-free analog, which is the one [JPLScanWindow] instantiates),
    the Qt timers that chain their callbacks, the batch window
    [JPLScanWindow] that sequences the entries, and the dialog
    [JPLScanConfig] in which the entries are typed.

    Modelling conventions
    - numpy float64 values (frequencies, samples, sums) are exact rationals [Q];
      the statements below are about control flow and about which samples are
      combined, not about rounding;
    - Python ints are [Z]; sequence indexing follows Python (negative indices
      wrap once, anything else raises [IndexError]);
    - a method is a computation in the monad [M]: it threads the whole object
      graph (batch window, scan widget, timers) and may raise; mutations made
      before a raise persist, as they do on Python objects;
    - everything the program does to the outside (instrument commands, plots,
      prints, message boxes, saved files) is appended to the trace [out];
    - what the outside answers (instrument replies, random samples, which
      operation fails) is read from an oracle indexed by the counter [ticks]. *)

From Stdlib Require Import ZArith QArith Qround String List Lia Lqa Bool.
From stdpp Require Import base list strings.
Import ListNotations.

Local Open Scope string_scope.
Local Open Scope Z_scope.

(** ** Python values *)

Inductive exn :=
| NameError (name : string)
| IndexError
| TypeError
| InvalidRange
| InstrumentCommunicationError
| StorageError.

Inductive outcome (A : Type) :=
| Ok (a : A)
| Raise (e : exn).
Arguments Ok {A} a.
Arguments Raise {A} e.

(** [l[i]] *)
Definition py_index {A} (l : list A) (i : Z) : option A :=
  let n := Z.of_nat (length l) in
  if 0 <=? i then l !! Z.to_nat i
  else if - n <=? i then l !! Z.to_nat (n + i) else None.

(** [l[i] = v] on a numpy array or a list *)
Definition py_setitem {A} (l : list A) (i : Z) (v : A) : option (list A) :=
  let n := Z.of_nat (length l) in
  if (0 <=? i) && (i <? n) then Some (<[Z.to_nat i := v]> l)
  else if (- n <=? i) && (i <? 0) then Some (<[Z.to_nat (n + i) := v]> l)
  else None.

(** [np.zeros_like(a)] *)
Definition zeros_like (a : list Q) : list Q := replicate (length a) 0%Q.

(** [a += b], elementwise; both arrays of the program always have the length
    of the axis. *)
Definition np_iadd (a b : list Q) : list Q := zip_with Qplus a b.

(** [a / n], elementwise *)
Definition np_div (a : list Q) (n : Z) : list Q :=
  map (fun v => (v / inject_Z n)%Q) a.

Definition np_sum (a : list Q) : Q := fold_left Qplus a 0%Q.

(** [np.average(a)] *)
Definition np_average (a : list Q) : Q :=
  (np_sum a / inject_Z (Z.of_nat (length a)))%Q.

(** ** The frequency axis *)

Fixpoint axis_points (n : nat) (f step : Q) : list Q :=
  match n with
  | O => []
  | S n' => f :: axis_points n' (f + step)%Q step
  end.

(** Modelled from the spec: [Shared.gen_x_array] lives in [gui/SharedWidgets],
    which is not among the sources.  Section 4.1: given start, stop and step
    (step > 0), the ascending sequence that begins at start and advances by
    step, up to and including stop when stop is exactly reachable, otherwise up
    to the last value that does not exceed stop; [InvalidRange] when step is
    zero or negative or start > stop. *)
Definition gen_x_array (start stop step : Q) : outcome (list Q) :=
  if Qle_bool step 0 || negb (Qle_bool start stop) then Raise InvalidRange
  else Ok (axis_points (S (Z.to_nat (Qfloor ((stop - start) / step)))) start step).

(** ** Data of the program *)

(** One batch entry, the tuple
    [(start_freq, stop_freq, step, averages, sens_index, tc_index, itgtime, waittime)]. *)
Record Entry := mkEntry {
  e_start : Q;
  e_stop : Q;
  e_step : Q;
  e_avg : Z;
  e_sens : Z;
  e_tc : Z;
  e_itgtime : Q;
  e_waittime : Q
}.

Inductive ScanClass := SingleScan | TestClass.

(** The bound methods that get connected to a timer's [timeout] signal. *)
Inductive slot := set_lockin_buffer_slot | query_lockin_buffer_slot | tune_syn_slot.

Global Instance slot_eq_dec : EqDecision slot.
Proof. solve_decision. Defined.

(** A single-shot [QTimer] with the slots connected to its [timeout]. *)
Record QTimer := mkTimer {
  interval : Q;
  isActive : bool;
  timeout : list slot
}.

Definition setInterval (t : QTimer) (ms : Q) : QTimer :=
  {| interval := ms; isActive := isActive t; timeout := timeout t |}.
Definition start (t : QTimer) : QTimer :=
  {| interval := interval t; isActive := true; timeout := timeout t |}.
Definition stop (t : QTimer) : QTimer :=
  {| interval := interval t; isActive := false; timeout := timeout t |}.
Definition expire (t : QTimer) : QTimer := stop t.
Definition connect (t : QTimer) (s : slot) : QTimer :=
  {| interval := interval t; isActive := isActive t; timeout := timeout t ++ [s] |}.
Definition disconnect_all (t : QTimer) : QTimer :=
  {| interval := interval t; isActive := isActive t; timeout := [] |}.
Definition disconnect (t : QTimer) (s : slot) : QTimer :=
  {| interval := interval t; isActive := isActive t;
     timeout := list_difference (timeout t) [s] |}.

(** What [TestClass] prints. *)
Inductive printed :=
| tune_lockin_sensitivity_to (label : string)
| tune_lockin_time_constant_to (label : string)
| tune_syn_freq_to (MHz : Q)
| clear_lockin_buffer
| query_lockin_buffer_line
| save_data_line.

Inductive curve := yCurve | ySumCurve.

(** Everything the program does to the outside world. *)
Inductive effect :=
| set_syn_freq (f : Q)
| set_sens (i : Z)
| set_tc (i : Z)
| read_tc
| lc_write (cmd : string)
| lc_query (cmd : string)
| lc_query_TRCA (i j k : Z)
| save_lwa (filename : string) (data : list Q) (h_info : Q * string * Q * Z * Z)
| print (line : printed)
| setData (c : curve) (xs ys : list Q)
| setCurrentRow (i : Z)
| MsgInfo (title : string)
| setText (label : string)
| call_update_setting (e : Entry).

(** The scan widget, [SingleScan] or [TestClass].  The attributes
    [start_rf_freq], [stop_rf_freq], [current_rf_freq] and [step] are set once
    in [__init__] and never read; they are left out. *)
Record Scan := mkScan {
  cls : ScanClass;
  filename : string;
  multiplier : Q;
  x : list Q;
  current_x_index : Z;
  avg : Z;
  current_avg : Z;
  sens_index : Z;
  tc_index : Z;
  itgtime : Q;
  waittime : Q;
  y : list Q;
  y_sum : list Q;
  itgTimer : QTimer;
  waitTimer : QTimer;
  pauseButton_checked : bool
}.

(** The batch window with everything it owns, the trace of effects, the
    exceptions that escaped into the Qt event loop, and the oracle counter. *)
Record JPLScanWindow := mkWindow {
  entry_settings : list Entry;
  batchList_len : Z;
  current_entry_index : Z;
  singleScan : Scan;
  accepted : bool;
  out : list effect;
  uncaught : list exn;
  ticks : nat
}.

(** Tables and collaborators that the sources import, and the answers of the
    outside world. *)
Record Env := mkEnv {
  Shared_LIASENSLIST : list string;
  Shared_LIATCLIST : list string;
  apival_LIASENSLIST : list string;
  apival_LIATCLIST : list Q;
  apival_MULTIPLIER : list Q;
  bandSelect_currentIndex : Z;
  io_fails : nat -> bool;
  reply_SPTS : nat -> Z;
  reply_TRCA : nat -> list Q;
  reply_tc : nat -> Z;
  random_sample : nat -> Q
}.

(** Names bound at module level by the imports and the class statements. *)
Definition module_globals : list string :=
  ["QtGui"; "QtCore"; "np"; "pg"; "Shared"; "apigen"; "apival"; "apilc";
   "apisyn"; "save"; "JPLScanConfig"; "JPLScanWindow"; "SingleScan"; "TestClass"].

(** ** Attribute assignment *)

Definition set_current_x_index (v : Z) (s : Scan) : Scan :=
  {| cls := cls s; filename := filename s; multiplier := multiplier s; x := x s;
     current_x_index := v; avg := avg s; current_avg := current_avg s;
     sens_index := sens_index s; tc_index := tc_index s; itgtime := itgtime s;
     waittime := waittime s; y := y s; y_sum := y_sum s; itgTimer := itgTimer s;
     waitTimer := waitTimer s; pauseButton_checked := pauseButton_checked s |}.

Definition set_current_avg (v : Z) (s : Scan) : Scan :=
  {| cls := cls s; filename := filename s; multiplier := multiplier s; x := x s;
     current_x_index := current_x_index s; avg := avg s; current_avg := v;
     sens_index := sens_index s; tc_index := tc_index s; itgtime := itgtime s;
     waittime := waittime s; y := y s; y_sum := y_sum s; itgTimer := itgTimer s;
     waitTimer := waitTimer s; pauseButton_checked := pauseButton_checked s |}.

Definition set_y (v : list Q) (s : Scan) : Scan :=
  {| cls := cls s; filename := filename s; multiplier := multiplier s; x := x s;
     current_x_index := current_x_index s; avg := avg s; current_avg := current_avg s;
     sens_index := sens_index s; tc_index := tc_index s; itgtime := itgtime s;
     waittime := waittime s; y := v; y_sum := y_sum s; itgTimer := itgTimer s;
     waitTimer := waitTimer s; pauseButton_checked := pauseButton_checked s |}.

Definition set_y_sum (v : list Q) (s : Scan) : Scan :=
  {| cls := cls s; filename := filename s; multiplier := multiplier s; x := x s;
     current_x_index := current_x_index s; avg := avg s; current_avg := current_avg s;
     sens_index := sens_index s; tc_index := tc_index s; itgtime := itgtime s;
     waittime := waittime s; y := y s; y_sum := v; itgTimer := itgTimer s;
     waitTimer := waitTimer s; pauseButton_checked := pauseButton_checked s |}.

Definition set_itgTimer (v : QTimer) (s : Scan) : Scan :=
  {| cls := cls s; filename := filename s; multiplier := multiplier s; x := x s;
     current_x_index := current_x_index s; avg := avg s; current_avg := current_avg s;
     sens_index := sens_index s; tc_index := tc_index s; itgtime := itgtime s;
     waittime := waittime s; y := y s; y_sum := y_sum s; itgTimer := v;
     waitTimer := waitTimer s; pauseButton_checked := pauseButton_checked s |}.

Definition set_waitTimer (v : QTimer) (s : Scan) : Scan :=
  {| cls := cls s; filename := filename s; multiplier := multiplier s; x := x s;
     current_x_index := current_x_index s; avg := avg s; current_avg := current_avg s;
     sens_index := sens_index s; tc_index := tc_index s; itgtime := itgtime s;
     waittime := waittime s; y := y s; y_sum := y_sum s; itgTimer := itgTimer s;
     waitTimer := v; pauseButton_checked := pauseButton_checked s |}.

Definition set_pauseButton_checked (v : bool) (s : Scan) : Scan :=
  {| cls := cls s; filename := filename s; multiplier := multiplier s; x := x s;
     current_x_index := current_x_index s; avg := avg s; current_avg := current_avg s;
     sens_index := sens_index s; tc_index := tc_index s; itgtime := itgtime s;
     waittime := waittime s; y := y s; y_sum := y_sum s; itgTimer := itgTimer s;
     waitTimer := waitTimer s; pauseButton_checked := v |}.

Definition set_singleScan (v : Scan) (w : JPLScanWindow) : JPLScanWindow :=
  {| entry_settings := entry_settings w; batchList_len := batchList_len w;
     current_entry_index := current_entry_index w; singleScan := v;
     accepted := accepted w; out := out w; uncaught := uncaught w; ticks := ticks w |}.

Definition set_current_entry_index (v : Z) (w : JPLScanWindow) : JPLScanWindow :=
  {| entry_settings := entry_settings w; batchList_len := batchList_len w;
     current_entry_index := v; singleScan := singleScan w;
     accepted := accepted w; out := out w; uncaught := uncaught w; ticks := ticks w |}.

Definition set_accepted (v : bool) (w : JPLScanWindow) : JPLScanWindow :=
  {| entry_settings := entry_settings w; batchList_len := batchList_len w;
     current_entry_index := current_entry_index w; singleScan := singleScan w;
     accepted := v; out := out w; uncaught := uncaught w; ticks := ticks w |}.

Definition set_out (v : list effect) (w : JPLScanWindow) : JPLScanWindow :=
  {| entry_settings := entry_settings w; batchList_len := batchList_len w;
     current_entry_index := current_entry_index w; singleScan := singleScan w;
     accepted := accepted w; out := v; uncaught := uncaught w; ticks := ticks w |}.

Definition set_uncaught (v : list exn) (w : JPLScanWindow) : JPLScanWindow :=
  {| entry_settings := entry_settings w; batchList_len := batchList_len w;
     current_entry_index := current_entry_index w; singleScan := singleScan w;
     accepted := accepted w; out := out w; uncaught := v; ticks := ticks w |}.

Definition set_ticks (v : nat) (w : JPLScanWindow) : JPLScanWindow :=
  {| entry_settings := entry_settings w; batchList_len := batchList_len w;
     current_entry_index := current_entry_index w; singleScan := singleScan w;
     accepted := accepted w; out := out w; uncaught := uncaught w; ticks := v |}.

(** ** The monad of methods *)

Definition M (A : Type) : Type := JPLScanWindow -> outcome A * JPLScanWindow.

Definition ret {A} (a : A) : M A := fun w => (Ok a, w).

Definition bind {A B} (m : M A) (k : A -> M B) : M B :=
  fun w =>
    match m w with
    | (Ok a, w') => k a w'
    | (Raise e, w') => (Raise e, w')
    end.

Notation "'do' v <- m ; k" := (bind m (fun v => k))
  (at level 10, v name, m at level 100, k at level 200).
Notation "m >> k" := (bind m (fun _ => k))
  (at level 95, right associativity).

Definition raise {A} (e : exn) : M A := fun w => (Raise e, w).

Definition lift {A} (r : outcome A) : M A := fun w => (r, w).

Definition from_option {A} (o : option A) (e : exn) : M A :=
  match o with
  | Some a => ret a
  | None => raise e
  end.

Definition get_scan : M Scan := fun w => (Ok (singleScan w), w).

Definition modify_scan (f : Scan -> Scan) : M unit :=
  fun w => (Ok tt, set_singleScan (f (singleScan w)) w).

(** An effect that cannot fail: a plot update, a print, a widget call. *)
Definition emit (e : effect) : M unit :=
  fun w => (Ok tt, set_out (out w ++ [e]) w).

(** Reading a module-level name. *)
Definition global (name : string) : M unit :=
  if bool_decide (name ∈ module_globals) then ret tt else raise (NameError name).

(** ** The methods *)

Section Methods.

Context (env : Env).

(** A call on an instrument or on the file store; [err] is what it raises when
    the outside world makes it fail. *)
Definition io {A} (e : effect) (err : exn) (reply : nat -> A) : M A :=
  fun w =>
    let w' := set_ticks (S (ticks w)) w in
    if io_fails env (ticks w) then (Raise err, w')
    else (Ok (reply (ticks w)), set_out (out w' ++ [e]) w').

Definition io_ (e : effect) (err : exn) : M unit := io e err (fun _ => tt).

(** [np.random.random_sample()] *)
Definition random_random_sample : M Q :=
  fun w => (Ok (random_sample env (ticks w)), set_ticks (S (ticks w)) w).

(** [tune_syn], lines 345-349 and 527-529. *)
Definition tune_syn : M unit :=
  do s <- get_scan;
  do f <- from_option (py_index (x s) (current_x_index s)) IndexError;
  match cls s with
  | SingleScan => io_ (set_syn_freq (f / multiplier s)) InstrumentCommunicationError
  | TestClass => emit (print (tune_syn_freq_to (f / multiplier s)))
  end >>
  modify_scan (fun s => set_waitTimer (start (waitTimer s)) s).

(** [update_setting], lines 320-343 and 503-525. *)
Definition update_setting (entry : Entry) : M unit :=
  emit (call_update_setting entry) >>
  do xs <- lift (gen_x_array (e_start entry) (e_stop entry) (e_step entry));
  modify_scan (fun s =>
    {| cls := cls s; filename := filename s; multiplier := multiplier s;
       x := xs;
       current_x_index := 0;
       avg := e_avg entry;
       current_avg := 0;
       sens_index := e_sens entry;
       tc_index := e_tc entry;
       itgtime := e_itgtime entry;
       waittime := e_waittime entry;
       itgTimer := setInterval (itgTimer s) (e_itgtime entry);
       waitTimer := setInterval (waitTimer s) (e_waittime entry);
       y := zeros_like xs;
       y_sum := zeros_like xs;
       pauseButton_checked := pauseButton_checked s |}) >>
  do s <- get_scan;
  emit (setData ySumCurve (x s) (y_sum s)) >>
  match cls s with
  | SingleScan =>
      io_ (set_sens (sens_index s)) InstrumentCommunicationError >>
      io_ (set_tc (tc_index s)) InstrumentCommunicationError
  | TestClass =>
      do sens <- from_option (py_index (Shared_LIASENSLIST env) (sens_index s)) IndexError;
      emit (print (tune_lockin_sensitivity_to sens)) >>
      do tc <- from_option (py_index (Shared_LIATCLIST env) (tc_index s)) IndexError;
      emit (print (tune_lockin_time_constant_to tc))
  end >>
  tune_syn.

(** [JPLScanWindow.stop_timers], lines 225-229. *)
Definition stop_timers : M unit :=
  modify_scan (fun s => set_itgTimer (stop (itgTimer s)) s) >>
  modify_scan (fun s => set_waitTimer (stop (waitTimer s)) s).

(** [self.accept()]: the dialog closes. *)
Definition accept : M unit := fun w => (Ok tt, set_accepted true w).

(** [JPLScanWindow.finish], lines 231-237, with the message box closed before
    any other event is dispatched; [finish_exec] and [finish_resumed] below
    are the method cut at the box. *)
Definition finish : M unit :=
  emit (MsgInfo "Job Finished!") >>
  stop_timers >>
  accept.

(** [JPLScanWindow.next_entry], lines 216-223. *)
Definition next_entry : M unit :=
  (fun w => (Ok tt, set_current_entry_index (current_entry_index w + 1) w)) >>
  do i <- (fun w => (Ok (current_entry_index w), w));
  do n <- (fun w => (Ok (batchList_len w), w));
  if i <? n then
    emit (setCurrentRow i) >>
    do entries <- (fun w => (Ok (entry_settings w), w));
    do entry <- from_option (py_index entries i) IndexError;
    update_setting entry
  else finish.

(** [self.parent.move_to_next_entry.emit()]: the signal is connected to
    [next_entry] in the same thread, so the slot runs inside the call. *)
Definition move_to_next_entry_emit : M unit := next_entry.

(** The hand-off of [save_data], lines 418-423 and 576: [SingleScan] reads the
    time constant back and calls [save.save_lwa]; [TestClass] prints. *)
Definition save_spectrum : M unit :=
  do s0 <- get_scan;
  match cls s0 with
  | SingleScan =>
      do tc <- io read_tc InstrumentCommunicationError (reply_tc env);
      do s <- get_scan;
      do sens <- from_option (py_index (apival_LIASENSLIST env) (sens_index s)) IndexError;
      do tcv <- from_option (py_index (apival_LIATCLIST env) tc) IndexError;
      let h_info := (itgtime s, sens, (tcv * (1 # 1000))%Q, 15, 75) in
      io_ (save_lwa (filename s) (np_div (y_sum s) (current_avg s)) h_info) StorageError
  | TestClass => emit (print save_data_line)
  end.

(** [save_data], lines 415-424 and 575-577. *)
Definition save_data : M unit :=
  save_spectrum >>
  move_to_next_entry_emit.

(** [update_ysum], lines 407-413 and 567-573. *)
Definition update_ysum : M unit :=
  modify_scan (fun s => set_y_sum (np_iadd (y_sum s) (y s)) s) >>
  do s <- get_scan;
  emit (setData ySumCurve (x s) (y_sum s)).

(** [next_freq], lines 390-405 and 550-565. *)
Definition next_freq : M unit :=
  do s <- get_scan;
  if negb (current_avg s mod 2 =? 0) then
    if current_x_index s <? Z.of_nat (length (x s)) - 1 then
      modify_scan (set_current_x_index (current_x_index s + 1))
    else
      modify_scan (set_current_avg (current_avg s + 1)) >>
      update_ysum
  else
    if current_x_index s >? 0 then
      modify_scan (set_current_x_index (current_x_index s - 1))
    else
      modify_scan (set_current_avg (current_avg s + 1)) >>
      update_ysum.

(** The part of [query_lockin_buffer] that both classes share, from the
    assignment into [self.y] to the call of [next_freq]: lines 376-383 and
    539-543. *)
Definition record_and_next (y_avg : Q) : M unit :=
  do s <- get_scan;
  do y' <- from_option (py_setitem (y s) (current_x_index s) y_avg) IndexError;
  modify_scan (set_y y') >>
  do s <- get_scan;
  emit (setData yCurve (x s) (y s)) >>
  next_freq.

(** The termination check, lines 385-388 and 545-548. *)
Definition check_done : M unit :=
  do s <- get_scan;
  if current_avg s >? avg s then save_data else tune_syn.

Definition record_and_advance (y_avg : Q) : M unit :=
  record_and_next y_avg >>
  check_done.

(** How each class obtains the value it records: lines 367-374 and 536-538.
    [SingleScan] names a module-level [lcHandle]. *)
Definition read_sample : M Q :=
  do s <- get_scan;
  match cls s with
  | SingleScan =>
      global "lcHandle" >>
      io_ (lc_write "PAUS") InstrumentCommunicationError >>
      do n <- io (lc_query "SPTS?") InstrumentCommunicationError (reply_SPTS env);
      do buffer_data <- io (lc_query_TRCA 1 0 (n - 1)) InstrumentCommunicationError
                          (reply_TRCA env);
      ret (np_average buffer_data)
  | TestClass =>
      emit (print query_lockin_buffer_line) >>
      random_random_sample
  end.

(** [query_lockin_buffer], lines 364-388 and 535-548. *)
Definition query_lockin_buffer : M unit :=
  do y_avg <- read_sample;
  record_and_advance y_avg.

(** [set_lockin_buffer], lines 351-362 and 531-533. *)
Definition set_lockin_buffer : M unit :=
  do s <- get_scan;
  match cls s with
  | SingleScan =>
      io_ (lc_write "REST") InstrumentCommunicationError >>
      io_ (lc_write "SRAT13") InstrumentCommunicationError >>
      io_ (lc_write "SEND0") InstrumentCommunicationError >>
      io_ (lc_write "STRT") InstrumentCommunicationError
  | TestClass => emit (print clear_lockin_buffer)
  end >>
  modify_scan (fun s => set_itgTimer (start (itgTimer s)) s).

(** [pause_scan], lines 426-434 and 579-587.  Disconnecting a slot that is not
    connected, or everything when nothing is connected, raises [TypeError]. *)
Definition pause_scan (btn_pressed : bool) : M unit :=
  do s <- get_scan;
  if btn_pressed then
    emit (setText "Resume Current Scan") >>
    match cls s with
    | SingleScan =>
        if bool_decide (tune_syn_slot ∈ timeout (waitTimer s)) then
          modify_scan (fun s => set_waitTimer (disconnect (waitTimer s) tune_syn_slot) s)
        else raise TypeError
    | TestClass =>
        match timeout (waitTimer s) with
        | [] => raise TypeError
        | _ => modify_scan (fun s => set_waitTimer (disconnect_all (waitTimer s)) s)
        end
    end
  else
    emit (setText "Pause Current Scan") >>
    modify_scan (fun s =>
      set_waitTimer
        (connect (waitTimer s)
           match cls s with
           | SingleScan => tune_syn_slot
           | TestClass => set_lockin_buffer_slot
           end) s) >>
    modify_scan (fun s => set_waitTimer (start (waitTimer s)) s).

(** [JPLScanWindow.reject], lines 239-249, with the user's answer. *)
Definition reject (yes : bool) : M unit :=
  if yes then stop_timers >> accept else ret tt.



End Methods.

(** ** Construction and the event loop *)

Section EventLoop.

Context (env : Env).

(** [TestClass.__init__], lines 441-501. *)
Definition TestClass_init (fname : string) : Scan :=
  {| cls := TestClass; filename := fname; multiplier := 6;
     x := []; current_x_index := 0; avg := 0; current_avg := 0;
     sens_index := 0; tc_index := 0; itgtime := 60; waittime := 10;
     y := []; y_sum := [];
     itgTimer := {| interval := 60; isActive := false;
                    timeout := [query_lockin_buffer_slot] |};
     waitTimer := {| interval := 10; isActive := false;
                     timeout := [set_lockin_buffer_slot] |};
     pauseButton_checked := false |}.

(** [SingleScan.__init__], lines 255-318. *)
Definition SingleScan_init (fname : string) : outcome Scan :=
  match py_index (apival_MULTIPLIER env) (bandSelect_currentIndex env) with
  | None => Raise IndexError
  | Some m =>
      Ok {| cls := SingleScan; filename := fname; multiplier := m;
            x := []; current_x_index := 0; avg := 0; current_avg := 0;
            sens_index := 0; tc_index := 0; itgtime := 60; waittime := 10;
            y := []; y_sum := [];
            itgTimer := {| interval := 60; isActive := false;
                           timeout := [query_lockin_buffer_slot] |};
            waitTimer := {| interval := 10; isActive := false;
                            timeout := [set_lockin_buffer_slot] |};
            pauseButton_checked := false |}
  end.

(** The labels looked up while the batch list is formatted, lines 172-177. *)
Fixpoint entry_labels (entries : list Entry) : option (list (string * string)) :=
  match entries with
  | [] => Some []
  | e :: rest =>
      match py_index (Shared_LIASENSLIST env) (e_sens e),
            py_index (Shared_LIATCLIST env) (e_tc e) with
      | Some s, Some t =>
          match entry_labels rest with
          | Some ls => Some ((s, t) :: ls)
          | None => None
          end
      | _, _ => None
      end
  end.

(** The attributes of a batch window around a given scan widget, before
    anything is shown or sent. *)
Definition window_of (entries : list Entry) (scan : Scan) : JPLScanWindow :=
  {| entry_settings := entries;
     batchList_len := Z.of_nat (length entries);
     current_entry_index := -1;
     singleScan := scan;
     accepted := false;
     out := []; uncaught := []; ticks := 0 |}.

(** [JPLScanWindow.__init__], lines 163-214: the labels of the batch list
    are formatted, row 0 of the list is selected (line 182), the window is
    built around a [TestClass] widget and the first [move_to_next_entry] is
    emitted. *)
Definition JPLScanWindow_init (entries : list Entry) (fname : string)
  : outcome unit * JPLScanWindow :=
  let w := window_of entries (TestClass_init fname) in
  match entry_labels entries with
  | None => (Raise IndexError, w)
  | Some _ => (emit (setCurrentRow 0) >> move_to_next_entry_emit env) w
  end.

Inductive event :=
| waitTimer_timeout
| itgTimer_timeout
| pauseButton_clicked
| reject_answered (yes : bool).

Definition run_slot (s : slot) : M unit :=
  match s with
  | set_lockin_buffer_slot => set_lockin_buffer env
  | query_lockin_buffer_slot => query_lockin_buffer env
  | tune_syn_slot => tune_syn env
  end.

(** A slot called from the event loop: an exception it raises is reported on
    the error stream and the loop goes on. *)
Definition invoke (m : M unit) (w : JPLScanWindow) : JPLScanWindow :=
  match m w with
  | (Ok _, w') => w'
  | (Raise e, w') => set_uncaught (uncaught w' ++ [e]) w'
  end.

Definition invoke_all (slots : list slot) (w : JPLScanWindow) : JPLScanWindow :=
  fold_left (fun w s => invoke (run_slot s) w) slots w.

(** One turn of the event loop.  A timer fires only while it is active, and
    being single-shot it is inactive when its slots run; the buttons are
    reachable only while the dialog is open. *)
Definition step (ev : event) (w : JPLScanWindow) : JPLScanWindow :=
  let s := singleScan w in
  match ev with
  | waitTimer_timeout =>
      if isActive (waitTimer s) then
        invoke_all (timeout (waitTimer s))
          (set_singleScan (set_waitTimer (expire (waitTimer s)) s) w)
      else w
  | itgTimer_timeout =>
      if isActive (itgTimer s) then
        invoke_all (timeout (itgTimer s))
          (set_singleScan (set_itgTimer (expire (itgTimer s)) s) w)
      else w
  | pauseButton_clicked =>
      if accepted w then w
      else
        let b := negb (pauseButton_checked s) in
        invoke (pause_scan b) (set_singleScan (set_pauseButton_checked b s) w)
  | reject_answered yes =>
      if accepted w then w else invoke (reject yes) w
  end.

Definition run (evs : list event) (w : JPLScanWindow) : JPLScanWindow :=
  fold_left (fun w ev => step ev w) evs w.

End EventLoop.

(** ** Observations on a trace *)

Definition installs (t : list effect) : list Entry :=
  omap (fun e => match e with call_update_setting en => Some en | _ => None end) t.

Definition is_complete (e : effect) : bool :=
  match e with
  | save_lwa _ _ _ => true
  | print save_data_line => true
  | _ => false
  end.

Definition completions (t : list effect) : nat :=
  length (List.filter is_complete t).

Definition is_tune (e : effect) : bool :=
  match e with
  | set_syn_freq _ => true
  | print (tune_syn_freq_to _) => true
  | _ => false
  end.

Definition tunes (t : list effect) : nat :=
  length (List.filter is_tune t).

Definition is_finished (e : effect) : bool :=
  match e with
  | MsgInfo _ => true
  | _ => false
  end.

Definition batch_finished (t : list effect) : bool := existsb is_finished t.

(** The batch-level reading of a trace: which entry was installed, when a
    window was completed (its spectrum saved, or ['save data'] printed by
    [TestClass]), and when the batch was declared finished. *)
Inductive marker :=
| installed (e : Entry)
| completed
| finished.

Definition marker_of (e : effect) : option marker :=
  match e with
  | call_update_setting en => Some (installed en)
  | save_lwa _ _ _ => Some completed
  | print save_data_line => Some completed
  | MsgInfo _ => Some finished
  | _ => None
  end.

Definition markers (t : list effect) : list marker := omap marker_of t.

(** The markers of a batch that is at entry [i] of its plan: the entries
    before [i] installed and completed one after the other, then entry [i]
    installed, or the batch finished when the plan has no entry [i]. *)
Definition expected (entries : list Entry) (i : nat) : list marker :=
  (flat_map (fun e => [installed e; completed]) (take i entries) ++
   match entries !! i with
   | Some e => [installed e]
   | None => [finished]
   end)%list.

(** No instrument or storage operation fails. *)
Definition healthy (env : Env) : Prop := forall k, io_fails env k = false.

(** ** The sweep pattern

    With axis length [L], acquisition [0] is the priming one at index 0 and
    full pass [m >= 1] consists of the acquisitions [(m-1)*L + 1, ..., m*L],
    taken at increasing indices when [m] is odd and at decreasing ones when
    [m] is even. *)

Section Sweep.

Context (L : nat) (v : nat -> Q).

(** The acquisition of pass [m >= 1] that lands on index [i]. *)
Definition acq (m i : nat) : nat :=
  ((m - 1) * L + 1 + (if Nat.odd m then i else L - 1 - i))%nat.

(** The current-pass array as it stands when pass [m] is folded into the sum;
    pass 0 is the priming pass. *)
Definition pass (m : nat) : list Q :=
  match m with
  | O => <[0%nat := v 0%nat]> (replicate L 0%Q)
  | _ => map (fun i => v (acq m i)) (seq 0 L)
  end.

(** The accumulated sum once passes [0..q] have been folded in. *)
Definition sum_through (q : nat) : list Q :=
  fold_left np_iadd (map pass (seq 0 (S q))) (replicate L 0%Q).

(** The current-pass array [r] acquisitions into pass [q + 1]. *)
Definition partial (q r : nat) : list Q :=
  if Nat.even q then take r (pass (S q)) ++ drop r (pass q)
  else take (L - r) (pass q) ++ drop (L - r) (pass (S q)).


(** Index, pass counter, current-pass array and accumulated sum once passes
    [0..q] are complete and [r] acquisitions of pass [q + 1] are done. *)
Definition state_at (q r : nat) : Z * Z * list Q * list Q :=
  (Z.of_nat (if Nat.even q then r else L - 1 - r), Z.of_nat (1 + q),
   partial q r, sum_through q).

(** The same four components right after [update_setting]. *)
Definition fresh : Z * Z * list Q * list Q :=
  (0, 0, replicate L 0%Q, replicate L 0%Q).

End Sweep.

(** The four components of a scan widget that an acquisition changes. *)
Definition pp_of (s : Scan) : Z * Z * list Q * list Q :=
  (current_x_index s, current_avg s, y s, y_sum s).

(** [record_and_next] on those components, for an index that is in range. *)
Definition pp_step (L : Z) (v : Q) (c : Z * Z * list Q * list Q)
  : Z * Z * list Q * list Q :=
  let '(i, p, ys, sum) := c in
  let ys' := <[Z.to_nat i := v]> ys in
  if negb (p mod 2 =? 0) then
    if i <? L - 1 then (i + 1, p, ys', sum) else (i, p + 1, ys', np_iadd sum ys')
  else
    if i >? 0 then (i - 1, p, ys', sum) else (i, p + 1, ys', np_iadd sum ys').

Fixpoint pp_feed (L : nat) (v : nat -> Q) (k : nat) : Z * Z * list Q * list Q :=
  match k with
  | O => fresh L
  | S k' => pp_step (Z.of_nat L) (v k') (pp_feed L v k')
  end.

(** The attributes that only [update_setting] assigns. *)
Definition settings (s : Scan) :=
  (cls s, filename s, multiplier s, x s, avg s, sens_index s, tc_index s,
   itgtime s, waittime s).

(** A step that stays inside the current window and does not complete it. *)
Definition quiet (w w' : JPLScanWindow) : Prop :=
  settings (singleScan w') = settings (singleScan w) /\
  completions (out w') = completions (out w) /\
  installs (out w') = installs (out w).

(** What a pass boundary does: the counter goes up by one, the index stays,
    the whole current-pass array is added into the sum, element by element,
    and the sum is replotted. *)
Definition pass_boundary (w w' : JPLScanWindow) : Prop :=
  let s := singleScan w in
  let s' := singleScan w' in
  current_avg s' = current_avg s + 1 /\
  current_x_index s' = current_x_index s /\
  y_sum s' = np_iadd (y_sum s) (y s) /\
  (length (y s) = length (y_sum s) -> length (y_sum s') = length (y_sum s)) /\
  (forall (i : nat) (a b : Q),
     y_sum s !! i = Some a -> y s !! i = Some b ->
     y_sum s' !! i = Some (a + b)%Q) /\
  out w' = (out w ++ [setData ySumCurve (x s) (y_sum s')])%list.

(** ** The batch seen from its trace *)

(** The batch-level part of the state. *)
Definition batch_of (w : JPLScanWindow) :=
  (entry_settings w, batchList_len w, current_entry_index w, accepted w,
   timeout (itgTimer (singleScan w))).

Definition wait_slots_ok (w : JPLScanWindow) : Prop :=
  query_lockin_buffer_slot ∉ timeout (waitTimer (singleScan w)).

(** A method that leaves the batch where it is. *)
Definition silent (w w' : JPLScanWindow) : Prop :=
  batch_of w' = batch_of w /\
  markers (out w') = markers (out w) /\
  (wait_slots_ok w -> wait_slots_ok w').

(** What [next_entry] does to the batch. *)
Definition advanced (w w' : JPLScanWindow) : Prop :=
  entry_settings w' = entry_settings w /\
  batchList_len w' = batchList_len w /\
  current_entry_index w' = current_entry_index w + 1 /\
  timeout (itgTimer (singleScan w')) = timeout (itgTimer (singleScan w)) /\
  (wait_slots_ok w -> wait_slots_ok w') /\
  match entry_settings w !! Z.to_nat (current_entry_index w + 1) with
  | Some e =>
      accepted w' = accepted w /\
      markers (out w') = (markers (out w) ++ [installed e])%list
  | None =>
      accepted w' = true /\
      isActive (itgTimer (singleScan w')) = false /\
      isActive (waitTimer (singleScan w')) = false /\
      markers (out w') = (markers (out w) ++ [finished])%list
  end.

(** What one call of a slot can do to the batch: nothing, or complete the
    current window and move to the next entry. *)
Definition turn (w w' : JPLScanWindow) : Prop :=
  entry_settings w' = entry_settings w /\
  batchList_len w' = batchList_len w /\
  timeout (itgTimer (singleScan w')) = timeout (itgTimer (singleScan w)) /\
  (wait_slots_ok w -> wait_slots_ok w') /\
  ((current_entry_index w' = current_entry_index w /\
    accepted w' = accepted w /\
    markers (out w') = markers (out w))
   \/
   (current_entry_index w' = current_entry_index w + 1 /\
    match entry_settings w !! Z.to_nat (current_entry_index w + 1) with
    | Some e =>
        accepted w' = accepted w /\
        markers (out w') = (markers (out w) ++ [completed; installed e])%list
    | None =>
        accepted w' = true /\
        isActive (itgTimer (singleScan w')) = false /\
        isActive (waitTimer (singleScan w')) = false /\
        markers (out w') = (markers (out w) ++ [completed; finished])%list
    end)).

(** The batch invariant: the trace read at batch level is the one expected at
    the current entry, a closed dialog has no running timer, and only the
    integration timer can call [query_lockin_buffer]. *)
Definition batch_inv (entries : list Entry) (w : JPLScanWindow) : Prop :=
  entry_settings w = entries /\
  batchList_len w = Z.of_nat (length entries) /\
  timeout (itgTimer (singleScan w)) = [query_lockin_buffer_slot] /\
  wait_slots_ok w /\
  (accepted w = true ->
   isActive (itgTimer (singleScan w)) = false /\
   isActive (waitTimer (singleScan w)) = false) /\
  exists i : nat,
    (i <= length entries)%nat /\
    current_entry_index w = Z.of_nat i /\
    markers (out w) = expected entries i /\
    (i = length entries -> accepted w = true).

Definition marker_entry (m : marker) : option Entry :=
  match m with installed e => Some e | _ => None end.
Definition marker_completed (m : marker) : bool :=
  match m with completed => true | _ => false end.
Definition marker_finished (m : marker) : bool :=
  match m with finished => true | _ => false end.

(** Index, counter and both arrays are as they were. *)
Definition arrays_same (w w' : JPLScanWindow) : Prop :=
  pp_of (singleScan w') = pp_of (singleScan w).

(** The only writes inside a window: one element of the current-pass array,
    at the current index, and the current-pass array added into the sum
    together with a step of the pass counter. *)
Definition arrays_step (w w' : JPLScanWindow) : Prop :=
  let s := singleScan w in
  let s' := singleScan w' in
  (y s' = y s \/ exists v, py_setitem (y s) (current_x_index s) v = Some (y s')) /\
  ((y_sum s' = y_sum s /\ current_avg s' = current_avg s) \/
   (y_sum s' = np_iadd (y_sum s) (y s') /\ current_avg s' = current_avg s + 1)).

(** The instruments and the file store as in [env], except that operation
    number [k] fails. *)
Definition failing_at (env : Env) (k : nat) : Env :=
  {| Shared_LIASENSLIST := Shared_LIASENSLIST env;
     Shared_LIATCLIST := Shared_LIATCLIST env;
     apival_LIASENSLIST := apival_LIASENSLIST env;
     apival_LIATCLIST := apival_LIATCLIST env;
     apival_MULTIPLIER := apival_MULTIPLIER env;
     bandSelect_currentIndex := bandSelect_currentIndex env;
     io_fails := fun n => Nat.eqb n k;
     reply_SPTS := reply_SPTS env;
     reply_TRCA := reply_TRCA env;
     reply_tc := reply_tc env;
     random_sample := random_sample env |}.

(** Commands to the instruments and to the file store, as opposed to what the
    user sees. *)
Definition is_command (e : effect) : bool :=
  match e with
  | set_syn_freq _ | set_sens _ | set_tc _ | read_tc
  | lc_write _ | lc_query _ | lc_query_TRCA _ _ _ | save_lwa _ _ _ => true
  | _ => false
  end.

(** What a failed call leaves behind. *)
Definition left_as_it_was (w w' : JPLScanWindow) : Prop :=
  batch_of w' = batch_of w /\
  markers (out w') = markers (out w) /\
  pp_of (singleScan w') = pp_of (singleScan w) /\
  itgTimer (singleScan w') = itgTimer (singleScan w) /\
  waitTimer (singleScan w') = waitTimer (singleScan w) /\
  exists t, out w' = (out w ++ t)%list /\ forallb is_command t = true.

(** ** A laboratory for examples *)

Definition lab : Env :=
  {| Shared_LIASENSLIST := ["2 nV"; "5 nV"; "10 nV"];
     Shared_LIATCLIST := ["10 us"; "30 us"; "100 us"];
     apival_LIASENSLIST := ["2 nV"; "5 nV"; "10 nV"];
     apival_LIATCLIST := [1 # 100; 3 # 100; 1 # 10]%Q;
     apival_MULTIPLIER := [1; 2; 3; 3; 6; 9]%Q;
     bandSelect_currentIndex := 4;
     io_fails := fun _ => false;
     reply_SPTS := fun _ => 4;
     reply_TRCA := fun k => [inject_Z (Z.of_nat k); inject_Z (Z.of_nat k + 2)];
     reply_tc := fun _ => 1;
     random_sample := fun k => inject_Z (Z.of_nat k + 1) |}.

Definition entry_10 : Entry :=
  {| e_start := 10; e_stop := 1002 # 100; e_step := 1 # 100; e_avg := 1;
     e_sens := 1; e_tc := 2; e_itgtime := 60; e_waittime := 10 |}.

(** A [SingleScan] widget in the laboratory, in a batch window of its own. *)
Definition lab_single : Scan :=
  match SingleScan_init lab "scan.lwa" with
  | Ok s => s
  | Raise _ => TestClass_init "scan.lwa"
  end.

Definition lab_single_window : JPLScanWindow :=
  snd (update_setting lab entry_10 (window_of [entry_10] lab_single)).

(** The batch window as [JPLScanWindow] builds it, on a one-entry plan. *)
Definition lab_window : JPLScanWindow :=
  snd (JPLScanWindow_init lab [entry_10] "scan.lwa").


(** [n] times a wait-timer expiry followed by an integration-timer expiry. *)
Definition lab_cycles (n : nat) : list event :=
  concat (replicate n [waitTimer_timeout; itgTimer_timeout]).

(** The same window at the end of its first full pass: the counter is 1, the
    index is on the last point, the priming value is in the sum and the three
    values of the pass are in the current-pass array. *)
Definition lab_turning_window : JPLScanWindow :=
  set_singleScan
    (set_current_x_index 2
       (set_current_avg 1
          (set_y [2; 5; 7]%Q
             (set_y_sum [1; 0; 0]%Q (singleScan lab_single_window)))))
    lab_single_window.

Definition entry_20 : Entry :=
  {| e_start := 20; e_stop := 2001 # 100; e_step := 1 # 100; e_avg := 2;
     e_sens := 0; e_tc := 1; e_itgtime := 30; e_waittime := 5 |}.

(** ** What an idle widget leaves alone *)

(** Nothing was recorded, installed or completed between [w] and [w']. *)
Definition nothing_recorded (w w' : JPLScanWindow) : Prop :=
  settings (singleScan w') = settings (singleScan w) /\
  pp_of (singleScan w') = pp_of (singleScan w) /\
  markers (out w') = markers (out w) /\
  current_entry_index w' = current_entry_index w.

(** ** A batch on [TestClass] *)

(** An entry that [update_setting] of [TestClass] can install: its axis is
    generated and is not empty, and both of its labels exist. *)
Definition entry_ok (env : Env) (e : Entry) : Prop :=
  (exists xs, gen_x_array (e_start e) (e_stop e) (e_step e) = Ok xs /\ xs <> []) /\
  is_Some (py_index (Shared_LIASENSLIST env) (e_sens e)) /\
  is_Some (py_index (Shared_LIATCLIST env) (e_tc e)).

(** How [JPLScanWindow] wires a batch on [TestClass]: the plan can be
    installed entry by entry, the integration timer calls
    [query_lockin_buffer], the wait timer calls [set_lockin_buffer] unless the
    scan is paused, both data arrays have the length of the axis, and no
    exception has escaped. *)
Definition wired (env : Env) (w : JPLScanWindow) : Prop :=
  let s := singleScan w in
  cls s = TestClass /\
  Forall (entry_ok env) (entry_settings w) /\
  batchList_len w = Z.of_nat (length (entry_settings w)) /\
  -1 <= current_entry_index w /\
  timeout (itgTimer s) = [query_lockin_buffer_slot] /\
  timeout (waitTimer s) =
    (if pauseButton_checked s then [] else [set_lockin_buffer_slot]) /\
  length (y s) = length (x s) /\
  length (y_sum s) = length (x s) /\
  uncaught w = [].

(** What holds between two events of a batch that runs on [TestClass]: while
    the dialog is open the index is on the axis, and once it is closed no
    timer runs. *)
Definition TestClass_inv (env : Env) (w : JPLScanWindow) : Prop :=
  let s := singleScan w in
  wired env w /\
  (accepted w = false -> 0 <= current_x_index s < Z.of_nat (length (x s))) /\
  (accepted w = true ->
   isActive (itgTimer s) = false /\ isActive (waitTimer s) = false).

(** The part of the window that [record_and_next] does not touch. *)
Definition frame_of (w : JPLScanWindow) :=
  (settings (singleScan w), itgTimer (singleScan w), waitTimer (singleScan w),
   pauseButton_checked (singleScan w), entry_settings w, batchList_len w,
   current_entry_index w, accepted w, uncaught w).

(** A plan whose axes can all be generated. *)
Definition axes_ok (entries : list Entry) : Prop :=
  Forall (fun e => exists xs,
            gen_x_array (e_start e) (e_stop e) (e_step e) = Ok xs /\ xs <> [])
    entries.

(** The values that [TestClass] draws, counted from the draw of [w0]. *)
Definition drawn (env : Env) (w0 : JPLScanWindow) (i : nat) : Q :=
  random_sample env (ticks w0 + i)%nat.

(** [w] is [k] acquisitions into the window that [w0] has just installed, the
    wait timer running. *)
Definition sweeping (env : Env) (w0 : JPLScanWindow) (k : nat) (w : JPLScanWindow)
  : Prop :=
  TestClass_inv env w /\
  accepted w = false /\
  pauseButton_checked (singleScan w) = false /\
  isActive (waitTimer (singleScan w)) = true /\
  settings (singleScan w) = settings (singleScan w0) /\
  markers (out w) = markers (out w0) /\
  current_entry_index w = current_entry_index w0 /\
  ticks w = (ticks w0 + k)%nat /\
  pp_of (singleScan w) = pp_feed (length (x (singleScan w0))) (drawn env w0) k /\
  entry_settings w = entry_settings w0.





(** ** The configuration dialog *)

(** What the user has put into one row of the dialog. *)
Record RowFields := mkFields {
  startFreqFill : string;
  stopFreqFill : string;
  stepFill : string;
  avgFill : string;
  sensSel : Z;
  tcSel : Z;
  itgTimeFill : string;
  waitTimeFill : string
}.

(** A row widget, [Shared.FreqWinEntryCaption] or
    [Shared.FreqWinEntryNoCaption]: an object of its own, with its fields. *)
Record FreqWinEntry := mkRow {
  widget_id : nat;
  fields : RowFields
}.

(** The validators of [api/validator.py], which is not among the sources: each
    returns a status, of which the dialog only tests the truth value, and the
    value it has read. *)
Record apival := mkApival {
  val_prob_freq : string -> Z -> bool * Q;
  val_float : string -> bool * Q;
  val_int : string -> bool * Z;
  val_itgtime : string -> Z -> bool * Q;
  val_waittime : string -> bool * Q
}.

Inductive dialog_effect :=
| MsgWarning (title text : string)
| MsgError (title text : string)
| deleteLater (id : nat)
| apilc_read_tc.

Inductive config_exn :=
| AttributeError (name : string)
| Raised (e : exn).

Inductive result (A : Type) :=
| Done (a : A)
| Failed (e : config_exn).
Arguments Done {A} a.
Arguments Failed {A} e.

(** [JPLScanConfig]: the rows, the layout that shows them, the file name (an
    attribute that only [set_file_directory] creates), the label, whether the
    dialog was accepted, what it did to the outside, the widgets built so far
    and the oracle counter. *)
Record JPLScanConfig := mkConfig {
  entryWidgetList : list FreqWinEntry;
  entryLayout : list nat;
  config_filename : option string;
  fileLabel : string;
  config_accepted : bool;
  config_out : list dialog_effect;
  widgets_built : nat;
  config_ticks : nat
}.

(** [JPLScanConfig.__init__], lines 22-79, with the caption row as
    [Shared.FreqWinEntryCaption] builds it. *)
Definition JPLScanConfig_init (caption : RowFields) : JPLScanConfig :=
  {| entryWidgetList := [mkRow 0 caption];
     entryLayout := [0%nat];
     config_filename := None;
     fileLabel := "Save Data to: ";
     config_accepted := false;
     config_out := [];
     widgets_built := 1;
     config_ticks := 0 |}.

(** [add_entry], lines 81-88, with the row as [Shared.FreqWinEntryNoCaption]
    builds it. *)
Definition add_entry (new : RowFields) (c : JPLScanConfig) : JPLScanConfig :=
  let entry := mkRow (widgets_built c) new in
  {| entryWidgetList := (entryWidgetList c ++ [entry])%list;
     entryLayout := (entryLayout c ++ [widget_id entry])%list;
     config_filename := config_filename c;
     fileLabel := fileLabel c;
     config_accepted := config_accepted c;
     config_out := config_out c;
     widgets_built := S (widgets_built c);
     config_ticks := config_ticks c |}.

(** [layout.removeWidget(w)] *)
Definition removeWidget (id : nat) (layout : list nat) : list nat :=
  List.filter (fun i => negb (Nat.eqb i id)) layout.

(** [remove_entry], lines 90-102.  [list.pop()] raises [IndexError] on an
    empty list. *)
Definition remove_entry (c : JPLScanConfig) : result unit * JPLScanConfig :=
  if Z.of_nat (length (entryWidgetList c)) =? 1 then
    (Done tt,
     {| entryWidgetList := entryWidgetList c;
        entryLayout := entryLayout c;
        config_filename := config_filename c;
        fileLabel := fileLabel c;
        config_accepted := config_accepted c;
        config_out := (config_out c ++
          [MsgWarning "Cannot remove batch!" "At least one batch entry is required!"])%list;
        widgets_built := widgets_built c;
        config_ticks := config_ticks c |})
  else
    match last (entryWidgetList c) with
    | None => (Failed (Raised IndexError), c)
    | Some entry =>
        (Done tt,
         {| entryWidgetList := removelast (entryWidgetList c);
            entryLayout := removeWidget (widget_id entry) (entryLayout c);
            config_filename := config_filename c;
            fileLabel := fileLabel c;
            config_accepted := config_accepted c;
            config_out := (config_out c ++ [deleteLater (widget_id entry)])%list;
            widgets_built := widgets_built c;
            config_ticks := config_ticks c |})
    end.

(** [set_file_directory], lines 104-113, with what the file dialog reports as
    selected. *)
Definition set_file_directory (selectedFiles : list string) (c : JPLScanConfig)
  : result unit * JPLScanConfig :=
  match selectedFiles with
  | [] => (Failed (Raised IndexError), c)
  | f :: _ =>
      (Done tt,
       {| entryWidgetList := entryWidgetList c;
          entryLayout := entryLayout c;
          config_filename := Some f;
          fileLabel := "Save Data to: " ++ f;
          config_accepted := config_accepted c;
          config_out := config_out c;
          widgets_built := widgets_built c;
          config_ticks := config_ticks c |})
  end.

(** Lines 131-143: one row read through the validators; the first component
    is the truth value of [status1 or ... or status6]. *)
Definition read_row (av : apival) (vdi_index : Z) (entry : FreqWinEntry)
  : bool * Entry :=
  let r := fields entry in
  let '(status1, start_freq) := val_prob_freq av (startFreqFill r) vdi_index in
  let '(status2, stop_freq) := val_prob_freq av (stopFreqFill r) vdi_index in
  let '(status3, step) := val_float av (stepFill r) in
  let '(status4, average) := val_int av (avgFill r) in
  let sens_index := sensSel r in
  let tc_index := tcSel r in
  let '(status5, itgtime) := val_itgtime av (itgTimeFill r) tc_index in
  let '(status6, waittime) := val_waittime av (waitTimeFill r) in
  (status1 || status2 || status3 || status4 || status5 || status6,
   {| e_start := start_freq; e_stop := stop_freq; e_step := step;
      e_avg := average; e_sens := sens_index; e_tc := tc_index;
      e_itgtime := itgtime; e_waittime := waittime |}).

(** The loop of lines 129-147; [no_error] starts as [True] and is multiplied
    by [True] or by [False]. *)
Fixpoint read_rows (av : apival) (vdi_index : Z) (rows : list FreqWinEntry)
    (no_error : Z) (entry_settings : list Entry) : Z * list Entry :=
  match rows with
  | [] => (no_error, entry_settings)
  | entry :: rest =>
      let '(bad, setting_entry) := read_row av vdi_index entry in
      if negb bad then
        read_rows av vdi_index rest (no_error * 1) (entry_settings ++ [setting_entry])%list
      else
        read_rows av vdi_index rest (no_error * 0) entry_settings
  end.

(** [get_settings], lines 115-154.  It returns the pair of line 151, or
    [None] after the error box. *)
Definition get_settings (av : apival) (env : Env) (c : JPLScanConfig)
  : result (option (list Entry * string)) * JPLScanConfig :=
  let vdi_index := bandSelect_currentIndex env in
  let c1 :=
    {| entryWidgetList := entryWidgetList c; entryLayout := entryLayout c;
       config_filename := config_filename c; fileLabel := fileLabel c;
       config_accepted := config_accepted c; config_out := config_out c;
       widgets_built := widgets_built c; config_ticks := S (config_ticks c) |} in
  if io_fails env (config_ticks c) then
    (Failed (Raised InstrumentCommunicationError), c1)
  else
    let out1 := (config_out c ++ [apilc_read_tc])%list in
    let '(no_error, entry_settings) :=
      read_rows av vdi_index (entryWidgetList c) 1 [] in
    if negb (no_error =? 0) then
      let c2 :=
        {| entryWidgetList := entryWidgetList c; entryLayout := entryLayout c;
           config_filename := config_filename c; fileLabel := fileLabel c;
           config_accepted := true; config_out := out1;
           widgets_built := widgets_built c; config_ticks := S (config_ticks c) |} in
      match config_filename c with
      | Some f => (Done (Some (entry_settings, f)), c2)
      | None => (Failed (AttributeError "filename"), c2)
      end
    else
      (Done None,
       {| entryWidgetList := entryWidgetList c; entryLayout := entryLayout c;
          config_filename := config_filename c; fileLabel := fileLabel c;
          config_accepted := config_accepted c;
          config_out := (out1 ++
            [MsgError "Invalid input!" "Please fix invalid inputs before proceeding."])%list;
          widgets_built := widgets_built c; config_ticks := S (config_ticks c) |}).

(** The buttons of the dialog that change its rows or its file name. *)
Inductive dialog_event :=
| addBatchButton_clicked (new : RowFields)
| removeBatchButton_clicked
| saveButton_clicked (selectedFiles : list string).

(** A slot called from the event loop; the exceptions that escape are counted. *)
Definition dialog_step (ev : dialog_event) (st : JPLScanConfig * list config_exn)
  : JPLScanConfig * list config_exn :=
  let '(c, errs) := st in
  match ev with
  | addBatchButton_clicked new => (add_entry new c, errs)
  | removeBatchButton_clicked =>
      match remove_entry c with
      | (Done _, c') => (c', errs)
      | (Failed e, c') => (c', (errs ++ [e])%list)
      end
  | saveButton_clicked files =>
      match set_file_directory files c with
      | (Done _, c') => (c', errs)
      | (Failed e, c') => (c', (errs ++ [e])%list)
      end
  end.

Definition dialog_run (evs : list dialog_event) (st : JPLScanConfig * list config_exn)
  : JPLScanConfig * list config_exn :=
  fold_left (fun st ev => dialog_step ev st) evs st.

(** The rows and the layout go together: the layout shows the rows in order,
    the caption row first, and every widget is one that was built. *)
Definition rows_inv (caption : RowFields) (c : JPLScanConfig) : Prop :=
  head (entryWidgetList c) = Some (mkRow 0 caption) /\
  entryLayout c = map widget_id (entryWidgetList c) /\
  NoDup (entryLayout c) /\
  Forall (fun i => (i < widgets_built c)%nat) (entryLayout c).

(** The file dialog was closed with nothing selected. *)
Definition chose_nothing (ev : dialog_event) : bool :=
  match ev with
  | saveButton_clicked [] => true
  | _ => false
  end.

Definition is_saveButton (ev : dialog_event) : bool :=
  match ev with
  | saveButton_clicked _ => true
  | _ => false
  end.

(** ** More of the laboratory *)

(** An entry that asks for no average. *)
Definition entry_0avg : Entry :=
  {| e_start := 10; e_stop := 1002 # 100; e_step := 1 # 100; e_avg := 0;
     e_sens := 1; e_tc := 2; e_itgtime := 60; e_waittime := 10 |}.

(** An entry whose sensitivity index has no label in the laboratory. *)
Definition entry_no_label : Entry :=
  {| e_start := 10; e_stop := 1002 # 100; e_step := 1 # 100; e_avg := 1;
     e_sens := 7; e_tc := 2; e_itgtime := 60; e_waittime := 10 |}.

(** A row as a user fills it, and a row left empty. *)
Definition lab_row : RowFields :=
  {| startFreqFill := "300000"; stopFreqFill := "300010"; stepFill := "0.1";
     avgFill := "2"; sensSel := 1; tcSel := 2; itgTimeFill := "60";
     waitTimeFill := "10" |}.

Definition blank_row : RowFields :=
  {| startFreqFill := EmptyString; stopFreqFill := EmptyString;
     stepFill := EmptyString; avgFill := EmptyString; sensSel := 0; tcSel := 0;
     itgTimeFill := EmptyString; waitTimeFill := EmptyString |}.

(** Validators for the examples: they refuse an empty text. *)
Definition lab_apival : apival :=
  {| val_prob_freq := fun s _ => (String.eqb s EmptyString, 300000%Q);
     val_float := fun s => (String.eqb s EmptyString, (1 # 10)%Q);
     val_int := fun s => (String.eqb s EmptyString, 2);
     val_itgtime := fun s _ => (String.eqb s EmptyString, 60%Q);
     val_waittime := fun s => (String.eqb s EmptyString, 10%Q) |}.

(** A dialog with two filled rows and a file name, and the same with one more
    row left empty. *)
Definition lab_config : JPLScanConfig :=
  snd (set_file_directory ["scan.lwa"]
         (add_entry lab_row (JPLScanConfig_init lab_row))).

Definition lab_config_blank : JPLScanConfig := add_entry blank_row lab_config.

(** The laboratory with a lock-in that reports a time constant the table does
    not have. *)
Definition lab_unknown_tc : Env :=
  {| Shared_LIASENSLIST := Shared_LIASENSLIST lab;
     Shared_LIATCLIST := Shared_LIATCLIST lab;
     apival_LIASENSLIST := apival_LIASENSLIST lab;
     apival_LIATCLIST := apival_LIATCLIST lab;
     apival_MULTIPLIER := apival_MULTIPLIER lab;
     bandSelect_currentIndex := bandSelect_currentIndex lab;
     io_fails := io_fails lab;
     reply_SPTS := reply_SPTS lab;
     reply_TRCA := reply_TRCA lab;
     reply_tc := fun _ => 9;
     random_sample := random_sample lab |}.

(** An entry that stops below its start. *)
Definition entry_backwards : Entry :=
  {| e_start := 20; e_stop := 10; e_step := 1 # 100; e_avg := 1;
     e_sens := 1; e_tc := 2; e_itgtime := 60; e_waittime := 10 |}.

(** ** The job-finished box

    [finish] shows its box with [msg.exec_()] (line 235); it stops the timers
    and accepts the dialog only when [exec_] has returned (lines 236-237).
    [exec_] runs an event loop of its own: a timer that is running when the
    box opens expires inside it and its slot runs before [finish] goes on,
    while the box, being modal, keeps the buttons of the window out of reach.
    [finish] above is the method with the box closed before anything else
    happens.  Below it is cut at [exec_()], and the closing of a box is an
    event like the others. *)

Section Box.

Context (env : Env).

(** [finish] up to [msg.exec_()], lines 233-235. *)
Definition finish_exec : M unit := emit (MsgInfo "Job Finished!").

(** [finish] from the return of [exec_()], lines 236-237. *)
Definition finish_resumed : M unit := stop_timers >> accept.

(** [next_entry], lines 216-223, up to the box in its last branch. *)
Definition next_entry_exec : M unit :=
  (fun w => (Ok tt, set_current_entry_index (current_entry_index w + 1) w)) >>
  do i <- (fun w => (Ok (current_entry_index w), w));
  do n <- (fun w => (Ok (batchList_len w), w));
  if i <? n then
    emit (setCurrentRow i) >>
    do entries <- (fun w => (Ok (entry_settings w), w));
    do entry <- from_option (py_index entries i) IndexError;
    update_setting env entry
  else finish_exec.

(** [move_to_next_entry.emit()]: the slot runs inside the call; an exception
    it raises is reported where the signal calls it, and [emit] returns. *)
Definition move_to_next_entry_emit_exec : M unit :=
  fun w => (Ok tt, invoke next_entry_exec w).

(** [save_data], lines 415-424 and 575-577. *)
Definition save_data_exec : M unit :=
  save_spectrum env >>
  move_to_next_entry_emit_exec.

(** [query_lockin_buffer], lines 364-388 and 535-548. *)
Definition query_lockin_buffer_exec : M unit :=
  do y_avg <- read_sample env;
  record_and_next y_avg >>
  do s <- get_scan;
  if current_avg s >? avg s then save_data_exec else tune_syn env.

Definition run_slot_exec (s : slot) : M unit :=
  match s with
  | set_lockin_buffer_slot => set_lockin_buffer env
  | query_lockin_buffer_slot => query_lockin_buffer_exec
  | tune_syn_slot => tune_syn env
  end.

Definition invoke_all_exec (slots : list slot) (w : JPLScanWindow) : JPLScanWindow :=
  fold_left (fun w s => invoke (run_slot_exec s) w) slots w.

(** [JPLScanWindow.__init__], lines 163-214. *)
Definition JPLScanWindow_init_exec (entries : list Entry) (fname : string)
  : outcome unit * JPLScanWindow :=
  let w := window_of entries (TestClass_init fname) in
  match entry_labels env entries with
  | None => (Raise IndexError, w)
  | Some _ => (emit (setCurrentRow 0) >> move_to_next_entry_emit_exec) w
  end.

(** The events of a batch window and of its boxes. *)
Inductive box_event :=
| dispatched (ev : event)
| MsgInfo_closed.

(** The boxes shown so far. *)
Definition boxes_shown (t : list effect) : nat :=
  length (List.filter is_finished t).

(** A window together with the number of its boxes that were closed: a box is
    open while fewer were closed than shown. *)
Definition box_open (st : JPLScanWindow * nat) : bool :=
  (snd st <? boxes_shown (out (fst st)))%nat.

(** One turn of the event loop, or of the loop of an open box.  A timer
    expires in either; the buttons are reachable only while the dialog is open
    and no box is; closing a box lets one [finish] go on. *)
Definition step_exec (ev : box_event) (st : JPLScanWindow * nat)
  : JPLScanWindow * nat :=
  let w := fst st in
  let s := singleScan w in
  match ev with
  | dispatched waitTimer_timeout =>
      if isActive (waitTimer s) then
        (invoke_all_exec (timeout (waitTimer s))
           (set_singleScan (set_waitTimer (expire (waitTimer s)) s) w), snd st)
      else st
  | dispatched itgTimer_timeout =>
      if isActive (itgTimer s) then
        (invoke_all_exec (timeout (itgTimer s))
           (set_singleScan (set_itgTimer (expire (itgTimer s)) s) w), snd st)
      else st
  | dispatched pauseButton_clicked =>
      if accepted w || box_open st then st
      else
        let b := negb (pauseButton_checked s) in
        (invoke (pause_scan b) (set_singleScan (set_pauseButton_checked b s) w),
         snd st)
  | dispatched (reject_answered yes) =>
      if accepted w || box_open st then st else (invoke (reject yes) w, snd st)
  | MsgInfo_closed =>
      if box_open st then (invoke finish_resumed w, S (snd st)) else st
  end.

Definition run_exec (evs : list box_event) (st : JPLScanWindow * nat)
  : JPLScanWindow * nat :=
  fold_left (fun st ev => step_exec ev st) evs st.

End Box.

(** The window under way is the one of the current entry of the plan. *)
Definition at_entry (w : JPLScanWindow) : Prop :=
  forall e, entry_settings w !! Z.to_nat (current_entry_index w) = Some e ->
    avg (singleScan w) = e_avg e /\
    gen_x_array (e_start e) (e_stop e) (e_step e) = Ok (x (singleScan w)).

(** What one event does to the batch: nothing, or it completes the window
    under way and moves to the next entry, or to the box when there is
    none. *)
Definition turn_exec (w w' : JPLScanWindow) : Prop :=
  entry_settings w' = entry_settings w /\
  ((current_entry_index w' = current_entry_index w /\
    markers (out w') = markers (out w))
   \/
   (current_entry_index w' = current_entry_index w + 1 /\
    markers (out w') =
      (markers (out w) ++
       [completed;
        match entry_settings w !! Z.to_nat (current_entry_index w + 1) with
        | Some e => installed e
        | None => finished
        end])%list)).

(** The trace of a batch that has completed [i] windows of its plan and then
    [j] more times the last one. *)
Definition expected_exec (entries : list Entry) (i j : nat) : list marker :=
  (expected entries i ++ concat (replicate j [completed; finished]))%list.

(** The batch invariant with the box: the window under way is the one of the
    current entry, and the trace read at batch level is the one of [i] windows
    completed in plan order and then [j] more completions of the last one,
    which can only happen once the plan is through. *)
Definition batch_exec_inv (env : Env) (entries : list Entry) (w : JPLScanWindow)
  : Prop :=
  TestClass_inv env w /\ at_entry w /\
  entry_settings w = entries /\
  exists i j : nat,
    (i <= length entries)%nat /\
    ((0 < j)%nat -> i = length entries) /\
    current_entry_index w = Z.of_nat (i + j) /\
    markers (out w) = expected_exec entries i j.

(** What the box adds to the invariant.  No box is closed while the dialog is
    open.  Once the plan is through and until the dialog is accepted, the
    pass counter stays above the average count, at most one timer is running,
    and none is once the last window has been completed a second time. *)
Definition box_inv (entries : list Entry) (st : JPLScanWindow * nat) : Prop :=
  let w := fst st in
  let s := singleScan w in
  let K := Z.of_nat (length entries) in
  (accepted w = false -> snd st = 0%nat) /\
  current_entry_index w <= K + 1 /\
  (K <= current_entry_index w -> accepted w = false ->
   avg s < current_avg s /\
   isActive (waitTimer s) && isActive (itgTimer s) = false /\
   (isActive (waitTimer s) || isActive (itgTimer s) = true ->
    current_entry_index w = K)).

(** A batch of two windows in the laboratory whose user pauses and resumes
    during the last integration: the wait timer, started again by the resume,
    expires inside the job-finished box. *)
Definition lab_box_events : list box_event :=
  map dispatched (lab_cycles 8) ++
  map dispatched [waitTimer_timeout; pauseButton_clicked; pauseButton_clicked;
                  itgTimer_timeout; waitTimer_timeout; itgTimer_timeout] ++
  [MsgInfo_closed; dispatched pauseButton_clicked; MsgInfo_closed].

(** * Facts *)

Local Close Scope string_scope.

(** * The frequency axis *)

Lemma axis_points_length n f step : length (axis_points n f step) = n.
Proof. revert f. induction n as [|n IH]; intros f; simpl; [done | by rewrite IH]. Qed.

Lemma axis_points_succ n f step (i : nat) (a b : Q) :
  axis_points n f step !! i = Some a ->
  axis_points n f step !! S i = Some b ->
  b = (a + step)%Q.
Proof.
  revert f i. induction n as [|n IH]; intros f i Ha Hb; [done|].
  destruct i as [|i]; simpl in *.
  - destruct n; simpl in *; congruence.
  - eapply IH; eauto.
Qed.

Lemma axis_points_lookup n f step (i : nat) (a : Q) :
  axis_points n f step !! i = Some a ->
  (i < n)%nat /\ (a == f + inject_Z (Z.of_nat i) * step)%Q.
Proof.
  revert f i. induction n as [|n IH]; intros f i Ha; [done|].
  destruct i as [|i]; simpl in Ha.
  - injection Ha as <-. split; [lia|]. 
    change (inject_Z (Z.of_nat 0)) with 0%Q. ring.
  - apply IH in Ha as [Hlt Ha]. split; [lia|]. rewrite Ha.
    rewrite Nat2Z.inj_succ. unfold Z.succ. rewrite inject_Z_plus. ring.
Qed.

Lemma axis_points_lookup_lt n f step (i : nat) :
  (i < n)%nat -> exists a, axis_points n f step !! i = Some a.
Proof.
  intros H. apply lookup_lt_is_Some_2. by rewrite axis_points_length.
Qed.

Lemma steps_le_stop (start stop step : Q) (i : nat) :
  (0 < step)%Q -> (start <= stop)%Q ->
  (i < S (Z.to_nat (Qfloor ((stop - start) / step))))%nat ->
  (start + inject_Z (Z.of_nat i) * step <= stop)%Q.
Proof.
  intros Hs Hle Hi.
  assert (Hd : (0 <= (stop - start) / step)%Q).
  { apply Qle_shift_div_l; [done|]. lra. }
  assert (Hf : (0 <= Qfloor ((stop - start) / step))%Z).
  { change 0%Z with (Qfloor 0). by apply Qfloor_resp_le. }
  assert (Hi' : (Z.of_nat i <= Qfloor ((stop - start) / step))%Z) by lia.
  assert (Hq : (inject_Z (Z.of_nat i) <= (stop - start) / step)%Q).
  { eapply Qle_trans; [|apply Qfloor_le]. by rewrite <- Zle_Qle. }
  assert (Hm : (inject_Z (Z.of_nat i) * step <= stop - start)%Q).
  { apply (Qmult_le_compat_r _ _ step) in Hq; [|lra].
    rewrite (Qmult_comm ((stop - start) / step)), Qmult_div_r in Hq; [done|lra]. }
  lra.
Qed.

Lemma gen_x_array_ok (start stop step : Q) :
  (0 < step)%Q -> (start <= stop)%Q ->
  gen_x_array start stop step =
    Ok (axis_points (S (Z.to_nat (Qfloor ((stop - start) / step)))) start step).
Proof.
  intros Hs Hle. unfold gen_x_array.
  destruct (Qle_bool step 0) eqn:E1.
  { apply Qle_bool_iff in E1. lra. }
  destruct (Qle_bool start stop) eqn:E2; [done|].
  apply Qle_bool_iff in Hle. congruence.
Qed.

Lemma gen_x_array_invalid (start stop step : Q) :
  (step <= 0)%Q \/ (stop < start)%Q ->
  gen_x_array start stop step = Raise InvalidRange.
Proof.
  intros H. unfold gen_x_array.
  destruct (Qle_bool step 0) eqn:E1; [done|].
  destruct (Qle_bool start stop) eqn:E2; [|done].
  apply Qle_bool_iff in E2.
  destruct H as [H|H]; [|lra].
  apply Qle_bool_iff in H. congruence.
Qed.

(** C8.  For [step > 0] and [start <= stop] the axis generator returns a
    list that begins with [start], in which each element is the previous one
    plus [step] (so strictly ascending, with differences equal to [step]), all
    of whose elements are at most [stop], and which ends on [stop] when [stop]
    is reachable by whole steps; for [step <= 0] or [start > stop] it fails with
    [InvalidRange]; and from 100.000 to 100.010 by 0.005 it gives
    100.000, 100.005, 100.010. *)
Theorem gen_x_array_ascending (start stop step : Q) :
  ((0 < step)%Q -> (start <= stop)%Q ->
     exists l : list Q,
       gen_x_array start stop step = Ok l /\
       head l = Some start /\
       (forall (i : nat) (a b : Q),
          l !! i = Some a -> l !! S i = Some b -> (a < b)%Q /\ (b - a == step)%Q) /\
       (forall a : Q, a ∈ l -> (a <= stop)%Q) /\
       (forall k : nat, (stop == start + inject_Z (Z.of_nat k) * step)%Q ->
          exists z, last l = Some z /\ (z == stop)%Q)) /\
  ((step <= 0)%Q \/ (stop < start)%Q ->
     gen_x_array start stop step = Raise InvalidRange) /\
  (exists l : list Q,
     gen_x_array 100 (100010 # 1000) (5 # 1000) = Ok l /\
     Forall2 Qeq l [100; 100005 # 1000; 100010 # 1000]%Q).
Proof.
  split; [|split].
  - intros Hs Hle. eexists. split; [by apply gen_x_array_ok|].
    set (n := Z.to_nat (Qfloor ((stop - start) / step))).
    split; [done|]. split; [|split].
    + intros i a b Ha Hb.
      rewrite (axis_points_succ _ _ _ _ _ _ Ha Hb). split; lra.
    + intros a Ha. apply list_elem_of_lookup in Ha as [i Hi].
      apply axis_points_lookup in Hi as [Hlt ->].
      by apply steps_le_stop.
    + intros k Hk.
      assert (Hn : n = k).
      { unfold n.
        assert (E : ((stop - start) / step == inject_Z (Z.of_nat k))%Q).
        { rewrite Hk. field. lra. }
        rewrite E, Qfloor_Z. lia. }
      rewrite last_lookup, axis_points_length. simpl.
      destruct (axis_points_lookup_lt (S n) start step n) as [z Hz]; [lia|].
      exists z. split; [done|].
      apply axis_points_lookup in Hz as [_ ->]. rewrite Hn, Hk. reflexivity.
  - apply gen_x_array_invalid.
  - eexists. split; [vm_compute; reflexivity|].
    repeat constructor.
Qed.

(** * The ping-pong sweep *)

Lemma even_of_nat (n : nat) : Z.even (Z.of_nat n) = Nat.even n.
Proof.
  induction n as [|n IH]; [done|].
  rewrite Nat2Z.inj_succ, Z.even_succ, Nat.even_succ.
  rewrite <- Z.negb_even, <- Nat.negb_even, IH. done.
Qed.

Lemma parity_test (q : nat) :
  negb (Z.of_nat (1 + q) mod 2 =? 0) = Nat.even q.
Proof.
  rewrite <- Zeven_mod, even_of_nat. 
  change (1 + q)%nat with (S q). rewrite Nat.even_succ, <- Nat.negb_even.
  by destruct (Nat.even q).
Qed.

Section SweepFacts.

Context (L : nat) (v : nat -> Q).

Lemma length_pass m : length (pass L v m) = L.
Proof.
  destruct m; simpl.
  - by rewrite length_insert, length_replicate.
  - by rewrite length_map, length_seq.
Qed.

Lemma length_iadd (a b : list Q) :
  length a = length b -> length (np_iadd a b) = length a.
Proof. intros H. unfold np_iadd. rewrite length_zip_with. lia. Qed.

Lemma length_fold_iadd (ls : list (list Q)) (init : list Q) :
  Forall (fun l => length l = length init) ls ->
  length (fold_left np_iadd ls init) = length init.
Proof.
  revert init. induction ls as [|l ls IH]; intros init H; [done|].
  inversion H as [|? ? Hl Hls]; subst. simpl.
  rewrite IH.
  - apply length_iadd. done.
  - rewrite length_iadd by done. done.
Qed.

Lemma length_sum_through q : length (sum_through L v q) = L.
Proof.
  unfold sum_through. rewrite length_fold_iadd; rewrite length_replicate; [done|].
  apply Forall_forall. intros l Hl. apply list_elem_of_fmap in Hl as [m [-> _]].
  apply length_pass.
Qed.

Lemma length_partial q r : (r <= L)%nat -> length (partial L v q r) = L.
Proof.
  intros Hr. unfold partial.
  destruct (Nat.even q); rewrite length_app, length_take, length_drop, !length_pass; lia.
Qed.

Lemma sum_through_succ q :
  sum_through L v (S q) = np_iadd (sum_through L v q) (pass L v (S q)).
Proof.
  unfold sum_through.
  rewrite (seq_S (S q)), map_app, fold_left_app. done.
Qed.

Lemma pass_lookup m (i : nat) :
  (i < L)%nat -> pass L v (S m) !! i = Some (v (acq L (S m) i)).
Proof.
  intros Hi. unfold pass. rewrite list_lookup_fmap, lookup_seq_lt by done. done.
Qed.

Lemma insert_take_drop {A} (P' P : list A) (r : nat) (a : A) :
  length P' = length P -> P' !! r = Some a ->
  <[r := a]> (take r P' ++ drop r P) = take (S r) P' ++ drop (S r) P.
Proof.
  intros Hlen Ha.
  assert (Hr : (r < length P')%nat) by (eapply lookup_lt_Some; eauto).
  rewrite insert_app_r_alt; rewrite length_take; [|lia].
  replace (r - r `min` length P')%nat with 0%nat by lia.
  rewrite (take_S_r _ _ _ Ha), <- app_assoc. f_equal.
  destruct (drop r P) as [|b l] eqn:E.
  - apply (f_equal length) in E. rewrite length_drop in E. simpl in E. lia.
  - simpl. f_equal. 
    assert (E' := f_equal (drop 1) E). rewrite drop_drop in E'. simpl in E'.
    rewrite drop_0 in E'. rewrite <- E'. f_equal. lia.
Qed.

Lemma insert_take_drop_back {A} (P P' : list A) (j : nat) (a : A) :
  length P' = length P -> P' !! j = Some a ->
  <[j := a]> (take (S j) P ++ drop (S j) P') = take j P ++ drop j P'.
Proof.
  intros Hlen Ha.
  assert (Hr : (j < length P')%nat) by (eapply lookup_lt_Some; eauto).
  rewrite insert_app_l; [|rewrite length_take; lia].
  destruct (lookup_lt_is_Some_2 P j) as [b Hb]; [lia|].
  rewrite (take_S_r _ _ _ Hb).
  rewrite insert_app_r_alt; rewrite length_take; [|lia].
  replace (j - j `min` length P)%nat with 0%nat by lia. simpl.
  rewrite <- app_assoc. simpl. f_equal.
  rewrite (drop_S _ _ _ Ha). done.
Qed.

Lemma pp_step_priming :
  pp_step (Z.of_nat L) (v 0%nat) (fresh L) = state_at L v 0 0.
Proof. reflexivity. Qed.

Lemma acq_next q r :
  (r < L)%nat ->
  acq L (S q) (if Nat.even q then r else L - 1 - r)%nat = (1 + q * L + r)%nat.
Proof.
  intros Hr. unfold acq. rewrite Nat.odd_succ.
  destruct (Nat.even q); lia.
Qed.

Lemma partial_insert q r :
  (r < L)%nat ->
  <[(if Nat.even q then r else L - 1 - r)%nat := v (1 + q * L + r)%nat]> (partial L v q r)
  = if Nat.even q then take (S r) (pass L v (S q)) ++ drop (S r) (pass L v q)
    else take (L - 1 - r)%nat (pass L v q) ++ drop (L - 1 - r)%nat (pass L v (S q)).
Proof.
  intros Hr. rewrite <- (acq_next q r Hr). unfold partial.
  destruct (Nat.even q).
  - apply insert_take_drop; [by rewrite !length_pass|]. by apply pass_lookup.
  - replace (L - r)%nat with (S (L - 1 - r)) by lia.
    apply insert_take_drop_back; [by rewrite !length_pass|]. apply pass_lookup. lia.
Qed.

Lemma pp_step_inside q r :
  (S r < L)%nat ->
  pp_step (Z.of_nat L) (v (1 + q * L + r)%nat) (state_at L v q r) = state_at L v q (S r).
Proof.
  intros Hr. unfold state_at, pp_step.
  rewrite parity_test, Nat2Z.id, partial_insert by lia.
  unfold partial. destruct (Nat.even q).
  - destruct (Z.ltb_spec (Z.of_nat r) (Z.of_nat L - 1)); [|lia].
    repeat f_equal. lia.
  - destruct (Z.gtb_spec (Z.of_nat (L - 1 - r)) 0); [|lia].
    replace (L - S r)%nat with (L - 1 - r)%nat by lia.
    repeat f_equal. lia.
Qed.

Lemma pp_step_boundary q r :
  S r = L ->
  pp_step (Z.of_nat L) (v (1 + q * L + r)%nat) (state_at L v q r) = state_at L v (S q) 0.
Proof.
  intros Hr. unfold state_at, pp_step.
  rewrite parity_test, Nat2Z.id, partial_insert by lia.
  rewrite sum_through_succ. unfold partial. rewrite Nat.even_succ, <- Nat.negb_even.
  destruct (Nat.even q); simpl negb; cbv iota.
  - destruct (Z.ltb_spec (Z.of_nat r) (Z.of_nat L - 1)); [lia|].
    rewrite Hr, Nat.sub_0_r.
    rewrite !take_ge, !drop_ge by (rewrite length_pass; lia).
    rewrite !app_nil_r. repeat f_equal; lia.
  - destruct (Z.gtb_spec (Z.of_nat (L - 1 - r)) 0); [lia|].
    replace (L - 1 - r)%nat with 0%nat by lia. rewrite !take_0, !drop_0. simpl.
    repeat f_equal; lia.
Qed.

Lemma pp_feed_closed q r :
  (r < L)%nat -> pp_feed L v (1 + q * L + r) = state_at L v q r.
Proof.
  revert r. induction q as [|q IHq]; intros r Hr.
  - induction r as [|r IHr].
    + simpl. apply pp_step_priming.
    + change (1 + 0 * L + S r)%nat with (S (1 + 0 * L + r)).
      cbn [pp_feed]. rewrite IHr by lia. apply pp_step_inside. done.
  - induction r as [|r IHr].
    + replace (1 + S q * L + 0)%nat with (S (1 + q * L + (L - 1))) by lia.
      cbn [pp_feed]. rewrite IHq by lia. apply pp_step_boundary. lia.
    + replace (1 + S q * L + S r)%nat with (S (1 + S q * L + r)) by lia.
      cbn [pp_feed]. rewrite IHr by lia. apply pp_step_inside. done.
Qed.

End SweepFacts.

Lemma divide_by (L k : nat) :
  (1 <= L)%nat -> exists q r, k = (q * L + r)%nat /\ (r < L)%nat /\ q = (k / L)%nat.
Proof.
  intros HL. exists (k / L)%nat, (k mod L)%nat. split; [|split; [|done]].
  - rewrite (Nat.div_mod_eq k L) at 1. lia.
  - apply Nat.mod_upper_bound. lia.
Qed.

Lemma pp_feed_shape (L : nat) (v : nat -> Q) (k : nat) :
  (1 <= L)%nat ->
  exists i p ys sum,
    pp_feed L v k = (i, p, ys, sum) /\ 0 <= i < Z.of_nat L /\
    length ys = L /\ length sum = L /\
    p = Z.of_nat (match k with O => O | S k' => 1 + k' / L end).
Proof.
  intros HL. destruct k as [|k].
  - do 4 eexists. split; [reflexivity|]. rewrite !length_replicate. repeat split; lia.
  - destruct (divide_by L k HL) as (q & r & -> & Hr & Hq).
    replace (S (q * L + r)) with (1 + q * L + r)%nat by lia.
    rewrite pp_feed_closed by done. do 4 eexists. split; [reflexivity|].
    rewrite length_partial, length_sum_through, <- Hq by lia.
    repeat split; try lia. destruct (Nat.even q); lia.
Qed.

Ltac munfold :=
  unfold record_and_advance, record_and_next, check_done, next_freq, update_ysum,
    tune_syn, save_data, save_spectrum, bind, ret, raise, lift, from_option,
    get_scan, modify_scan, emit, io_, io in *.

Lemma py_setitem_in_range {A} (l : list A) (i : Z) (a : A) :
  0 <= i < Z.of_nat (length l) ->
  py_setitem l i a = Some (<[Z.to_nat i := a]> l).
Proof.
  intros H. unfold py_setitem.
  destruct (0 <=? i) eqn:E1; [|lia]. destruct (i <? _) eqn:E2; [done|lia].
Qed.

Lemma py_index_in_range {A} (l : list A) (i : Z) :
  0 <= i < Z.of_nat (length l) ->
  exists a, py_index l i = Some a /\ l !! Z.to_nat i = Some a.
Proof.
  intros H. unfold py_index.
  destruct (0 <=? i) eqn:E1; [|lia].
  destruct (lookup_lt_is_Some_2 l (Z.to_nat i)) as [a Ha]; [lia|]. eauto.
Qed.

Lemma completions_app (t u : list effect) :
  completions (t ++ u) = (completions t + completions u)%nat.
Proof. unfold completions. by rewrite List.filter_app, length_app. Qed.

Lemma installs_app (t u : list effect) :
  installs (t ++ u) = installs t ++ installs u.
Proof. unfold installs. apply omap_app. Qed.



Lemma quiet_x w w' : quiet w w' -> x (singleScan w') = x (singleScan w).
Proof. intros (H & _). unfold settings in H. congruence. Qed.

Lemma quiet_avg w w' : quiet w w' -> avg (singleScan w') = avg (singleScan w).
Proof. intros (H & _). unfold settings in H. congruence. Qed.

Ltac case_inner :=
  match goal with
  | |- context [match ?c with _ => _ end] =>
      lazymatch c with
      | context [match _ with _ => _ end] => fail
      | _ => destruct c eqn:?
      end
  end.

Ltac trace_facts :=
  unfold quiet, settings; cbn -[completions installs];
  rewrite ?completions_app, ?installs_app; unfold completions, installs; cbn;
  rewrite ?app_nil_r; repeat split; try done; try lia.

Lemma record_and_next_sim w v :
  let s := singleScan w in
  0 <= current_x_index s < Z.of_nat (length (y s)) ->
  exists w', record_and_next v w = (Ok tt, w') /\
    pp_of (singleScan w') = pp_step (Z.of_nat (length (x s))) v (pp_of s) /\
    quiet w w'.
Proof.
  intros s Hi. subst s. munfold.
  rewrite (py_setitem_in_range _ _ _ Hi). cbn.
  unfold pp_of, pp_step.
  repeat (case_match; cbn); eexists; (split; [reflexivity|]); trace_facts.

Qed.


Lemma check_done_not_yet env w :
  current_avg (singleScan w) <= avg (singleScan w) ->
  check_done env w = tune_syn env w.
Proof.
  intros H. unfold check_done, bind, get_scan.
  destruct (Z.gtb_spec (current_avg (singleScan w)) (avg (singleScan w))); [lia|done].
Qed.

Lemma check_done_complete env w :
  avg (singleScan w) < current_avg (singleScan w) ->
  check_done env w = save_data env w.
Proof.
  intros H. unfold check_done, bind, get_scan.
  destruct (Z.gtb_spec (current_avg (singleScan w)) (avg (singleScan w))); [done|lia].
Qed.



Lemma gen_x_array_nonempty (a b c : Q) (xs : list Q) :
  gen_x_array a b c = Ok xs -> (1 <= length xs)%nat.
Proof.
  unfold gen_x_array. case_match; [done|]. intros [= <-]. simpl. lia.
Qed.

Lemma update_setting_installed env e w w0 :
  update_setting env e w = (Ok tt, w0) ->
  exists xs,
    gen_x_array (e_start e) (e_stop e) (e_step e) = Ok xs /\
    pp_of (singleScan w0) = fresh (length xs) /\
    settings (singleScan w0) =
      (cls (singleScan w), filename (singleScan w), multiplier (singleScan w), xs,
       e_avg e, e_sens e, e_tc e, e_itgtime e, e_waittime e).
Proof.
  unfold update_setting. munfold.
  destruct (gen_x_array _ _ _) as [xs|] eqn:Hx; [|done].
  intros H. exists xs. split; [done|]. revert H. cbn.
  destruct (cls (singleScan w)) eqn:Hc; cbn;
    repeat (case_inner; cbn; try done); intros [= <-]; cbn; rewrite ?Hc;
    by split.
Qed.

Lemma save_spectrum_SingleScan env w sens tcv :
  healthy env ->
  cls (singleScan w) = SingleScan ->
  py_index (apival_LIASENSLIST env) (sens_index (singleScan w)) = Some sens ->
  py_index (apival_LIATCLIST env) (reply_tc env (ticks w)) = Some tcv ->
  exists w',
    save_spectrum env w = (Ok tt, w') /\
    singleScan w' = singleScan w /\
    out w' = out w ++
      [read_tc;
       save_lwa (filename (singleScan w))
         (np_div (y_sum (singleScan w)) (current_avg (singleScan w)))
         (itgtime (singleScan w), sens, (tcv * (1 # 1000))%Q, 15, 75)].
Proof.
  intros Hh Hc Hs Ht. unfold save_spectrum. munfold.
  rewrite Hc. cbn. rewrite !Hh. cbn. rewrite Hs, Ht. cbn. rewrite !Hh.
  eexists. split; [reflexivity|]. cbn. by rewrite <- app_assoc.
Qed.

Lemma save_spectrum_TestClass env w :
  cls (singleScan w) = TestClass ->
  save_spectrum env w = (Ok tt, set_out (out w ++ [print save_data_line]) w).
Proof. intros Hc. unfold save_spectrum. munfold. by rewrite Hc. Qed.



(** * What the priming pass does to the average *)







(** * The advancing rule *)

Lemma odd_test (p : Z) : negb (p mod 2 =? 0) = Z.odd p.
Proof. by rewrite <- Zeven_mod, Z.negb_even. Qed.

Lemma np_iadd_length (a b : list Q) :
  length b = length a -> length (np_iadd a b) = length a.
Proof. intros H. unfold np_iadd. rewrite length_zip_with. lia. Qed.

Lemma np_iadd_lookup (a b : list Q) (i : nat) (u v : Q) :
  a !! i = Some u -> b !! i = Some v -> np_iadd a b !! i = Some (u + v)%Q.
Proof.
  intros Ha Hb. unfold np_iadd. apply lookup_zip_with_Some. by exists u, v.
Qed.

(** C2.  With the index on the axis, [next_freq] on an odd counter increments
    the index unless it is at the last position, and on an even counter
    decrements it unless it is 0; in the two excepted cases it increments the
    counter, leaves the index alone and adds the current-pass array into the
    sum: element [i] of the new sum is element [i] of the old sum plus
    element [i] of the current-pass array, and the sum keeps its length.
    With counter 0 and index 0, the state right after an install, the first
    call therefore counts a completed pass. *)
Theorem next_freq_rule (w : JPLScanWindow) :
  let s := singleScan w in
  let last := Z.of_nat (length (x s)) - 1 in
  0 <= current_x_index s <= last ->
  exists w',
    next_freq w = (Ok tt, w') /\
    let s' := singleScan w' in
    y s' = y s /\ settings s' = settings s /\
    (Z.odd (current_avg s) = true -> current_x_index s <> last ->
       current_x_index s' = current_x_index s + 1 /\
       current_avg s' = current_avg s /\ y_sum s' = y_sum s /\ out w' = out w) /\
    (Z.odd (current_avg s) = true -> current_x_index s = last ->
       pass_boundary w w') /\
    (Z.even (current_avg s) = true -> current_x_index s <> 0 ->
       current_x_index s' = current_x_index s - 1 /\
       current_avg s' = current_avg s /\ y_sum s' = y_sum s /\ out w' = out w) /\
    (Z.even (current_avg s) = true -> current_x_index s = 0 ->
       pass_boundary w w') /\
    (current_avg s = 0 -> current_x_index s = 0 ->
       current_avg s' = 1 /\ current_x_index s' = 0 /\
       y_sum s' = np_iadd (y_sum s) (y s) /\
       pass_boundary w w').
Proof.
  intros s last Hi. subst s last. unfold next_freq, update_ysum. munfold.
  rewrite odd_test. rewrite <- Z.negb_odd.
  destruct (Z.odd (current_avg (singleScan w))) eqn:Hodd; cbn.
  - destruct (Z.ltb_spec (current_x_index (singleScan w))
                (Z.of_nat (length (x (singleScan w))) - 1)); cbn;
      eexists; (split; [reflexivity|]); cbn; unfold pass_boundary; cbn;
      repeat split; try done; try lia;
      try (by apply np_iadd_length); try (by eapply np_iadd_lookup);
      match goal with H : current_avg _ = 0 |- _ => by rewrite H in Hodd end.
  - destruct (Z.gtb_spec (current_x_index (singleScan w)) 0); cbn;
      eexists; (split; [reflexivity|]); cbn; unfold pass_boundary; cbn;
      repeat split; try done; try lia;
      try (by apply np_iadd_length); try (by eapply np_iadd_lookup).
Qed.

(** * Installing a window *)

(** C6.  On a [SingleScan] widget with healthy instruments, installing an
    entry whose axis is [xs] stores the axis, sets index and pass counter to 0,
    zeroes both arrays, sets both timer intervals, then, in this order, replots
    the sum, sends the entry's sensitivity and time constant to the lock-in and
    the axis value at index 0 divided by the multiplier to the synthesizer,
    and starts the wait timer.  Afterwards the wait timer is running, its
    interval is the entry's wait time and its slots are those it had; the
    interval of the integration timer is the entry's integration time, and
    that timer is neither started nor stopped.  The multiplier is the entry of
    [apival.MULTIPLIER] selected by the band when the widget was built, and
    the wait timer of a widget so built calls [set_lockin_buffer]. *)
Theorem update_setting_SingleScan env e w xs :
  healthy env ->
  cls (singleScan w) = SingleScan ->
  gen_x_array (e_start e) (e_stop e) (e_step e) = Ok xs ->
  exists w0 x0,
    update_setting env e w = (Ok tt, w0) /\
    head xs = Some x0 /\
    let s := singleScan w in
    let s0 := singleScan w0 in
    x s0 = xs /\
    current_x_index s0 = 0 /\
    current_avg s0 = 0 /\
    avg s0 = e_avg e /\
    y s0 = replicate (length xs) 0%Q /\
    y_sum s0 = replicate (length xs) 0%Q /\
    sens_index s0 = e_sens e /\
    tc_index s0 = e_tc e /\
    multiplier s0 = multiplier s /\
    itgTimer s0 = setInterval (itgTimer s) (e_itgtime e) /\
    waitTimer s0 = start (setInterval (waitTimer s) (e_waittime e)) /\
    interval (waitTimer s0) = e_waittime e /\
    isActive (waitTimer s0) = true /\
    timeout (waitTimer s0) = timeout (waitTimer s) /\
    interval (itgTimer s0) = e_itgtime e /\
    isActive (itgTimer s0) = isActive (itgTimer s) /\
    timeout (itgTimer s0) = timeout (itgTimer s) /\
    itgtime s0 = e_itgtime e /\
    waittime s0 = e_waittime e /\
    out w0 = out w ++
      [call_update_setting e;
       setData ySumCurve xs (replicate (length xs) 0%Q);
       set_sens (e_sens e);
       set_tc (e_tc e);
       set_syn_freq (x0 / multiplier s)%Q] /\
    (forall fname s1, SingleScan_init env fname = Ok s1 ->
       py_index (apival_MULTIPLIER env) (bandSelect_currentIndex env)
       = Some (multiplier s1) /\
       timeout (waitTimer s1) = [set_lockin_buffer_slot] /\
       isActive (waitTimer s1) = false /\
       isActive (itgTimer s1) = false).
Proof.
  intros Hh Hc Hx.
  assert (H1 := gen_x_array_nonempty _ _ _ _ Hx).
  destruct xs as [|x0 xs']; [simpl in H1; lia|].
  unfold update_setting. munfold. rewrite Hx. cbn. rewrite Hc. cbn.
  rewrite !Hh. cbn. change (Z.to_nat 0) with 0%nat. cbn. unfold ret. cbn.
  rewrite !Hh. cbn.
  do 2 eexists. split; [reflexivity|]. split; [reflexivity|]. cbn.
  rewrite <- !app_assoc. repeat (split; [done|]).
  intros fname s1. unfold SingleScan_init. case_match; [|done].
  by intros [= <-].
Qed.

(** * Reading the lock-in buffer *)

Lemma read_sample_SingleScan env w :
  cls (singleScan w) = SingleScan ->
  read_sample env w = (Raise (NameError "lcHandle"%string), w).
Proof. intros Hc. unfold read_sample, bind, get_scan. by rewrite Hc. Qed.

Lemma query_lockin_buffer_SingleScan env w :
  cls (singleScan w) = SingleScan ->
  query_lockin_buffer env w = (Raise (NameError "lcHandle"%string), w).
Proof.
  intros Hc. unfold query_lockin_buffer, bind. by rewrite read_sample_SingleScan.
Qed.

(** C5.  The integration timer of a [SingleScan] widget fires in the
    laboratory, after an install and one expiry of the wait timer:
    [query_lockin_buffer] raises [NameError] on [lcHandle] before it pauses the
    buffer; nothing is sent to the lock-in, the current-pass array is not
    written, nothing is published, and no timer is left running. *)
Theorem query_lockin_buffer_unbound_lcHandle :
  let w := run lab [waitTimer_timeout] lab_single_window in
  let w' := step lab itgTimer_timeout w in
  cls (singleScan w) = SingleScan /\
  isActive (itgTimer (singleScan w)) = true /\
  query_lockin_buffer lab w = (Raise (NameError "lcHandle"%string), w) /\
  uncaught w' = [NameError "lcHandle"%string] /\
  out w' = out w /\
  y (singleScan w') = y (singleScan w) /\
  isActive (itgTimer (singleScan w')) = false /\
  isActive (waitTimer (singleScan w')) = false.
Proof.
  cbv zeta. repeat apply conj;
    try (apply query_lockin_buffer_SingleScan); vm_compute; reflexivity.
Qed.

(** * The batch controller *)

Lemma markers_app (t u : list effect) : markers (t ++ u) = markers t ++ markers u.
Proof. apply omap_app. Qed.

Ltac munfold_all :=
  repeat progress
    unfold query_lockin_buffer, read_sample, record_and_advance, record_and_next,
      check_done, next_freq, update_ysum, set_lockin_buffer, pause_scan, reject,
      save_data, save_spectrum, move_to_next_entry_emit, next_entry,
      finish, stop_timers, accept, update_setting, tune_syn,
      random_random_sample, global,
      bind, ret, raise, lift, from_option, get_scan, modify_scan, emit, io_, io.

Ltac mexec :=
  munfold_all; cbn; change (Z.to_nat 0) with 0%nat; repeat (case_inner; cbn).

Ltac batch_facts :=
  unfold silent, batch_of, wait_slots_ok; cbn -[markers];
  rewrite ?markers_app; cbn; rewrite ?app_nil_r.

Lemma tune_syn_silent env w : silent w (snd (tune_syn env w)).
Proof. mexec; batch_facts; done. Qed.

Lemma set_lockin_buffer_silent env w : silent w (snd (set_lockin_buffer env w)).
Proof. mexec; batch_facts; done. Qed.

Lemma record_and_next_silent v w : silent w (snd (record_and_next v w)).
Proof. mexec; batch_facts; done. Qed.

Lemma read_sample_silent env w : silent w (snd (read_sample env w)).
Proof. mexec; batch_facts; done. Qed.

Lemma silent_refl w : silent w w.
Proof. by repeat split. Qed.

Lemma silent_trans w1 w2 w3 : silent w1 w2 -> silent w2 w3 -> silent w1 w3.
Proof. unfold silent. intros (?&?&?) (?&?&?). repeat split; [congruence..|auto]. Qed.

Lemma pause_scan_silent b w : silent w (snd (pause_scan b w)).
Proof.
  mexec; batch_facts; repeat split; try done; intros Hq Hin; apply Hq; clear Hq;
    first
      [ by apply list_elem_of_difference in Hin as [? _]
      | by apply elem_of_nil in Hin
      | apply elem_of_app in Hin as [?|Hin]; [done|];
        by apply list_elem_of_singleton in Hin ].
Qed.

Lemma reject_batch b w :
  let w' := snd (reject b w) in
  entry_settings w' = entry_settings w /\ batchList_len w' = batchList_len w /\
  current_entry_index w' = current_entry_index w /\
  markers (out w') = markers (out w) /\
  timeout (itgTimer (singleScan w')) = timeout (itgTimer (singleScan w)) /\
  timeout (waitTimer (singleScan w')) = timeout (waitTimer (singleScan w)) /\
  (accepted w' = accepted w \/
   accepted w' = true /\ isActive (itgTimer (singleScan w')) = false /\
   isActive (waitTimer (singleScan w')) = false).
Proof. destruct b; mexec; repeat split; auto. Qed.

Lemma update_setting_batch env e w :
  let w' := snd (update_setting env e w) in
  batch_of w' = batch_of w /\
  (wait_slots_ok w -> wait_slots_ok w') /\
  markers (out w') = markers (out w) ++ [installed e].
Proof.
  mexec; batch_facts; done.
Qed.

Lemma finish_batch w :
  let w' := snd (finish w) in
  entry_settings w' = entry_settings w /\
  batchList_len w' = batchList_len w /\
  current_entry_index w' = current_entry_index w /\
  timeout (itgTimer (singleScan w')) = timeout (itgTimer (singleScan w)) /\
  timeout (waitTimer (singleScan w')) = timeout (waitTimer (singleScan w)) /\
  accepted w' = true /\
  isActive (itgTimer (singleScan w')) = false /\
  isActive (waitTimer (singleScan w')) = false /\
  markers (out w') = markers (out w) ++ [finished].
Proof. mexec. rewrite markers_app. by repeat split. Qed.

Lemma next_entry_advanced env w :
  batchList_len w = Z.of_nat (length (entry_settings w)) ->
  -1 <= current_entry_index w ->
  advanced w (snd (next_entry env w)).
Proof.
  intros Hlen Hi. unfold advanced, next_entry, bind at 1 2 3.
  cbn -[update_setting finish]. rewrite Hlen.
  destruct (Z.ltb_spec (current_entry_index w + 1)
              (Z.of_nat (length (entry_settings w)))) as [Hlt|Hge].
  - destruct (lookup_lt_is_Some_2 (entry_settings w)
                (Z.to_nat (current_entry_index w + 1))) as [e He]; [lia|].
    rewrite He. unfold bind, emit, from_option, py_index.
    cbn -[update_setting finish].
    destruct (Z.leb_spec 0 (current_entry_index w + 1)); [|lia].
    rewrite He. unfold ret.
    match goal with |- context [update_setting env e ?w0] =>
      destruct (update_setting_batch env e w0) as (Hb & Hs & Hm);
      destruct (update_setting env e w0) as [r w'] end.
    cbn in *. unfold batch_of in Hb. cbn in Hb.
    rewrite markers_app in Hm. cbn in Hm. rewrite app_nil_r in Hm.
    injection Hb as -> -> -> -> ->. repeat split; try done.
  - rewrite lookup_ge_None_2 by lia.
    match goal with |- context [finish ?w0] =>
      destruct (finish_batch w0) as (H1 & H2 & H3 & H4 & H5 & H6 & H7 & H8 & H9);
      destruct (finish w0) as [r w'] end.
    cbn in *. repeat split; try done.
    + congruence.
    + unfold wait_slots_ok. by rewrite H5.
Qed.

Lemma silent_is_turn w w' : silent w w' -> turn w w'.
Proof.
  unfold silent, turn, batch_of. intros (Hb & Hm & Hs).
  injection Hb as ? ? ? ? ?. repeat split; try done. by left.
Qed.

Lemma silent_then_turn w w1 w2 : silent w w1 -> turn w1 w2 -> turn w w2.
Proof.
  unfold silent, turn, batch_of. intros (Hb & Hm & Hs) (H1 & H2 & H3 & H4 & H5).
  injection Hb as E1 E2 E3 E4 E5. rewrite E1, E3, E4, Hm in H5.
  split; [congruence|]. split; [congruence|]. split; [congruence|].
  split; [auto|]. exact H5.
Qed.

Lemma save_spectrum_batch env w :
  batch_of (snd (save_spectrum env w)) = batch_of w /\
  (wait_slots_ok w -> wait_slots_ok (snd (save_spectrum env w))) /\
  match fst (save_spectrum env w) with
  | Ok _ => markers (out (snd (save_spectrum env w))) = markers (out w) ++ [completed]
  | Raise _ => markers (out (snd (save_spectrum env w))) = markers (out w)
  end.
Proof. mexec; batch_facts; done. Qed.

Lemma save_data_turn env w :
  batchList_len w = Z.of_nat (length (entry_settings w)) ->
  -1 <= current_entry_index w ->
  turn w (snd (save_data env w)).
Proof.
  intros Hlen Hi. unfold save_data, bind, move_to_next_entry_emit.
  destruct (save_spectrum_batch env w) as (Hb & Hs & Hm).
  destruct (save_spectrum env w) as [[[]|e] w1]; cbn [fst snd] in *.
  - unfold batch_of in Hb. injection Hb as E1 E2 E3 E4 E5.
    destruct (next_entry_advanced env w1) as (H1 & H2 & H3 & H4 & H5 & H6);
      [congruence|lia|].
    destruct (next_entry env w1) as [r w2]. cbn [fst snd] in *.
    rewrite E1, E3, Hm in H6. unfold turn.
    split; [congruence|]. split; [congruence|]. split; [congruence|].
    split; [auto|].
    right. split; [congruence|].
    destruct (entry_settings w !! _); rewrite <- !app_assoc in H6; cbn in H6.
    + destruct H6 as [? ?]. split; congruence.
    + destruct H6 as (? & ? & ? & ?). repeat split; congruence.
  - apply silent_is_turn. by repeat split.
Qed.

Lemma query_lockin_buffer_turn env w :
  batchList_len w = Z.of_nat (length (entry_settings w)) ->
  -1 <= current_entry_index w ->
  turn w (snd (query_lockin_buffer env w)).
Proof.
  intros Hlen Hi. unfold query_lockin_buffer, bind at 1.
  assert (Hs1 := read_sample_silent env w).
  destruct (read_sample env w) as [[v|e] w1]; cbn [fst snd] in *;
    [|by apply silent_is_turn].
  unfold record_and_advance, bind at 1.
  assert (Hs2 := record_and_next_silent v w1).
  destruct (record_and_next v w1) as [[[]|e] w2]; cbn [fst snd] in *;
    [|apply silent_is_turn; eauto using silent_trans].
  assert (Hs : silent w w2) by eauto using silent_trans.
  eapply silent_then_turn; [exact Hs|].
  destruct Hs as (Hb & _). unfold batch_of in Hb. injection Hb as E1 E2 E3 E4 E5.
  unfold check_done, bind, get_scan.
  destruct (current_avg (singleScan w2) >? avg (singleScan w2)).
  - apply save_data_turn; [congruence|lia].
  - apply silent_is_turn, tune_syn_silent.
Qed.

Lemma run_slot_turn env s w :
  batchList_len w = Z.of_nat (length (entry_settings w)) ->
  -1 <= current_entry_index w ->
  turn w (snd (run_slot env s w)).
Proof.
  intros Hlen Hi. destruct s; cbn [run_slot].
  - apply silent_is_turn, set_lockin_buffer_silent.
  - by apply query_lockin_buffer_turn.
  - apply silent_is_turn, tune_syn_silent.
Qed.

Lemma invoke_snd (m : M unit) w :
  exists u, invoke m w = set_uncaught u (snd (m w)).
Proof.
  unfold invoke. destruct (m w) as [[[]|e] w']; cbn.
  - exists (uncaught w'). by destruct w'.
  - eauto.
Qed.

Lemma silent_set_uncaught u w : silent w (set_uncaught u w).
Proof. by repeat split. Qed.

Lemma invoke_turn (m : M unit) w : turn w (snd (m w)) -> turn w (invoke m w).
Proof.
  intros H. destruct (invoke_snd m w) as [u ->].
  destruct H as (H1 & H2 & H3 & H4 & H5). by repeat split.
Qed.

Lemma invoke_silent (m : M unit) w : silent w (snd (m w)) -> silent w (invoke m w).
Proof.
  intros H. destruct (invoke_snd m w) as [u ->].
  eapply silent_trans; [exact H|apply silent_set_uncaught].
Qed.

Lemma run_slot_silent env s w :
  s <> query_lockin_buffer_slot -> silent w (snd (run_slot env s w)).
Proof.
  destruct s; [|done|]; intros _; cbn [run_slot].
  - apply set_lockin_buffer_silent.
  - apply tune_syn_silent.
Qed.

Lemma invoke_all_silent env slots w :
  query_lockin_buffer_slot ∉ slots -> silent w (invoke_all env slots w).
Proof.
  revert w. induction slots as [|s slots IH]; intros w Hq; [apply silent_refl|].
  cbn. apply not_elem_of_cons in Hq as [Hs Hq].
  eapply silent_trans; [|by apply IH].
  apply invoke_silent, run_slot_silent. done.
Qed.

Lemma expected_next entries (i : nat) e e' :
  entries !! i = Some e -> entries !! S i = Some e' ->
  expected entries i ++ [completed; installed e'] = expected entries (S i).
Proof.
  intros He He'. unfold expected. rewrite He, He'.
  rewrite (take_S_r _ _ _ He), flat_map_app. cbn.
  by rewrite <- !app_assoc.
Qed.

Lemma expected_last entries (i : nat) e :
  entries !! i = Some e -> entries !! S i = None ->
  expected entries i ++ [completed; finished] = expected entries (S i).
Proof.
  intros He He'. unfold expected. rewrite He, He'.
  rewrite (take_S_r _ _ _ He), flat_map_app. cbn.
  by rewrite <- !app_assoc.
Qed.

Lemma turn_inv entries w w' :
  batch_inv entries w -> accepted w = false -> turn w w' -> batch_inv entries w'.
Proof.
  intros (He & Hl & Hi & Hw & Ha & i & HiK & Hidx & Hm & Hfin) Hacc
    (H1 & H2 & H3 & H4 & H5).
  assert (HiK' : (i < length entries)%nat).
  { destruct (decide (i = length entries)) as [E|E]; [|lia].
    rewrite (Hfin E) in Hacc. done. }
  destruct (lookup_lt_is_Some_2 entries i HiK') as [e Hlk].
  unfold batch_inv. split; [congruence|]. split; [congruence|].
  split; [congruence|]. split; [auto|].
  destruct H5 as [(E1 & E2 & E3)|(E1 & E2)].
  - split; [rewrite E2, Hacc; done|].
    exists i. repeat split; try congruence; try lia.
  - rewrite He, Hidx in E2.
    replace (Z.to_nat (Z.of_nat i + 1)) with (S i) in E2 by lia.
    destruct (entries !! S i) as [e'|] eqn:Hnext.
    + destruct E2 as [E2 E3]. split; [rewrite E2, Hacc; done|].
      assert (S i < length entries)%nat by (eapply lookup_lt_Some; eauto).
      exists (S i). split; [lia|]. split; [lia|]. split; [|lia].
      rewrite E3, Hm. by eapply expected_next.
    + destruct E2 as (E2 & E3 & E4 & E5). split; [done|].
      assert (Hge := lookup_ge_None_1 _ _ Hnext).
      exists (S i). split; [lia|]. split; [lia|]. split; [|done].
      rewrite E5, Hm. by eapply expected_last.
Qed.

Lemma silent_inv entries w w' :
  batch_inv entries w -> accepted w = false -> silent w w' -> batch_inv entries w'.
Proof. intros. eapply turn_inv; eauto using silent_is_turn. Qed.

Lemma step_inv env entries ev w :
  batch_inv entries w -> batch_inv entries (step env ev w).
Proof.
  intros Hinv.
  assert (Hinv' := Hinv).
  destruct Hinv' as (He & Hl & Hi & Hw & Ha & i & HiK & Hidx & Hm & Hfin).
  destruct ev; unfold step.
  - destruct (isActive (waitTimer (singleScan w))) eqn:Hact; [|done].
    assert (Hacc : accepted w = false).
    { destruct (accepted w); [|done]. destruct Ha as [_ Ha]; congruence. }
    eapply silent_inv; [exact Hinv|done|].
    eapply silent_trans; [|apply invoke_all_silent; exact Hw].
    by repeat split.
  - destruct (isActive (itgTimer (singleScan w))) eqn:Hact; [|done].
    assert (Hacc : accepted w = false).
    { destruct (accepted w); [|done]. destruct Ha as [Ha _]; congruence. }
    rewrite Hi. cbn [invoke_all fold_left].
    eapply turn_inv; [exact Hinv|done|].
    eapply silent_then_turn; [|apply invoke_turn, run_slot_turn].
    + by repeat split.
    + cbn. by rewrite He.
    + cbn. lia.
  - destruct (accepted w) eqn:Hacc; [done|].
    eapply silent_inv; [exact Hinv|done|].
    eapply silent_trans; [|apply invoke_silent, pause_scan_silent].
    by repeat split.
  - destruct (accepted w) eqn:Hacc; [done|].
    destruct (invoke_snd (reject yes) w) as [u ->].
    destruct (reject_batch yes w) as (R1 & R2 & R3 & R4 & R5 & R6 & R7).
    cbv zeta in *.
    unfold batch_inv. cbn -[reject markers].
    split; [congruence|]. split; [congruence|]. split; [congruence|].
    split; [unfold wait_slots_ok in *; cbn -[reject]; congruence|].
    split.
    + destruct R7 as [R7|(R7 & R8 & R9)]; [rewrite R7, Hacc; done|done].
    + exists i. split; [done|]. split; [congruence|]. split; [congruence|].
      intros E. specialize (Hfin E). congruence.
Qed.

Lemma run_inv env entries evs w :
  batch_inv entries w -> batch_inv entries (run env evs w).
Proof.
  revert w. induction evs as [|ev evs IH]; intros w H; [done|].
  cbn. apply IH. by apply step_inv.
Qed.

Lemma installs_markers t : installs t = omap marker_entry (markers t).
Proof.
  unfold installs, markers. induction t as [|e t IH]; [done|].
  destruct e as [| | | | | | | | [] | | | | |]; cbn; by rewrite IH.
Qed.

Lemma completions_markers t :
  completions t = length (List.filter marker_completed (markers t)).
Proof.
  unfold completions, markers. induction t as [|e t IH]; [done|].
  destruct e as [| | | | | | | | [] | | | | |]; cbn; by rewrite IH.
Qed.

Lemma batch_finished_markers t :
  batch_finished t = existsb marker_finished (markers t).
Proof.
  unfold batch_finished, markers. induction t as [|e t IH]; [done|].
  destruct e as [| | | | | | | | [] | | | | |]; cbn; by rewrite ?IH.
Qed.

Lemma expected_installs entries (i : nat) :
  omap marker_entry (expected entries i) = take (S i) entries.
Proof.
  unfold expected. rewrite omap_app.
  revert i. induction entries as [|e entries IH]; intros i.
  - by destruct i.
  - destruct i as [|i]; [done|]. cbn. f_equal. apply IH.
Qed.

Lemma expected_completions entries (i : nat) :
  (i <= length entries)%nat ->
  length (List.filter marker_completed (expected entries i)) = i.
Proof.
  unfold expected. rewrite List.filter_app, length_app.
  revert i. induction entries as [|e entries IH]; intros i Hi.
  - destruct i; [done|]. cbn in Hi. lia.
  - destruct i as [|i]; [done|]. cbn in *. rewrite IH by lia. done.
Qed.

Lemma expected_finished entries (i : nat) :
  (i <= length entries)%nat ->
  existsb marker_finished (expected entries i) = true <-> i = length entries.
Proof.
  unfold expected. rewrite existsb_app.
  revert i. induction entries as [|e entries IH]; intros i Hi.
  - destruct i; [done|]. cbn in Hi. lia.
  - destruct i as [|i]; [done|]. cbn in *. rewrite IH by lia. lia.
Qed.

(** With its labels formatted, the constructor is [next_entry] on the window
    whose list has row 0 selected. *)
Lemma JPLScanWindow_init_listed env entries fname ls :
  entry_labels env entries = Some ls ->
  JPLScanWindow_init env entries fname =
  next_entry env
    (set_out [setCurrentRow 0] (window_of entries (TestClass_init fname))).
Proof. intros H. unfold JPLScanWindow_init. by rewrite H. Qed.

Lemma init_inv env entries fname w0 :
  JPLScanWindow_init env entries fname = (Ok tt, w0) ->
  batch_inv entries w0.
Proof.
  destruct (entry_labels env entries) as [ls|] eqn:Hl;
    [|unfold JPLScanWindow_init; by rewrite Hl].
  rewrite (JPLScanWindow_init_listed _ _ _ _ Hl). intros Hrun.
  set (w := set_out [setCurrentRow 0] (window_of entries (TestClass_init fname))) in *.
  destruct (next_entry_advanced env w) as (H1 & H2 & H3 & H4 & H5 & H6);
    [done|cbn; lia|].
  rewrite Hrun in *. cbn [snd] in *. cbn in H1, H2, H3, H4, H6.
  unfold batch_inv. split; [done|]. split; [done|]. split; [done|].
  split; [apply H5; unfold wait_slots_ok; cbn;
          intros H; by apply list_elem_of_singleton in H|].
  destruct entries as [|e entries]; cbn in H6.
  - destruct H6 as (E1 & E2 & E3 & E4). split; [done|].
    exists 0%nat. by repeat split.
  - destruct H6 as (E1 & E2). split; [rewrite E1; done|].
    exists 0%nat. repeat split; try done. cbn. lia.
Qed.

(** * Pause and resume *)

(** C3, against the claim as stated.  In the laboratory the wait timer
    expires, the integration timer is armed, and pause is pressed.  When the
    integration timer then expires, the paused engine stores a sample in the
    current-pass array, folds the priming pass into the sum and tunes the
    synthesizer. *)
Lemma pause_during_integration_acquires_and_tunes :
  let w := run lab [waitTimer_timeout; pauseButton_clicked] lab_window in
  let w' := step lab itgTimer_timeout w in
  pauseButton_checked (singleScan w) = true /\
  timeout (waitTimer (singleScan w)) = [] /\
  isActive (itgTimer (singleScan w)) = true /\
  tunes (out w') = S (tunes (out w)) /\
  y (singleScan w') <> y (singleScan w) /\
  y_sum (singleScan w') <> y_sum (singleScan w).
Proof.
  cbv zeta. repeat apply conj; try (vm_compute; reflexivity);
    intros H; vm_compute in H; discriminate.
Qed.

Lemma tunes_app (t u : list effect) : tunes (t ++ u) = (tunes t + tunes u)%nat.
Proof. unfold tunes. by rewrite List.filter_app, length_app. Qed.

Lemma record_and_next_timers v w :
  let w' := snd (record_and_next v w) in
  itgTimer (singleScan w') = itgTimer (singleScan w) /\
  waitTimer (singleScan w') = waitTimer (singleScan w) /\
  tunes (out w') = tunes (out w).
Proof.
  mexec; unfold tunes; rewrite ?List.filter_app, ?length_app; cbn;
    repeat split; lia.
Qed.

Lemma pp_step_index (L : Z) (v : Q) i p ys sm i' p' ys' sm' :
  pp_step L v (i, p, ys, sm) = (i', p', ys', sm') ->
  0 <= i < L -> 0 <= i' < L.
Proof.
  unfold pp_step. repeat case_inner; intros [= <- <- <- <-]; lia.
Qed.

Lemma tune_syn_TestClass env w :
  cls (singleScan w) = TestClass ->
  0 <= current_x_index (singleScan w) < Z.of_nat (length (x (singleScan w))) ->
  exists f,
    tune_syn env w =
      (Ok tt,
       set_singleScan
         (set_waitTimer (start (waitTimer (singleScan w))) (singleScan w))
         (set_out (out w ++ [print (tune_syn_freq_to f)]) w)).
Proof.
  intros Hc Hi. munfold.
  destruct (py_index_in_range _ _ Hi) as (a & -> & _). cbn. rewrite Hc. cbn.
  eauto.
Qed.

Lemma read_sample_TestClass env w :
  cls (singleScan w) = TestClass ->
  read_sample env w =
    (Ok (random_sample env (ticks w)),
     set_ticks (S (ticks w)) (set_out (out w ++ [print query_lockin_buffer_line]) w)).
Proof. intros Hc. unfold read_sample. munfold. by rewrite Hc. Qed.

(** C3, as amended.  On [TestClass], with the dialog open: pressing pause
    empties the slots of the wait timer and touches neither timer's running
    state, nor the arrays, nor the synthesizer; while the slots are empty an
    expiry of the wait timer does nothing but stop that timer; an expiry of
    the integration timer is not suppressed: it stores the sample, applies the
    advancing rule and, unless the window completes, tunes the synthesizer and
    starts the wait timer; releasing pause connects [set_lockin_buffer]
    again and starts the wait timer, with arrays and synthesizer untouched.
    ([c'.1.1.2] is the pass counter after the acquisition.) *)
Theorem pause_suppresses_settle_expiry_only env w :
  cls (singleScan w) = TestClass ->
  accepted w = false ->
  let s := singleScan w in
  (* pressing pause *)
  (pauseButton_checked s = false -> timeout (waitTimer s) <> [] ->
   let w' := step env pauseButton_clicked w in
   let s' := singleScan w' in
   timeout (waitTimer s') = [] /\
   isActive (waitTimer s') = isActive (waitTimer s) /\
   itgTimer s' = itgTimer s /\
   y s' = y s /\ y_sum s' = y_sum s /\ tunes (out w') = tunes (out w)) /\
  (* a settle delay expires while paused *)
  (timeout (waitTimer s) = [] ->
   step env waitTimer_timeout w =
     if isActive (waitTimer s)
     then set_singleScan (set_waitTimer (expire (waitTimer s)) s) w
     else w) /\
  (* an integrate delay expires while paused *)
  (timeout (waitTimer s) = [] ->
   timeout (itgTimer s) = [query_lockin_buffer_slot] ->
   isActive (itgTimer s) = true ->
   0 <= current_x_index s < Z.of_nat (length (y s)) ->
   length (x s) = length (y s) ->
   let c' := pp_step (Z.of_nat (length (x s))) (random_sample env (ticks w)) (pp_of s) in
   c'.1.1.2 <= avg s ->
   let w' := step env itgTimer_timeout w in
   let s' := singleScan w' in
   pp_of s' = c' /\
   tunes (out w') = S (tunes (out w)) /\
   isActive (waitTimer s') = true /\
   timeout (waitTimer s') = [] /\
   isActive (itgTimer s') = false) /\
  (* releasing pause *)
  (pauseButton_checked s = true ->
   let w' := step env pauseButton_clicked w in
   let s' := singleScan w' in
   timeout (waitTimer s') = timeout (waitTimer s) ++ [set_lockin_buffer_slot] /\
   isActive (waitTimer s') = true /\
   itgTimer s' = itgTimer s /\
   y s' = y s /\ y_sum s' = y_sum s /\ tunes (out w') = tunes (out w)).
Proof.
  intros Hc Hacc s. subst s. repeat apply conj.
  - intros Hp Hne. unfold step. rewrite Hacc, Hp. cbn [negb].
    unfold invoke, pause_scan. munfold. cbn. rewrite Hc.
    destruct (timeout (waitTimer (singleScan w))) eqn:E; [done|]. cbn.
    unfold tunes. rewrite List.filter_app, length_app. cbn.
    rewrite ?E. repeat split; try done; lia.
  - intros Hs. unfold step. rewrite Hs. by destruct (isActive _).
  - intros Hs Hi Hact Hidx Hlen c' Hnot.
    set (w0 := set_singleScan
                 (set_itgTimer (expire (itgTimer (singleScan w))) (singleScan w)) w).
    set (w1 := set_ticks (S (ticks w0))
                 (set_out (out w0 ++ [print query_lockin_buffer_line]) w0)).
    destruct (record_and_next_sim w1 (random_sample env (ticks w0)))
      as (w2 & Hrec & Hpp & Hq); [exact Hidx|].
    destruct (record_and_next_timers (random_sample env (ticks w0)) w1)
      as (Ht1 & Ht2 & Ht3).
    rewrite Hrec in *. cbn [snd] in *.
    change (pp_of (singleScan w1)) with (pp_of (singleScan w)) in Hpp.
    change (x (singleScan w1)) with (x (singleScan w)) in Hpp.
    change (ticks w0) with (ticks w) in Hpp. fold c' in Hpp.
    assert (Hx2 := quiet_x _ _ Hq). assert (Havg2 := quiet_avg _ _ Hq).
    assert (Hc2 : cls (singleScan w2) = TestClass).
    { destruct Hq as (Hset & _). unfold settings in Hset.
      injection Hset as -> _ _ _ _ _ _ _ _. done. }
    destruct c' as [[[i' p'] ys'] sm'] eqn:Ec'. cbn in Hnot.
    unfold pp_of in Hpp. injection Hpp as Hi' Hp' Hy' Hs'.
    destruct (tune_syn_TestClass env w2 Hc2) as (f & Htune).
    { rewrite Hi', Hx2. change (x (singleScan w1)) with (x (singleScan w)).
      eapply pp_step_index; [exact Ec'|]. unfold pp_of. cbn. lia. }
    assert (Hstep : step env itgTimer_timeout w =
              set_singleScan
                (set_waitTimer (start (waitTimer (singleScan w2))) (singleScan w2))
                (set_out (out w2 ++ [print (tune_syn_freq_to f)]) w2)).
    { unfold step. rewrite Hact, Hi. cbn [invoke_all fold_left run_slot].
      fold w0. unfold invoke, query_lockin_buffer, bind at 1.
      rewrite read_sample_TestClass by done. fold w1.
      unfold record_and_advance, bind at 1. rewrite Hrec.
      rewrite check_done_not_yet by (rewrite Hp', Havg2; exact Hnot).
      by rewrite Htune. }
    cbv zeta. rewrite Hstep. unfold pp_of. cbn.
    rewrite Hi', Hp', Hy', Hs'.
    split; [done|]. rewrite Ht1, Ht2. cbn. rewrite Hs.
    unfold tunes in *. rewrite List.filter_app, length_app, Ht3.
    unfold w1. cbn. rewrite List.filter_app, length_app. cbn.
    repeat split; try done; lia.
  - intros Hp. unfold step. rewrite Hacc, Hp. cbn [negb].
    unfold invoke, pause_scan. munfold. cbn. rewrite Hc.
    unfold tunes. rewrite List.filter_app, length_app. cbn.
    repeat split; try done; lia.
Qed.

(** * Who writes the arrays *)

Lemma arrays_same_refl w : arrays_same w w.
Proof. done. Qed.

Lemma arrays_same_trans w1 w2 w3 :
  arrays_same w1 w2 -> arrays_same w2 w3 -> arrays_same w1 w3.
Proof. unfold arrays_same. congruence. Qed.

Lemma arrays_same_step w w' : arrays_same w w' -> arrays_step w w'.
Proof.
  unfold arrays_same, arrays_step, pp_of. intros [= H1 H2 H3 H4].
  split; [by left|]. by left.
Qed.

Lemma arrays_same_then_step w1 w2 w3 :
  arrays_same w1 w2 -> arrays_step w2 w3 -> arrays_step w1 w3.
Proof.
  unfold arrays_same, arrays_step, pp_of. intros [= H1 H2 H3 H4].
  by rewrite H1, H2, H3, H4.
Qed.

Lemma arrays_step_then_same w1 w2 w3 :
  arrays_step w1 w2 -> arrays_same w2 w3 -> arrays_step w1 w3.
Proof.
  unfold arrays_same, arrays_step, pp_of. intros H [= H1 H2 H3 H4].
  by rewrite H2, H3, H4.
Qed.

Ltac same_facts := unfold arrays_same, pp_of; cbn; try done.

Lemma tune_syn_arrays env w : arrays_same w (snd (tune_syn env w)).
Proof. mexec; same_facts. Qed.

Lemma set_lockin_buffer_arrays env w : arrays_same w (snd (set_lockin_buffer env w)).
Proof. mexec; same_facts. Qed.

Lemma read_sample_arrays env w :
  arrays_same w (snd (read_sample env w)) /\
  installs (out (snd (read_sample env w))) = installs (out w).
Proof. mexec; same_facts; rewrite ?installs_app; cbn; by rewrite ?app_nil_r. Qed.

Lemma save_spectrum_arrays env w :
  arrays_same w (snd (save_spectrum env w)) /\
  installs (out (snd (save_spectrum env w))) = installs (out w).
Proof.
  mexec; same_facts; unfold installs; rewrite ?omap_app; cbn;
    by rewrite ?app_nil_r.
Qed.

Lemma pause_scan_arrays b w : arrays_same w (snd (pause_scan b w)).
Proof. mexec; same_facts. Qed.

Lemma reject_arrays b w : arrays_same w (snd (reject b w)).
Proof. destruct b; mexec; same_facts. Qed.

Lemma finish_arrays w :
  arrays_same w (snd (finish w)) /\ installs (out (snd (finish w))) = installs (out w).
Proof. mexec; same_facts. split; [done|]. unfold installs. by rewrite omap_app, app_nil_r. Qed.

Lemma record_and_next_arrays v w :
  arrays_step w (snd (record_and_next v w)) /\
  installs (out (snd (record_and_next v w))) = installs (out w).
Proof.
  mexec; unfold arrays_step, installs; cbn; rewrite ?omap_app; cbn;
    rewrite ?app_nil_r; (split; [|done]); split; eauto.
Qed.

Lemma update_setting_installs env e w :
  installs (out (snd (update_setting env e w))) = installs (out w) ++ [e].
Proof.
  destruct (update_setting_batch env e w) as (_ & _ & Hm).
  by rewrite !installs_markers, Hm, omap_app.
Qed.

Lemma update_setting_arrays env e w :
  let s' := singleScan (snd (update_setting env e w)) in
  (exists xs,
     gen_x_array (e_start e) (e_stop e) (e_step e) = Ok xs /\
     x s' = xs /\ pp_of s' = fresh (length xs)) \/
  (gen_x_array (e_start e) (e_stop e) (e_step e) = Raise InvalidRange /\
   arrays_same w (snd (update_setting env e w))).
Proof.
  unfold update_setting. munfold.
  destruct (gen_x_array _ _ _) as [xs|err] eqn:Hx.
  - left. exists xs. split; [done|].
    cbn. repeat (case_inner; cbn); done.
  - right. cbn. split; [|done].
    revert Hx. unfold gen_x_array. case_inner; [|done]. by intros [= <-].
Qed.

Lemma app_singleton_neq {A} (l : list A) (a : A) : l ++ [a] <> l.
Proof.
  intros H. apply (f_equal length) in H. rewrite length_app in H. cbn in H. lia.
Qed.

Lemma next_entry_arrays env w :
  installs (out (snd (next_entry env w))) = installs (out w) ->
  arrays_same w (snd (next_entry env w)).
Proof.
  unfold next_entry, bind at 1 2 3. cbn -[update_setting finish].
  destruct (_ <? _).
  - unfold bind, emit, from_option. cbn -[update_setting finish].
    destruct (py_index _ _) as [e|]; cbn -[update_setting finish]; [|done].
    rewrite update_setting_installs. cbn -[update_setting finish].
    unfold installs at 1. rewrite omap_app. cbn. rewrite app_nil_r.
    intros H. by apply app_singleton_neq in H.
  - intros _.
    apply (arrays_same_trans _ (set_current_entry_index (current_entry_index w + 1) w));
      [reflexivity|exact (proj1 (finish_arrays _))].
Qed.

Lemma save_data_arrays env w :
  installs (out (snd (save_data env w))) = installs (out w) ->
  arrays_same w (snd (save_data env w)).
Proof.
  unfold save_data, bind, move_to_next_entry_emit.
  destruct (save_spectrum_arrays env w) as (Ha & Hi).
  destruct (save_spectrum env w) as [[[]|err] w1]; cbn [fst snd] in *; cbv beta iota;
    [|done].
  rewrite <- Hi. intros H. eapply arrays_same_trans; [exact Ha|].
  by apply next_entry_arrays.
Qed.

Lemma query_lockin_buffer_arrays env w :
  installs (out (snd (query_lockin_buffer env w))) = installs (out w) ->
  arrays_step w (snd (query_lockin_buffer env w)).
Proof.
  unfold query_lockin_buffer. unfold bind at 1 2.
  destruct (read_sample_arrays env w) as (Ha1 & Hi1).
  destruct (read_sample env w) as [[v|err] w1]; cbn [fst snd] in *; cbv beta iota;
    [|intros _; by apply arrays_same_step].
  unfold record_and_advance. unfold bind at 1 2.
  destruct (record_and_next_arrays v w1) as (Ha2 & Hi2).
  destruct (record_and_next v w1) as [[[]|err] w2]; cbn [fst snd] in *; cbv beta iota;
    [|intros _; by eapply arrays_same_then_step].
  rewrite <- Hi1, <- Hi2. intros H.
  eapply arrays_same_then_step; [exact Ha1|].
  eapply arrays_step_then_same; [exact Ha2|].
  revert H. unfold check_done, bind, get_scan. destruct (_ >? _).
  - apply save_data_arrays.
  - intros _. apply tune_syn_arrays.
Qed.

(** C7.  [update_setting] is what zeroes the arrays, once per install.  Any
    slot call that installs nothing leaves the current-pass array alone or
    writes one element of it at the current index, and leaves the sum alone or
    adds the current-pass array into it while the pass counter goes up by one;
    that write and that addition happen in [record_and_next] only: tuning,
    setting up the buffer, saving, pausing, resuming, rejecting and finishing
    leave index, counter and both arrays as they were. *)
Theorem arrays_written_only_by_install_and_pass env w :
  (forall e,
     let w' := snd (update_setting env e w) in
     installs (out w') = installs (out w) ++ [e] /\
     ((exists xs,
         gen_x_array (e_start e) (e_stop e) (e_step e) = Ok xs /\
         y (singleScan w') = replicate (length xs) 0%Q /\
         y_sum (singleScan w') = replicate (length xs) 0%Q /\
         current_avg (singleScan w') = 0) \/
      (gen_x_array (e_start e) (e_stop e) (e_step e) = Raise InvalidRange /\
       arrays_same w w'))) /\
  (forall sl,
     let w' := snd (run_slot env sl w) in
     installs (out w') = installs (out w) -> arrays_step w w') /\
  arrays_same w (snd (tune_syn env w)) /\
  arrays_same w (snd (set_lockin_buffer env w)) /\
  arrays_same w (snd (save_spectrum env w)) /\
  (forall v,
     let w' := snd (record_and_next v w) in
     arrays_step w w' /\
     (y (singleScan w') = y (singleScan w) \/
      py_setitem (y (singleScan w)) (current_x_index (singleScan w)) v
      = Some (y (singleScan w')))) /\
  (forall b, arrays_same w (snd (pause_scan b w))) /\
  (forall b, arrays_same w (snd (reject b w))) /\
  arrays_same w (snd (finish w)).
Proof.
  repeat apply conj.
  - intros e w'. split; [apply update_setting_installs|].
    destruct (update_setting_arrays env e w) as [(xs & Hx & _ & Hpp)|H]; [|by right].
    left. exists xs. unfold pp_of, fresh in Hpp. injection Hpp as _ ? ? ?. done.
  - intros sl w' Hi. subst w'. destruct sl; cbn [run_slot] in *.
    + apply arrays_same_step, set_lockin_buffer_arrays.
    + by apply query_lockin_buffer_arrays.
    + apply arrays_same_step, tune_syn_arrays.
  - apply tune_syn_arrays.
  - apply set_lockin_buffer_arrays.
  - apply (proj1 (save_spectrum_arrays env w)).
  - intros v w'. split; [apply record_and_next_arrays|].
    subst w'. mexec; eauto.
  - intros b. apply pause_scan_arrays.
  - intros b. apply reject_arrays.
  - apply (proj1 (finish_arrays w)).
Qed.

(** * Failures of the instruments and of the store *)

(** C9, against the claim as stated.  In the laboratory the first command of
    [set_lockin_buffer] fails on a [SingleScan] widget.  The exception leaves
    the callback for the event loop; the batch window's index, list and dialog
    are what they were and the program showed, printed and sent nothing: the
    error did not reach the batch controller and nothing was reported. *)
Lemma lock_in_failure_reaches_nobody :
  let env := failing_at lab 3 in
  let w := lab_single_window in
  let w' := step env waitTimer_timeout w in
  ticks w = 3%nat /\
  fst (set_lockin_buffer env w) = Raise InstrumentCommunicationError /\
  uncaught w' = [InstrumentCommunicationError] /\
  out w' = out w /\
  batch_of w' = batch_of w.
Proof. cbv zeta. repeat apply conj; vm_compute; reflexivity. Qed.

Ltac raise_facts :=
  unfold left_as_it_was, batch_of, pp_of; mexec; intros [= <- <-]; cbn -[markers];
  rewrite ?markers_app, <- ?app_assoc; cbn; rewrite ?app_nil_r;
  repeat split; try done;
  eexists; first [ split; [reflexivity|done]
                 | split; [symmetry; apply app_nil_r|done] ].

Lemma set_lockin_buffer_raise env w e w' :
  set_lockin_buffer env w = (Raise e, w') -> left_as_it_was w w'.
Proof. raise_facts. Qed.

Lemma tune_syn_raise env w e w' :
  tune_syn env w = (Raise e, w') -> left_as_it_was w w'.
Proof. raise_facts. Qed.

Lemma save_spectrum_raise env w e w' :
  save_spectrum env w = (Raise e, w') -> left_as_it_was w w'.
Proof. raise_facts. Qed.

Lemma save_data_raise env w e w' :
  save_spectrum env w = (Raise e, w') -> save_data env w = (Raise e, w').
Proof. intros H. unfold save_data, bind. by rewrite H. Qed.

Lemma stalled env w :
  isActive (itgTimer (singleScan w)) = false ->
  isActive (waitTimer (singleScan w)) = false ->
  step env waitTimer_timeout w = w /\ step env itgTimer_timeout w = w.
Proof. intros H1 H2. unfold step. by rewrite H1, H2. Qed.

(** C9, as amended.  When [set_lockin_buffer], [tune_syn] or the hand-off of
    [save_data] raises, the exception propagates out of the method: the batch
    window's state, the batch-level trace (no install, no completion, no
    finished message), the index, the pass counter, both arrays and both timers
    are as before the call, and all that was added to the trace are commands
    already sent.  A failed hand-off makes [save_data] raise before it signals
    the batch window.  When the failing call was made by the wait timer's
    expiry with the integration timer idle, the exception is left with the
    event loop and no timer runs any more, so later timer turns change
    nothing: the batch stalls on the current window. *)
Theorem failure_escapes_and_stalls env w e w' :
  set_lockin_buffer env w = (Raise e, w') \/
  tune_syn env w = (Raise e, w') \/
  save_spectrum env w = (Raise e, w') ->
  left_as_it_was w w' /\
  (save_spectrum env w = (Raise e, w') -> save_data env w = (Raise e, w')) /\
  (forall w0,
     set_lockin_buffer env w = (Raise e, w') ->
     timeout (waitTimer (singleScan w0)) = [set_lockin_buffer_slot] ->
     isActive (waitTimer (singleScan w0)) = true ->
     isActive (itgTimer (singleScan w0)) = false ->
     w = set_singleScan
           (set_waitTimer (expire (waitTimer (singleScan w0))) (singleScan w0)) w0 ->
     let w1 := step env waitTimer_timeout w0 in
     uncaught w1 = uncaught w0 ++ [e] /\
     batch_of w1 = batch_of w0 /\
     markers (out w1) = markers (out w0) /\
     pp_of (singleScan w1) = pp_of (singleScan w0) /\
     step env waitTimer_timeout w1 = w1 /\
     step env itgTimer_timeout w1 = w1).
Proof.
  intros H. split; [|split].
  - destruct H as [H|[H|H]];
      eauto using set_lockin_buffer_raise, tune_syn_raise, save_spectrum_raise.
  - apply save_data_raise.
  - intros w0 Hr Hs Hw Hi Hw0 w1.
    assert (E : w1 = set_uncaught (uncaught w' ++ [e]) w').
    { subst w1. unfold step. rewrite Hw, Hs. cbn [invoke_all fold_left run_slot].
      rewrite <- Hw0. unfold invoke. by rewrite Hr. }
    assert (Hu : uncaught w' = uncaught w0).
    { revert Hr. rewrite Hw0. mexec; intros [= <- <-]; done. }
    destruct (set_lockin_buffer_raise _ _ _ _ Hr) as (Hb & Hm & Hp & Ht1 & Ht2 & _).
    subst w. unfold batch_of, pp_of in *. cbn -[markers] in Hb, Hm, Hp, Ht1, Ht2.
    rewrite E. cbn -[markers step]. rewrite Hu.
    split; [done|]. split; [done|]. split; [done|]. split; [done|].
    apply stalled; cbn; rewrite ?Ht1, ?Ht2; done.
Qed.

(** * The theorems at work in the laboratory *)

Lemma healthy_lab : healthy lab.
Proof. intros k. reflexivity. Defined.



Lemma next_freq_rule_witness :
  0 <= current_x_index (singleScan lab_turning_window)
    <= Z.of_nat (length (x (singleScan lab_turning_window))) - 1 /\
  Z.odd (current_avg (singleScan lab_turning_window)) = true /\
  exists w',
    next_freq lab_turning_window = (Ok tt, w') /\
    current_avg (singleScan w') = 2 /\
    current_x_index (singleScan w') = 2 /\
    y_sum (singleScan w') = [3; 5; 7]%Q.
Proof.
  split; [vm_compute; split; discriminate|]. split; [reflexivity|].
  destruct (next_freq_rule lab_turning_window)
    as (w' & Hrun & _ & _ & _ & (Hp & Hi & Hs & _) & _); try reflexivity.
  { vm_compute. split; discriminate. }
  exists w'. split; [exact Hrun|]. split; [exact Hp|]. split; [exact Hi|].
  rewrite Hs. vm_compute. reflexivity.
Defined.

Lemma update_setting_SingleScan_witness :
  healthy lab /\
  cls (singleScan (window_of [entry_20] lab_single)) = SingleScan /\
  gen_x_array (e_start entry_20) (e_stop entry_20) (e_step entry_20)
  = Ok [20; 2001 # 100]%Q /\
  exists w0,
    update_setting lab entry_20 (window_of [entry_20] lab_single) = (Ok tt, w0) /\
    interval (waitTimer (singleScan w0)) = 5%Q /\
    interval (itgTimer (singleScan w0)) = 30%Q /\
    isActive (waitTimer (singleScan w0)) = true /\
    isActive (itgTimer (singleScan w0)) = false /\
    timeout (waitTimer (singleScan w0)) = [set_lockin_buffer_slot] /\
    out w0 = [call_update_setting entry_20;
              setData ySumCurve [20; 2001 # 100]%Q [0; 0]%Q;
              set_sens 0; set_tc 1; set_syn_freq (20 / 6)%Q].
Proof.
  split; [exact healthy_lab|]. split; [reflexivity|].
  split; [vm_compute; reflexivity|].
  destruct (update_setting_SingleScan lab entry_20 (window_of [entry_20] lab_single)
              [20; 2001 # 100]%Q healthy_lab)
    as (w0 & x0 & Hrun & Hhd & _ & _ & _ & _ & _ & _ & _ & _ & _ & _ & _
        & Hwi & Hwa & Hwt & Hii & Hia & _ & _ & _ & Hout & _).
  { reflexivity. }
  { vm_compute. reflexivity. }
  exists w0. split; [exact Hrun|].
  split; [exact Hwi|]. split; [exact Hii|]. split; [exact Hwa|].
  split; [rewrite Hia; reflexivity|]. split; [rewrite Hwt; reflexivity|].
  rewrite Hout. injection Hhd as <-. reflexivity.
Defined.

Lemma pause_suppresses_settle_expiry_only_witness :
  cls (singleScan lab_window) = TestClass /\
  accepted lab_window = false /\
  timeout (waitTimer (singleScan (step lab pauseButton_clicked lab_window))) = [].
Proof.
  split; [reflexivity|]. split; [vm_compute; reflexivity|].
  destruct (pause_suppresses_settle_expiry_only lab lab_window) as (H & _).
  { reflexivity. }
  { vm_compute. reflexivity. }
  destruct H as (H & _).
  { vm_compute. reflexivity. }
  { vm_compute. discriminate. }
  exact H.
Defined.

Lemma failure_escapes_and_stalls_witness :
  let env := failing_at lab 3 in
  set_lockin_buffer env lab_single_window
  = (Raise InstrumentCommunicationError, snd (set_lockin_buffer env lab_single_window)) /\
  left_as_it_was lab_single_window (snd (set_lockin_buffer env lab_single_window)).
Proof.
  cbv zeta.
  assert (H : set_lockin_buffer (failing_at lab 3) lab_single_window
              = (Raise InstrumentCommunicationError,
                 snd (set_lockin_buffer (failing_at lab 3) lab_single_window))).
  { vm_compute. reflexivity. }
  split; [exact H|].
  exact (proj1 (failure_escapes_and_stalls (failing_at lab 3) lab_single_window
                  InstrumentCommunicationError _ (or_introl H))).
Defined.

Lemma gen_x_array_ascending_witness :
  (0 < 1 # 100)%Q /\ (10 <= 1002 # 100)%Q /\
  exists l, gen_x_array 10 (1002 # 100) (1 # 100) = Ok l /\ head l = Some 10%Q.
Proof.
  split; [reflexivity|]. split; [vm_compute; discriminate|].
  destruct (proj1 (gen_x_array_ascending 10 (1002 # 100) (1 # 100)))
    as (l & Hl & Hh & _).
  { reflexivity. }
  { vm_compute. discriminate. }
  exists l. split; [exact Hl|exact Hh].
Defined.

(** * A closed dialog *)

Lemma step_closed env ev w :
  accepted w = true ->
  isActive (itgTimer (singleScan w)) = false ->
  isActive (waitTimer (singleScan w)) = false ->
  step env ev w = w.
Proof. intros Ha Hi Hw. destruct ev; unfold step; by rewrite ?Ha, ?Hi, ?Hw. Qed.

Lemma run_closed env evs w :
  accepted w = true ->
  isActive (itgTimer (singleScan w)) = false ->
  isActive (waitTimer (singleScan w)) = false ->
  run env evs w = w.
Proof.
  intros Ha Hi Hw. induction evs as [|ev evs IH]; [done|].
  cbn. rewrite step_closed by done. exact IH.
Qed.

(** X1.  Once the batch window has been accepted, by the end of the batch or
    by an abort, no later timer expiry or button press changes anything. *)
Theorem closed_dialog_is_inert env entries fname w0 evs evs' :
  JPLScanWindow_init env entries fname = (Ok tt, w0) ->
  let w := run env evs w0 in
  accepted w = true ->
  run env evs' w = w.
Proof.
  intros Hinit w Hacc.
  destruct (run_inv env entries evs w0 (init_inv _ _ _ _ Hinit))
    as (_ & _ & _ & _ & Ha & _).
  destruct (Ha Hacc). by apply run_closed.
Qed.

(** X2.  Answering No to the abort question changes nothing.  Answering Yes
    stops both timers and accepts the dialog without saving or reporting
    anything: the arrays of the window under way are left as they are, and no
    later event has any effect. *)
Theorem abort_is_final env w evs :
  accepted w = false ->
  let w' := step env (reject_answered true) w in
  step env (reject_answered false) w = w /\
  accepted w' = true /\
  out w' = out w /\
  uncaught w' = uncaught w /\
  pp_of (singleScan w') = pp_of (singleScan w) /\
  isActive (itgTimer (singleScan w')) = false /\
  isActive (waitTimer (singleScan w')) = false /\
  run env evs w' = w'.
Proof.
  intros Hacc w'. subst w'. unfold step. rewrite Hacc.
  split; [by destruct w|].
  repeat split; try done. by apply run_closed.
Qed.

(** X3.  Built on an empty plan, the batch window finishes inside its
    constructor: it selects row 0 of its empty list and shows the
    job-finished box, nothing is installed, the dialog is accepted with the
    current entry index at 0 and both timers stopped, and no event that
    follows has any effect.  While that box is open no timer is running and
    the buttons are out of reach, so nothing can happen before it is closed,
    and closing it leaves exactly this window. *)
Theorem empty_plan_finishes_at_once env fname evs :
  exists w,
    JPLScanWindow_init env [] fname = (Ok tt, w) /\
    out w = [setCurrentRow 0; MsgInfo "Job Finished!"] /\
    isActive (itgTimer (singleScan w)) = false /\
    isActive (waitTimer (singleScan w)) = false /\
    accepted w = true /\
    current_entry_index w = 0 /\
    uncaught w = [] /\
    run env evs w = w /\
    exists w1,
      JPLScanWindow_init_exec env [] fname = (Ok tt, w1) /\
      accepted w1 = false /\
      (forall ev, step_exec env (dispatched ev) (w1, 0%nat) = (w1, 0%nat)) /\
      step_exec env MsgInfo_closed (w1, 0%nat) = (w, 1%nat).
Proof.
  eexists. split; [reflexivity|]. do 6 (split; [reflexivity|]).
  split; [by apply run_closed|].
  eexists. split; [reflexivity|]. split; [reflexivity|].
  split; [|reflexivity]. intros [| | |yes]; reflexivity.
Qed.

(** * Edge cases of construction and of the average count *)

Lemma py_index_None {A} (l : list A) (i : Z) :
  py_index l i = None <-> i < - Z.of_nat (length l) \/ Z.of_nat (length l) <= i.
Proof.
  unfold py_index.
  destruct (Z.leb_spec 0 i) as [H0|H0].
  - rewrite lookup_ge_None. lia.
  - destruct (Z.leb_spec (- Z.of_nat (length l)) i) as [H1|H1].
    + rewrite lookup_ge_None. lia.
    + split; [lia|done].
Qed.

Lemma entry_labels_missing env entries e :
  e ∈ entries ->
  py_index (Shared_LIASENSLIST env) (e_sens e) = None \/
  py_index (Shared_LIATCLIST env) (e_tc e) = None ->
  entry_labels env entries = None.
Proof.
  intros Hin Hbad. induction entries as [|e' entries IH]; [by apply elem_of_nil in Hin|].
  apply elem_of_cons in Hin as [<-|Hin]; cbn.
  - destruct Hbad as [-> | ->]; [done|]. by case_match.
  - rewrite (IH Hin). by repeat case_match.
Qed.

(** X4.  The constructor looks up the sensitivity and time-constant labels of
    every entry before the scan widget exists: one entry, anywhere in the plan,
    whose index is outside [-n, n) for its table of [n] labels makes the
    constructor raise [IndexError] with nothing installed, tuned or started. *)
Theorem construction_checks_every_label env entries fname e :
  e ∈ entries ->
  let nS := Z.of_nat (length (Shared_LIASENSLIST env)) in
  let nT := Z.of_nat (length (Shared_LIATCLIST env)) in
  e_sens e < - nS \/ nS <= e_sens e \/ e_tc e < - nT \/ nT <= e_tc e ->
  let r := JPLScanWindow_init env entries fname in
  fst r = Raise IndexError /\
  out (snd r) = [] /\
  isActive (waitTimer (singleScan (snd r))) = false /\
  isActive (itgTimer (singleScan (snd r))) = false.
Proof.
  intros Hin nS nT Hbad r. subst r. unfold JPLScanWindow_init.
  rewrite (entry_labels_missing env entries e Hin); [done|].
  rewrite !py_index_None. fold nS nT. lia.
Qed.

(** X5.  A window installed with an average count of 0 or less completes on
    its priming acquisition: the first sample is stored at index 0, the
    priming pass is folded into the sum, the counter is 1, and the termination
    check takes the [save_data] branch.  The sum then holds that one sample at
    index 0 and zero elsewhere. *)
Theorem no_average_completes_on_priming env (v : Q) e w w0 :
  update_setting env e w = (Ok tt, w0) ->
  e_avg e <= 0 ->
  let L := length (x (singleScan w0)) in
  exists w1,
    record_and_next v w0 = (Ok tt, w1) /\
    current_avg (singleScan w1) = 1 /\
    current_x_index (singleScan w1) = 0 /\
    y (singleScan w1) = <[0%nat := v]> (replicate L 0%Q) /\
    y_sum (singleScan w1) !! 0%nat = Some (0 + v)%Q /\
    (forall i : nat, (0 < i < L)%nat -> y_sum (singleScan w1) !! i = Some 0%Q) /\
    length (y_sum (singleScan w1)) = L /\
    completions (out w1) = completions (out w0) /\
    check_done env w1 = save_data env w1.
Proof.
  intros Hup Havg.
  destruct (update_setting_installed _ _ _ _ Hup) as (xs & Hgen & Hfresh & Hset).
  assert (Hx : x (singleScan w0) = xs) by (unfold settings in Hset; congruence).
  assert (Ha : avg (singleScan w0) = e_avg e) by (unfold settings in Hset; congruence).
  assert (H1 := gen_x_array_nonempty _ _ _ _ Hgen).
  unfold pp_of, fresh in Hfresh. injection Hfresh as Hi Hc Hy Hs.
  destruct (record_and_next_sim w0 v) as (w1 & Hrec & Hpp & Hq).
  { cbv zeta. rewrite Hi, Hy, length_replicate. lia. }
  cbv zeta in Hpp |- *. unfold pp_of in Hpp. rewrite Hi, Hc, Hy, Hs, Hx in Hpp.
  unfold pp_step in Hpp. cbn in Hpp. injection Hpp as Hi1 Hc1 Hy1 Hs1.
  change (Z.to_nat 0) with 0%nat in *.
  exists w1. rewrite Hx. rewrite Hs1. unfold np_iadd.
  destruct xs as [|x0 xs]; [simpl in H1; lia|]. cbn [length replicate] in *.
  repeat split; try done.
  - intros [|i] Hi'; [lia|]. cbn.
    apply lookup_zip_with_Some. exists 0%Q, 0%Q.
    rewrite !lookup_replicate_2 by lia. done.
  - cbn. by rewrite length_zip_with, !length_replicate, Nat.min_id.
  - by destruct Hq as (_ & ? & _).
  - apply check_done_complete. rewrite Hc1, (quiet_avg _ _ Hq), Ha. lia.
Qed.

(** * When saving or installing fails *)

(** X6.  [save_data] of [SingleScan] builds the header from the time
    constant that the lock-in reports, not from the entry's [tc_index]: when
    the reported index has no entry in [apival.LIATCLIST] it raises
    [IndexError] after the read-back, nothing is saved, and the batch is not
    moved to the next entry. *)
Theorem save_data_needs_a_known_time_constant env w sens :
  cls (singleScan w) = SingleScan ->
  io_fails env (ticks w) = false ->
  py_index (apival_LIASENSLIST env) (sens_index (singleScan w)) = Some sens ->
  py_index (apival_LIATCLIST env) (reply_tc env (ticks w)) = None ->
  exists w',
    save_data env w = (Raise IndexError, w') /\
    out w' = out w ++ [read_tc] /\
    singleScan w' = singleScan w /\
    current_entry_index w' = current_entry_index w /\
    accepted w' = accepted w.
Proof.
  intros Hc Hio Hs Ht. unfold save_data, save_spectrum. munfold.
  rewrite Hc. cbn. rewrite Hio. cbn. rewrite Hs, Ht. cbn.
  eexists. split; [reflexivity|]. done.
Qed.

(** X7.  When [gen_x_array] raises on the next entry of the plan,
    [next_entry] has already advanced the entry index and highlighted the row:
    the exception escapes, no attribute of the scan widget is assigned and no
    timer is started, so with both timers at rest, as they are when a window
    has just completed, no timer expiry moves the batch any further. *)
Theorem bad_range_stalls_the_batch env w e ex :
  batchList_len w = Z.of_nat (length (entry_settings w)) ->
  -1 <= current_entry_index w ->
  entry_settings w !! Z.to_nat (current_entry_index w + 1) = Some e ->
  gen_x_array (e_start e) (e_stop e) (e_step e) = Raise ex ->
  exists w',
    next_entry env w = (Raise ex, w') /\
    singleScan w' = singleScan w /\
    current_entry_index w' = current_entry_index w + 1 /\
    accepted w' = accepted w /\
    out w' = out w ++ [setCurrentRow (current_entry_index w + 1); call_update_setting e] /\
    let w1 := invoke (next_entry env) w in
    uncaught w1 = uncaught w ++ [ex] /\
    (isActive (itgTimer (singleScan w)) = false ->
     isActive (waitTimer (singleScan w)) = false ->
     step env waitTimer_timeout w1 = w1 /\ step env itgTimer_timeout w1 = w1).
Proof.
  intros Hlen Hidx He Hgen.
  assert (Hlt := lookup_lt_Some _ _ _ He).
  assert (Hrun : next_entry env w =
    (Raise ex,
     set_out (out w ++ [setCurrentRow (current_entry_index w + 1); call_update_setting e])
       (set_current_entry_index (current_entry_index w + 1) w))).
  { unfold next_entry, bind at 1 2 3. cbn -[update_setting finish]. rewrite Hlen.
    destruct (Z.ltb_spec (current_entry_index w + 1)
                (Z.of_nat (length (entry_settings w)))) as [_|Hge]; [|lia].
    unfold bind, emit, from_option, py_index. cbn -[update_setting finish].
    destruct (Z.leb_spec 0 (current_entry_index w + 1)); [|lia].
    rewrite He. unfold ret, update_setting. munfold. rewrite Hgen. cbn.
    by rewrite <- app_assoc. }
  eexists. split; [exact Hrun|]. cbn.
  split; [done|]. split; [done|]. split; [done|]. split; [done|].
  split; [unfold invoke; by rewrite Hrun|].
  intros Hi Hw. unfold step, invoke. rewrite Hrun. cbn. by rewrite Hi, Hw.
Qed.

(** * The instrument-driving class as it is wired *)

Ltac idle_facts :=
  unfold nothing_recorded, settings, pp_of; cbn -[markers];
  rewrite ?markers_app; cbn; rewrite ?app_nil_r; try done.

Lemma nothing_recorded_refl w : nothing_recorded w w.
Proof. by repeat split. Qed.

Lemma nothing_recorded_trans w1 w2 w3 :
  nothing_recorded w1 w2 -> nothing_recorded w2 w3 -> nothing_recorded w1 w3.
Proof.
  unfold nothing_recorded. intros (?&?&?&?) (?&?&?&?). repeat split; congruence.
Qed.

Lemma nothing_recorded_cls w w' :
  nothing_recorded w w' -> cls (singleScan w') = cls (singleScan w).
Proof. intros (H & _). unfold settings in H. congruence. Qed.

Lemma tune_syn_nothing env w : nothing_recorded w (snd (tune_syn env w)).
Proof. mexec; idle_facts. Qed.

Lemma set_lockin_buffer_nothing env w :
  nothing_recorded w (snd (set_lockin_buffer env w)).
Proof. mexec; idle_facts. Qed.

Lemma pause_scan_nothing b w : nothing_recorded w (snd (pause_scan b w)).
Proof. mexec; idle_facts. Qed.

Lemma reject_nothing b w : nothing_recorded w (snd (reject b w)).
Proof. mexec; idle_facts. Qed.

Lemma invoke_nothing (m : M unit) w :
  nothing_recorded w (snd (m w)) -> nothing_recorded w (invoke m w).
Proof.
  intros H. destruct (invoke_snd m w) as [u ->].
  eapply nothing_recorded_trans; [exact H|]. by repeat split.
Qed.

Lemma run_slot_SingleScan env s w :
  cls (singleScan w) = SingleScan -> nothing_recorded w (snd (run_slot env s w)).
Proof.
  intros Hc. destruct s; cbn [run_slot].
  - apply set_lockin_buffer_nothing.
  - rewrite query_lockin_buffer_SingleScan by done. apply nothing_recorded_refl.
  - apply tune_syn_nothing.
Qed.

Lemma invoke_all_SingleScan env slots w :
  cls (singleScan w) = SingleScan -> nothing_recorded w (invoke_all env slots w).
Proof.
  revert w. induction slots as [|s slots IH]; intros w Hc; [apply nothing_recorded_refl|].
  cbn. assert (H := invoke_nothing _ _ (run_slot_SingleScan env s w Hc)).
  eapply nothing_recorded_trans; [exact H|]. apply IH.
  by rewrite (nothing_recorded_cls _ _ H).
Qed.

Lemma step_SingleScan env ev w :
  cls (singleScan w) = SingleScan -> nothing_recorded w (step env ev w).
Proof.
  intros Hc. destruct ev; unfold step.
  - case_match; [|apply nothing_recorded_refl].
    eapply nothing_recorded_trans; [|by apply invoke_all_SingleScan].
    by repeat split.
  - case_match; [|apply nothing_recorded_refl].
    eapply nothing_recorded_trans; [|by apply invoke_all_SingleScan].
    by repeat split.
  - case_match; [apply nothing_recorded_refl|].
    eapply nothing_recorded_trans; [|apply invoke_nothing, pause_scan_nothing].
    by repeat split.
  - case_match; [apply nothing_recorded_refl|].
    apply invoke_nothing, reject_nothing.
Qed.

(** X8.  A [SingleScan] widget never records anything: whatever events
    arrive, the index, the pass counter and both arrays stay as they were,
    no entry is installed or completed and the batch stays on its entry.
    Every call of [query_lockin_buffer] stops at the unbound [lcHandle]. *)
Theorem SingleScan_never_records env w evs :
  cls (singleScan w) = SingleScan ->
  let w' := run env evs w in
  cls (singleScan w') = SingleScan /\
  x (singleScan w') = x (singleScan w) /\
  current_x_index (singleScan w') = current_x_index (singleScan w) /\
  current_avg (singleScan w') = current_avg (singleScan w) /\
  y (singleScan w') = y (singleScan w) /\
  y_sum (singleScan w') = y_sum (singleScan w) /\
  completions (out w') = completions (out w) /\
  installs (out w') = installs (out w) /\
  current_entry_index w' = current_entry_index w.
Proof.
  intros Hc w'. subst w'.
  assert (H : nothing_recorded w (run env evs w)).
  { revert w Hc. induction evs as [|ev evs IH]; intros w Hc; [apply nothing_recorded_refl|].
    cbn. assert (H := step_SingleScan env ev w Hc).
    eapply nothing_recorded_trans; [exact H|]. apply IH.
    by rewrite (nothing_recorded_cls _ _ H). }
  destruct H as (Hs & Hp & Hm & Hi). unfold settings, pp_of in *.
  rewrite completions_markers, installs_markers, Hm, <- completions_markers,
    <- installs_markers.
  repeat split; congruence.
Qed.

(** X9.  On a [SingleScan] widget wired as [__init__] leaves it, the first
    press of the pause button raises [TypeError], since [tune_syn] was never
    connected to the wait timer: the label changes, the connections do not,
    and the scan is not paused.  The second press connects [tune_syn] besides
    [set_lockin_buffer] and starts the wait timer; from then on every expiry
    of the wait timer sends the four buffer commands, starts the integration
    timer, retunes the synthesizer and starts the wait timer again. *)
Theorem SingleScan_pause_does_not_pause env w :
  cls (singleScan w) = SingleScan ->
  timeout (waitTimer (singleScan w)) = [set_lockin_buffer_slot] ->
  pauseButton_checked (singleScan w) = false ->
  accepted w = false ->
  let w1 := step env pauseButton_clicked w in
  let w2 := step env pauseButton_clicked w1 in
  (forall fname s, SingleScan_init env fname = Ok s ->
     cls s = SingleScan /\ timeout (waitTimer s) = [set_lockin_buffer_slot] /\
     pauseButton_checked s = false) /\
  uncaught w1 = (uncaught w ++ [TypeError])%list /\
  out w1 = (out w ++ [setText "Resume Current Scan"])%list /\
  waitTimer (singleScan w1) = waitTimer (singleScan w) /\
  itgTimer (singleScan w1) = itgTimer (singleScan w) /\
  pauseButton_checked (singleScan w1) = true /\
  uncaught w2 = uncaught w1 /\
  out w2 = (out w1 ++ [setText "Pause Current Scan"])%list /\
  timeout (waitTimer (singleScan w2)) = [set_lockin_buffer_slot; tune_syn_slot] /\
  isActive (waitTimer (singleScan w2)) = true /\
  (healthy env ->
   0 <= current_x_index (singleScan w) < Z.of_nat (length (x (singleScan w))) ->
   let w3 := step env waitTimer_timeout w2 in
   exists f,
     py_index (x (singleScan w)) (current_x_index (singleScan w)) = Some f /\
     out w3 = (out w2 ++ [lc_write "REST"; lc_write "SRAT13"; lc_write "SEND0";
                          lc_write "STRT"; set_syn_freq (f / multiplier (singleScan w))])%list /\
     uncaught w3 = uncaught w2 /\
     isActive (itgTimer (singleScan w3)) = true /\
     isActive (waitTimer (singleScan w3)) = true).
Proof.
  intros Hc Hw Hp Ha. cbv zeta. split.
  { intros fname s. unfold SingleScan_init. case_match; [|done]. by intros [= <-]. }
  assert (H1 : step env pauseButton_clicked w =
    set_uncaught (uncaught w ++ [TypeError])
      (set_out (out w ++ [setText "Resume Current Scan"%string])
         (set_singleScan (set_pauseButton_checked true (singleScan w)) w))).
  { unfold step. rewrite Ha, Hp. cbn [negb]. unfold invoke, pause_scan. munfold.
    cbn. rewrite Hc, Hw. cbn. done. }
  rewrite H1. clear H1.
  match goal with |- context [step env pauseButton_clicked ?t] =>
    set (w1 := t) end.
  assert (H2 : step env pauseButton_clicked w1 =
    set_singleScan
      (set_waitTimer (start (connect (waitTimer (singleScan w)) tune_syn_slot))
         (set_pauseButton_checked false (singleScan w1)))
      (set_out (out w1 ++ [setText "Pause Current Scan"%string]) w1)).
  { unfold step. subst w1. cbn [accepted set_uncaught set_out set_singleScan singleScan
      pauseButton_checked set_pauseButton_checked]. rewrite Ha. cbn [negb].
    unfold invoke, pause_scan. munfold. cbn. rewrite Hc. done. }
  rewrite H2. clear H2.
  repeat split; try done.
  - cbn. by rewrite Hw.
  - intros Hh Hi.
    destruct (py_index_in_range _ _ Hi) as (f & Hf & _).
    exists f. split; [done|].
    unfold step. cbn [singleScan set_singleScan waitTimer set_waitTimer isActive start
      timeout connect]. rewrite Hw. cbn [app invoke_all fold_left run_slot].
    unfold invoke, set_lockin_buffer, tune_syn. munfold. cbn.
    repeat (first [rewrite Hc | rewrite Hh | rewrite Hf]; cbn).
    rewrite <- !app_assoc. done.
Qed.

(** * A batch on [TestClass], event by event *)

Lemma record_and_next_frame v w :
  frame_of (snd (record_and_next v w)) = frame_of w.
Proof. mexec; done. Qed.

Lemma pp_step_lengths (L : Z) (v : Q) i p ys sm i' p' ys' sm' :
  pp_step L v (i, p, ys, sm) = (i', p', ys', sm') ->
  length sm = length ys ->
  length ys' = length ys /\ length sm' = length ys.
Proof.
  unfold pp_step, np_iadd.
  repeat case_inner; intros [= <- <- <- <-] H;
    rewrite ?length_zip_with, ?length_insert; lia.
Qed.

Lemma update_setting_TestClass env e w :
  cls (singleScan w) = TestClass ->
  entry_ok env e ->
  exists w' xs,
    update_setting env e w = (Ok tt, w') /\
    xs <> [] /\
    singleScan w' =
      {| cls := TestClass; filename := filename (singleScan w);
         multiplier := multiplier (singleScan w);
         x := xs; current_x_index := 0; avg := e_avg e; current_avg := 0;
         sens_index := e_sens e; tc_index := e_tc e;
         itgtime := e_itgtime e; waittime := e_waittime e;
         y := zeros_like xs; y_sum := zeros_like xs;
         itgTimer := setInterval (itgTimer (singleScan w)) (e_itgtime e);
         waitTimer := start (setInterval (waitTimer (singleScan w)) (e_waittime e));
         pauseButton_checked := pauseButton_checked (singleScan w) |} /\
    (entry_settings w', batchList_len w', current_entry_index w', accepted w',
     uncaught w', ticks w') =
    (entry_settings w, batchList_len w, current_entry_index w, accepted w,
     uncaught w, ticks w) /\
    markers (out w') = (markers (out w) ++ [installed e])%list /\
    gen_x_array (e_start e) (e_stop e) (e_step e) = Ok (xs).
Proof.
  intros Hc ((xs & Hgen & Hne) & (sl & Hs) & (tl & Ht)).
  destruct xs as [|x0 xs]; [done|].
  unfold update_setting. munfold. rewrite Hgen. cbn. rewrite Hc. cbn.
  rewrite Hs, Ht. cbn. change (Z.to_nat 0) with 0%nat. cbn. rewrite ?Hc. cbn.
  do 2 eexists. split; [reflexivity|]. split; [done|]. cbn -[markers].
  rewrite !markers_app. cbn. rewrite !app_nil_r. done.
Qed.

Lemma finish_closes w :
  exists w',
    finish w = (Ok tt, w') /\
    singleScan w' =
      set_waitTimer (stop (waitTimer (singleScan w)))
        (set_itgTimer (stop (itgTimer (singleScan w))) (singleScan w)) /\
    accepted w' = true /\
    (entry_settings w', batchList_len w', current_entry_index w', uncaught w', ticks w') =
    (entry_settings w, batchList_len w, current_entry_index w, uncaught w, ticks w) /\
    markers (out w') = (markers (out w) ++ [finished])%list.
Proof.
  unfold finish, stop_timers, accept. munfold. eexists. split; [reflexivity|].
  cbn -[markers]. rewrite markers_app. done.
Qed.

Lemma next_entry_TestClass env w :
  wired env w ->
  accepted w = false ->
  exists w', next_entry env w = (Ok tt, w') /\ TestClass_inv env w'.
Proof.
  intros (Hc & Hall & Hlen & Hidx & Hitg & Hwait & Hy & Hs & Hu) Hacc.
  unfold next_entry, bind at 1 2 3. cbn -[update_setting finish]. rewrite Hlen.
  destruct (Z.ltb_spec (current_entry_index w + 1)
              (Z.of_nat (length (entry_settings w)))) as [Hlt|Hge].
  - destruct (lookup_lt_is_Some_2 (entry_settings w)
                (Z.to_nat (current_entry_index w + 1))) as [e He]; [lia|].
    unfold bind, emit, from_option, py_index. cbn -[update_setting finish].
    destruct (Z.leb_spec 0 (current_entry_index w + 1)); [|lia].
    rewrite He. unfold ret.
    assert (Hok : entry_ok env e) by (rewrite Forall_lookup in Hall; eauto).
    match goal with |- context [update_setting env e ?w0] =>
      destruct (update_setting_TestClass env e w0) as (w' & xs & Hup & Hne & Hscan & Hwin & _);
        [done|done|] end.
    cbn in Hscan, Hwin. injection Hwin as E1 E2 E3 E4 E5 E6.
    exists w'. split; [done|]. unfold TestClass_inv, wired. rewrite Hscan. cbn.
    rewrite E1, E2, E3, E4, E5, Hacc. unfold zeros_like. rewrite !length_replicate.
    repeat split; try done; try lia.
    destruct xs; [done|]. cbn. lia.
  - destruct (finish_closes
                (set_current_entry_index (current_entry_index w + 1) w))
      as (w' & Hfin & Hscan & Ha & Hwin & _).
    cbn in Hscan, Hwin. injection Hwin as E1 E2 E3 E4 E5.
    exists w'. split; [done|]. unfold TestClass_inv, wired. rewrite Hscan. cbn.
    rewrite E1, E2, E3, E4, Ha.
    repeat split; try done; try lia.
Qed.

Lemma query_lockin_buffer_TestClass env w :
  TestClass_inv env w ->
  accepted w = false ->
  exists w', query_lockin_buffer env w = (Ok tt, w') /\ TestClass_inv env w'.
Proof.
  intros ((Hc & Hall & Hlen & Hidx & Hitg & Hwait & Hy & Hs & Hu) & Hrange & _) Hacc.
  specialize (Hrange Hacc).
  unfold query_lockin_buffer, bind at 1. rewrite read_sample_TestClass by done.
  set (v := random_sample env (ticks w)).
  set (w1 := set_ticks (S (ticks w))
               (set_out (out w ++ [print query_lockin_buffer_line]) w)).
  destruct (record_and_next_sim w1 v) as (w2 & Hrec & Hpp & Hq).
  { cbn. lia. }
  assert (Hfr := record_and_next_frame v w1). rewrite Hrec in Hfr. cbn [snd] in Hfr.
  unfold frame_of, settings in Hfr. cbn in Hfr.
  injection Hfr as F1 F2 F3 F4 F5 F6 F7 F8 F9 F10 F11 F12 F13 F14 F15 F16 F17.
  cbv zeta in Hpp. change (singleScan w1) with (singleScan w) in Hpp.
  unfold pp_of in Hpp at 2.
  destruct (pp_step _ _ _) as [[[i' p'] ys'] sm'] eqn:Est.
  assert (Hi' := pp_step_index _ _ _ _ _ _ _ _ _ _ Est Hrange).
  destruct (pp_step_lengths _ _ _ _ _ _ _ _ _ _ Est) as [Hy' Hs']; [lia|].
  unfold pp_of in Hpp. injection Hpp as P1 P2 P3 P4.
  assert (Hwired : wired env w2).
  { unfold wired. rewrite F1, F4, F10, F11, F12, F13, F14, F15, F17, P3, P4.
    repeat split; try done; lia. }
  unfold record_and_advance, bind at 1. rewrite Hrec.
  unfold check_done, bind at 1, get_scan.
  destruct (current_avg (singleScan w2) >? avg (singleScan w2)).
  - unfold save_data, bind at 1. rewrite save_spectrum_TestClass by congruence.
    unfold move_to_next_entry_emit.
    apply next_entry_TestClass; [|cbn; congruence].
    destruct Hwired as (?&?&?&?&?&?&?&?&?). by repeat split.
  - destruct (tune_syn_TestClass env w2) as (f & ->); [congruence|rewrite P1, F4; lia|].
    eexists. split; [reflexivity|].
    destruct Hwired as (?&?&?&?&?&?&?&?&?).
    unfold TestClass_inv, wired. cbn. rewrite F16, Hacc, P1, F4.
    repeat split; try done; try lia; cbn in *; congruence.
Qed.

Lemma set_lockin_buffer_TestClass env w :
  cls (singleScan w) = TestClass ->
  set_lockin_buffer env w =
    (Ok tt,
     set_singleScan (set_itgTimer (start (itgTimer (singleScan w))) (singleScan w))
       (set_out (out w ++ [print clear_lockin_buffer]) w)).
Proof. intros Hc. unfold set_lockin_buffer. munfold. by rewrite Hc. Qed.

Lemma step_TestClass_inv env ev w :
  TestClass_inv env w -> TestClass_inv env (step env ev w).
Proof.
  intros Hinv. assert (Hinv' := Hinv).
  destruct Hinv' as ((Hc & Hall & Hlen & Hidx & Hitg & Hwait & Hy & Hs & Hu) & Hrange & Hclosed).
  assert (Hkept : forall w', 
    (cls (singleScan w'), entry_settings w', batchList_len w', current_entry_index w',
     timeout (itgTimer (singleScan w')), x (singleScan w'), y (singleScan w'),
     y_sum (singleScan w'), current_x_index (singleScan w'), uncaught w') =
    (cls (singleScan w), entry_settings w, batchList_len w, current_entry_index w,
     timeout (itgTimer (singleScan w)), x (singleScan w), y (singleScan w),
     y_sum (singleScan w), current_x_index (singleScan w), uncaught w) ->
    timeout (waitTimer (singleScan w')) =
      (if pauseButton_checked (singleScan w') then [] else [set_lockin_buffer_slot]) ->
    (accepted w' = false -> accepted w = false) ->
    (accepted w' = true ->
     isActive (itgTimer (singleScan w')) = false /\
     isActive (waitTimer (singleScan w')) = false) ->
    TestClass_inv env w').
  { intros w' [= E1 E2 E3 E4 E5 E6 E7 E8 E9 E10] Hw' Ha' Hcl'.
    unfold TestClass_inv, wired. rewrite E1, E2, E3, E4, E5, E6, E7, E8, E9, E10.
    split; [by repeat split|]. split; [intros Hf; by apply Hrange, Ha'|done]. }
  destruct ev; unfold step.
  - destruct (isActive (waitTimer (singleScan w))) eqn:Hact; [|done].
    assert (Hacc : accepted w = false).
    { destruct (accepted w); [|done]. destruct Hclosed as [_ ?]; congruence. }
    rewrite Hwait. destruct (pauseButton_checked (singleScan w)) eqn:Hp;
      cbn [invoke_all fold_left run_slot].
    + apply Hkept; cbn; rewrite ?Hp, ?Hacc; done.
    + unfold invoke. rewrite set_lockin_buffer_TestClass by done.
      apply Hkept; cbn; rewrite ?Hp, ?Hacc; done.
  - destruct (isActive (itgTimer (singleScan w))) eqn:Hact; [|done].
    assert (Hacc : accepted w = false).
    { destruct (accepted w); [|done]. destruct Hclosed as [? _]; congruence. }
    rewrite Hitg. cbn [invoke_all fold_left run_slot].
    match goal with |- context [invoke _ ?w0] =>
      destruct (query_lockin_buffer_TestClass env w0) as (w' & Hq & Hinv') end.
    { apply Hkept; cbn; rewrite ?Hacc; done. }
    { done. }
    unfold invoke. by rewrite Hq.
  - destruct (accepted w) eqn:Hacc; [done|].
    unfold invoke, pause_scan. munfold. cbn. rewrite Hc, Hwait.
    destruct (pauseButton_checked (singleScan w)) eqn:Hp; cbn;
      apply Hkept; cbn; rewrite ?Hwait, ?Hp, ?Hc, ?Hacc; done.
  - destruct (accepted w) eqn:Hacc; [done|].
    destruct yes; unfold invoke, reject, stop_timers, accept; munfold; cbn;
      apply Hkept; cbn; rewrite ?Hacc; done.
Qed.

Lemma run_TestClass_inv env evs w :
  TestClass_inv env w -> TestClass_inv env (run env evs w).
Proof.
  revert w. induction evs as [|ev evs IH]; intros w H; [done|].
  cbn. apply IH. by apply step_TestClass_inv.
Qed.

Lemma entry_labels_ok env entries ls e :
  entry_labels env entries = Some ls -> e ∈ entries ->
  is_Some (py_index (Shared_LIASENSLIST env) (e_sens e)) /\
  is_Some (py_index (Shared_LIATCLIST env) (e_tc e)).
Proof.
  revert ls. induction entries as [|e' entries IH]; intros ls Hl Hin;
    [by apply elem_of_nil in Hin|].
  cbn in Hl.
  destruct (py_index (Shared_LIASENSLIST env) (e_sens e')) eqn:E1; [|done].
  destruct (py_index (Shared_LIATCLIST env) (e_tc e')) eqn:E2; [|done].
  destruct (entry_labels env entries) eqn:E3; [|done].
  apply elem_of_cons in Hin as [->|Hin]; [|by eapply IH].
  rewrite E1, E2. split; eauto.
Qed.

Lemma init_TestClass_inv env entries fname :
  axes_ok entries ->
  is_Some (entry_labels env entries) ->
  exists w0, JPLScanWindow_init env entries fname = (Ok tt, w0) /\
    TestClass_inv env w0.
Proof.
  intros Hax [ls Hl]. rewrite (JPLScanWindow_init_listed _ _ _ _ Hl).
  apply next_entry_TestClass; [|done].
  unfold wired. cbn. repeat split; try done.
  apply Forall_forall. intros e Hin. unfold axes_ok in Hax.
  rewrite Forall_forall in Hax. split; [by apply Hax|].
  by eapply entry_labels_ok.
Qed.

(** X10.  A batch on [TestClass] whose axes can be generated and whose labels
    exist never lets an exception escape into the event loop, whatever timer
    expiries and button presses arrive; all along, both data arrays have the
    length of the axis, the index is on the axis while the dialog is open, and
    the wait timer calls [set_lockin_buffer] exactly when the pause button is
    up. *)
Theorem TestClass_batch_never_raises env entries fname evs :
  axes_ok entries ->
  is_Some (entry_labels env entries) ->
  exists w0,
    JPLScanWindow_init env entries fname = (Ok tt, w0) /\
    let w := run env evs w0 in
    let s := singleScan w in
    uncaught w = [] /\
    length (y s) = length (x s) /\
    length (y_sum s) = length (x s) /\
    (accepted w = false -> 0 <= current_x_index s < Z.of_nat (length (x s))) /\
    timeout (waitTimer s) =
      (if pauseButton_checked s then [] else [set_lockin_buffer_slot]).
Proof.
  intros Hax Hl.
  destruct (init_TestClass_inv env entries fname Hax Hl) as (w0 & Hinit & Hinv).
  exists w0. split; [done|].
  destruct (run_TestClass_inv env evs w0 Hinv)
    as ((Hc & Hall & Hlen & Hidx & Hitg & Hwait & Hy & Hs & Hu) & Hrange & Hclosed).
  done.
Qed.

(** X11.  On [TestClass], pressing pause while the settle delay runs and
    releasing it, before or after that delay has expired, brings the widget
    back to the state it had before the press, the wait timer running and
    connected to [set_lockin_buffer]; only the two label changes remain.  In
    between, the expiry of the settle delay stops the wait timer and starts
    nothing. *)
Theorem pause_while_settling_only_delays env w :
  cls (singleScan w) = TestClass ->
  accepted w = false ->
  pauseButton_checked (singleScan w) = false ->
  timeout (waitTimer (singleScan w)) = [set_lockin_buffer_slot] ->
  isActive (waitTimer (singleScan w)) = true ->
  let w' :=
    set_out (out w ++ [setText "Resume Current Scan"; setText "Pause Current Scan"]) w in
  run env [pauseButton_clicked; pauseButton_clicked] w = w' /\
  run env [pauseButton_clicked; waitTimer_timeout; pauseButton_clicked] w = w' /\
  isActive (waitTimer (singleScan
    (run env [pauseButton_clicked; waitTimer_timeout] w))) = false /\
  out (run env [pauseButton_clicked; waitTimer_timeout] w)
  = out w ++ [setText "Resume Current Scan"].
Proof.
  intros Hc Ha Hp Ht Hact.
  destruct w as [es bl ci s acc o u tk]. cbn in *.
  destruct s as [c fn mu xs i av ca si ti it wt ys sm itg wait pb]. cbn in *.
  destruct wait as [iv act slots]. cbn in *. subst c acc pb slots act.
  cbv zeta. unfold run. cbn [fold_left].
  unfold step, invoke, pause_scan. munfold. cbn.
  rewrite <- !app_assoc. cbn. done.
Qed.

(** * The schedule of a window *)

Lemma lab_cycles_snoc n :
  lab_cycles (S n) = (lab_cycles n ++ [waitTimer_timeout; itgTimer_timeout])%list.
Proof.
  unfold lab_cycles. induction n as [|n IH]; [done|].
  rewrite replicate_S, concat_cons, IH at 1.
  by rewrite replicate_S, concat_cons, app_assoc.
Qed.

Lemma run_snoc env evs evs' w : run env (evs ++ evs') w = run env evs' (run env evs w).
Proof. unfold run. apply fold_left_app. Qed.

(** One settle delay and one integrate delay on a sweeping [TestClass]: the
    acquisition is the one of [record_and_next], up to its termination
    check. *)
Lemma cycle_to_check env w0 k w :
  sweeping env w0 k w ->
  (1 <= length (x (singleScan w0)))%nat ->
  exists w2,
    run env [waitTimer_timeout; itgTimer_timeout] w = invoke (check_done env) w2 /\
    wired env w2 /\
    frame_of w2 =
      (settings (singleScan w0),
       expire (start (itgTimer (singleScan w))),
       expire (waitTimer (singleScan w)),
       false, entry_settings w, batchList_len w, current_entry_index w, false,
       @nil exn) /\
    markers (out w2) = markers (out w0) /\
    ticks w2 = (ticks w0 + S k)%nat /\
    pp_of (singleScan w2) = pp_feed (length (x (singleScan w0))) (drawn env w0) (S k).
Proof.
  intros (Hinv & Hacc & Hp & Hact & Hset & Hm & Hidx & Ht & Hpp & Hes) HL.
  assert (Hinv' := Hinv).
  destruct Hinv' as ((Hc & Hall & Hlen & Hi & Hitg & Hwait & Hy & Hs & Hu) & Hrange & _).
  specialize (Hrange Hacc). rewrite Hp in Hwait.
  assert (Hx : x (singleScan w) = x (singleScan w0))
    by (unfold settings in Hset; congruence).
  unfold run. cbn [fold_left].
  assert (H1 : step env waitTimer_timeout w =
    set_singleScan
      (set_itgTimer (start (itgTimer (singleScan w)))
         (set_waitTimer (expire (waitTimer (singleScan w))) (singleScan w)))
      (set_out (out w ++ [print clear_lockin_buffer]) w)).
  { unfold step. rewrite Hact, Hwait. cbn [invoke_all fold_left run_slot].
    unfold invoke. by rewrite set_lockin_buffer_TestClass. }
  rewrite H1. clear H1.
  unfold step. cbn [singleScan set_singleScan set_out itgTimer set_itgTimer
    isActive start timeout]. rewrite Hitg. cbn [invoke_all fold_left run_slot].
  match goal with |- context [invoke _ ?t] => set (wa := t) end.
  unfold invoke at 1. unfold query_lockin_buffer, bind at 1.
  rewrite read_sample_TestClass by done.
  set (v := random_sample env (ticks wa)).
  set (w1 := set_ticks (S (ticks wa))
               (set_out (out wa ++ [print query_lockin_buffer_line]) wa)).
  destruct (record_and_next_sim w1 v) as (w2 & Hrec & Hpp2 & Hq).
  { cbn. lia. }
  assert (Hfr := record_and_next_frame v w1). rewrite Hrec in Hfr. cbn [snd] in Hfr.
  assert (Hsil := record_and_next_silent v w1). rewrite Hrec in Hsil. cbn [snd] in Hsil.
  assert (Htk : ticks w2 = ticks w1).
  { clear -Hrec. revert Hrec. mexec; by intros [= <-]. }
  unfold record_and_advance, bind at 1. rewrite Hrec.
  exists w2. split; [reflexivity|].
  cbv zeta in Hpp2. change (pp_of (singleScan w1)) with (pp_of (singleScan w)) in Hpp2.
  change (x (singleScan w1)) with (x (singleScan w)) in Hpp2.
  rewrite Hx, Hpp in Hpp2.
  assert (Hv : v = drawn env w0 k) by (unfold v, drawn; cbn; by rewrite Ht).
  rewrite Hv in Hpp2.
  change (pp_step _ _ _) with (pp_feed (length (x (singleScan w0))) (drawn env w0) (S k))
    in Hpp2.
  destruct (pp_feed_shape (length (x (singleScan w0))) (drawn env w0) (S k) HL)
    as (i' & p' & ys' & sm' & E & Hi' & Hys' & Hsm' & Hp').
  assert (Hfr' := Hfr). unfold frame_of, settings in Hfr'. cbn in Hfr'.
  injection Hfr' as F1 F2 F3 F4 F5 F6 F7 F8 F9 F10 F11 F12 F13 F14 F15 F16 F17.
  rewrite E in Hpp2. unfold pp_of in Hpp2. injection Hpp2 as P1 P2 P3 P4.
  split; [|split; [|split; [|split]]].
  - unfold wired. rewrite F1, F4, F10, F11, F12, F13, F14, F15, F17, P3, P4, Hx.
    cbn. rewrite Hp. repeat split; try done; lia.
  - rewrite Hfr. unfold frame_of, settings in *. cbn.
    injection Hset as S1 S2 S3 S4 S5 S6 S7 S8 S9.
    rewrite S1, S2, S3, S4, S5, S6, S7, S8, S9, Hp, Hacc, Hu. done.
  - destruct Hsil as (_ & -> & _). cbn -[markers]. rewrite !markers_app. cbn.
    by rewrite !app_nil_r.
  - rewrite Htk. cbn. lia.
  - rewrite E. unfold pp_of. congruence.
Qed.

Lemma sweeping_shape env w0 k w :
  sweeping env w0 k w ->
  (1 <= length (x (singleScan w0)))%nat ->
  x (singleScan w) = x (singleScan w0) /\
  avg (singleScan w) = avg (singleScan w0) /\
  current_avg (singleScan w) =
    Z.of_nat (match k with O => O | S k' => 1 + k' / length (x (singleScan w0)) end).
Proof.
  intros (_ & _ & _ & _ & Hset & _ & _ & _ & Hpp & _) HL.
  unfold settings in Hset. injection Hset as _ _ _ Hx Ha _ _ _ _.
  split; [done|]. split; [done|].
  destruct (pp_feed_shape _ (drawn env w0) k HL) as (i & p & ys & sm & E & _ & _ & _ & Hp).
  rewrite E in Hpp. unfold pp_of in Hpp. congruence.
Qed.

Lemma cycle_inside env w0 k w :
  sweeping env w0 k w ->
  (1 <= length (x (singleScan w0)))%nat ->
  Z.of_nat k < avg (singleScan w0) * Z.of_nat (length (x (singleScan w0))) ->
  sweeping env w0 (S k) (run env [waitTimer_timeout; itgTimer_timeout] w).
Proof.
  intros Hsw HL Hk.
  destruct (cycle_to_check env w0 k w Hsw HL) as (w2 & -> & Hwired & Hfr & Hm & Ht & Hpp).
  unfold frame_of, settings in Hfr.
  injection Hfr as F1 F2 F3 Hx Ha F6 F7 F8 F9 F10 F11 F12 F13 F14 F15 F16 F17.
  destruct (pp_feed_shape _ (drawn env w0) (S k) HL)
    as (i & p & ys & sm & E & Hi & _ & _ & Hp).
  rewrite E in Hpp. assert (Hpp' := Hpp). unfold pp_of in Hpp'.
  injection Hpp' as P1 P2 P3 P4.
  assert (Hle : current_avg (singleScan w2) <= avg (singleScan w2)).
  { rewrite P2, Hp, Ha.
    assert (Z.of_nat (k / length (x (singleScan w0))) < avg (singleScan w0)); [|lia].
    destruct (divide_by (length (x (singleScan w0))) k HL) as (q & r & Hqr & Hr & <-).
    nia. }
  unfold invoke. rewrite check_done_not_yet by done.
  destruct Hwired as (Hc & Hall & Hlen & Hidx & Hitg & Hwait & Hy & Hs & Hu).
  destruct (tune_syn_TestClass env w2 Hc) as (f & Htune); [rewrite P1, Hx; lia|].
  rewrite Htune.
  destruct Hsw as (_ & _ & _ & _ & _ & _ & Hcur & _ & _ & Hes).
  unfold sweeping, TestClass_inv, wired. cbn -[markers pp_feed settings].
  rewrite markers_app. change (markers [print (tune_syn_freq_to f)]) with (@nil marker).
  rewrite app_nil_r.
  split; [split; [by repeat split|]; split|].
  - intros _. rewrite P1, Hx. lia.
  - rewrite F16. done.
  - repeat split; try done; try congruence.
    + unfold settings. cbn. by rewrite F1, F2, F3, Hx, Ha, F6, F7, F8, F9.
    + unfold pp_of. cbn -[pp_feed]. by rewrite E, P1, P2, P3, P4.
Qed.

Lemma cycle_completes env w0 k w :
  sweeping env w0 k w ->
  (1 <= length (x (singleScan w0)))%nat ->
  k = (Z.to_nat (avg (singleScan w0)) * length (x (singleScan w0)))%nat ->
  let w' := run env [waitTimer_timeout; itgTimer_timeout] w in
  TestClass_inv env w' /\
  current_entry_index w' = current_entry_index w0 + 1 /\
  completions (out w') = S (completions (out w0)).
Proof.
  intros Hsw HL Hk w'. subst w'.
  destruct (cycle_to_check env w0 k w Hsw HL) as (w2 & -> & Hwired & Hfr & Hm & Ht & Hpp).
  unfold frame_of, settings in Hfr.
  injection Hfr as F1 F2 F3 Hx Ha F6 F7 F8 F9 F10 F11 F12 F13 F14 F15 F16 F17.
  destruct (pp_feed_shape _ (drawn env w0) (S k) HL)
    as (i & p & ys & sm & E & Hi & _ & _ & Hp).
  rewrite E in Hpp. unfold pp_of in Hpp. injection Hpp as P1 P2 P3 P4.
  assert (Hgt : avg (singleScan w2) < current_avg (singleScan w2)).
  { rewrite P2, Hp, Ha, Hk, Nat.div_mul by lia. lia. }
  destruct Hwired as (Hc & Hall & Hlen & Hidx & Hitg & Hwait & Hy & Hs & Hu).
  set (w3 := set_out (out w2 ++ [print save_data_line]) w2).
  destruct (next_entry_TestClass env w3) as (w4 & Hnext & Hinv4); [by repeat split|done|].
  destruct (next_entry_advanced env w3) as (_ & _ & A3 & _ & _ & A6); [done|done|].
  rewrite Hnext in A3, A6. cbn [snd] in A3, A6.
  assert (Hgo : invoke (check_done env) w2 = w4).
  { unfold invoke. rewrite check_done_complete by done.
    unfold save_data, move_to_next_entry_emit, bind.
    rewrite save_spectrum_TestClass by done. fold w3. by rewrite Hnext. }
  rewrite Hgo.
  destruct Hsw as (_ & _ & _ & _ & _ & _ & Hcur & _).
  split; [done|]. split; [cbn in A3; rewrite F15, Hcur in A3; exact A3|].
  rewrite !completions_markers.
  assert (Hm3 : markers (out w3) = (markers (out w0) ++ [completed])%list).
  { unfold w3. cbn -[markers]. by rewrite markers_app, Hm. }
  destruct (entry_settings w3 !! _).
  - destruct A6 as [_ ->]. rewrite Hm3, !List.filter_app, !length_app. cbn. lia.
  - destruct A6 as (_ & _ & _ & ->). rewrite Hm3, !List.filter_app, !length_app. cbn. lia.
Qed.

Lemma init_sweeping env e rest fname :
  axes_ok (e :: rest) ->
  is_Some (entry_labels env (e :: rest)) ->
  exists w0,
    JPLScanWindow_init env (e :: rest) fname = (Ok tt, w0) /\
    sweeping env w0 0 w0 /\
    (1 <= length (x (singleScan w0)))%nat /\
    avg (singleScan w0) = e_avg e /\
    markers (out w0) = [installed e] /\
    current_entry_index w0 = 0.
Proof.
  intros Hax Hl.
  destruct (init_TestClass_inv env (e :: rest) fname Hax Hl) as (w0 & Hinit & Hinv).
  exists w0. split; [done|].
  assert (Hok : entry_ok env e).
  { unfold axes_ok in Hax. apply Forall_cons in Hax as [Hax _].
    destruct Hl as [ls Hl]. split; [done|].
    eapply entry_labels_ok; [exact Hl|]. apply elem_of_cons. by left. }
  revert Hinit. destruct Hl as [ls Hl].
  rewrite (JPLScanWindow_init_listed _ _ _ _ Hl).
  unfold next_entry, bind at 1 2 3. cbn -[update_setting finish].
  unfold bind, emit, from_option, ret. cbn -[update_setting finish].
  change (-1 + 1) with 0.
  destruct (Z.ltb_spec 0 (Z.of_nat (S (length rest)))); [|lia].
  cbn -[update_setting]. change (Z.to_nat 0) with 0%nat. cbn -[update_setting].
  match goal with |- context [update_setting env e ?w] =>
    destruct (update_setting_TestClass env e w) as (w' & xs & Hup & Hne & Hscan & Hwin & Hm & _);
      [done|done|] end.
  rewrite Hup. intros [= <-].
  cbn in Hwin, Hm. injection Hwin as E1 E2 E3 E4 E5 E6.
  unfold sweeping. split; [split; [exact Hinv|]|].
  - rewrite Hscan. cbn -[markers]. rewrite Nat.add_0_r, E4. unfold zeros_like.
    repeat split; try done.
  - rewrite Hscan, E3, Hm. cbn. repeat split; try done.
    destruct xs; [done|]. cbn. lia.
Qed.

(** X12.  The first window of a batch on [TestClass] whose axes can be
    generated and whose labels exist, with axis length [L] and average count
    [avg]: during the first [avg * L] settle-and-integrate cycles (none when
    [avg <= 0]) nothing is completed, the wait timer is running again after
    each cycle, and index, counter and arrays are those of the ping-pong
    sweep over the values drawn; the next cycle completes the window and
    moves the batch to entry 1. *)
Theorem TestClass_window_completes_on_schedule env e rest fname :
  axes_ok (e :: rest) ->
  is_Some (entry_labels env (e :: rest)) ->
  exists w0,
    JPLScanWindow_init env (e :: rest) fname = (Ok tt, w0) /\
    let L := length (x (singleScan w0)) in
    let n := (Z.to_nat (e_avg e) * L)%nat in
    (1 <= L)%nat /\
    (forall k : nat, (k <= n)%nat ->
       let wk := run env (lab_cycles k) w0 in
       completions (out wk) = 0%nat /\
       current_entry_index wk = 0 /\
       uncaught wk = [] /\
       isActive (waitTimer (singleScan wk)) = true /\
       pp_of (singleScan wk) = pp_feed L (drawn env w0) k) /\
    (let w' := run env (lab_cycles (S n)) w0 in
     completions (out w') = 1%nat /\
     current_entry_index w' = 1 /\
     uncaught w' = []).
Proof.
  intros Hax Hl.
  destruct (init_sweeping env e rest fname Hax Hl)
    as (w0 & Hinit & Hsw0 & HL & Havg & Hm0 & Hidx0).
  exists w0. split; [done|]. cbv zeta. split; [done|].
  assert (Hc0 : completions (out w0) = 0%nat)
    by (by rewrite completions_markers, Hm0).
  assert (Hsweep : forall k : nat,
    (k <= Z.to_nat (e_avg e) * length (x (singleScan w0)))%nat ->
    sweeping env w0 k (run env (lab_cycles k) w0)).
  { induction k as [|k IH]; intros Hk; [exact Hsw0|].
    rewrite lab_cycles_snoc, run_snoc.
    apply cycle_inside; [apply IH; lia|done|]. rewrite Havg. nia. }
  split.
  - intros k Hk.
    destruct (Hsweep k Hk) as (Hinv & Hacc & Hp & Hact & Hset & Hm & Hidx & Ht & Hpp & _).
    destruct Hinv as ((_&_&_&_&_&_&_&_&Hu)&_).
    rewrite completions_markers, Hm, <- completions_markers.
    repeat split; try done. congruence.
  - rewrite lab_cycles_snoc, run_snoc.
    destruct (cycle_completes env w0 _ _ (Hsweep _ (Nat.le_refl _)) HL)
      as (Hinv & Hidx & Hcomp); [by rewrite Havg|].
    destruct Hinv as ((_&_&_&_&_&_&_&_&Hu)&_).
    repeat split; [lia|lia|done].
Qed.

(** * The schedule of a batch *)









(** * The configuration dialog *)

Lemma removeWidget_last (l : list nat) (i : nat) :
  i ∉ l -> removeWidget i (l ++ [i]) = l.
Proof.
  intros Hi. unfold removeWidget. rewrite List.filter_app. cbn.
  rewrite Nat.eqb_refl. cbn. rewrite app_nil_r.
  induction l as [|a l IH]; [done|].
  apply not_elem_of_cons in Hi as [Hne Hi]. cbn.
  destruct (Nat.eqb_spec a i) as [->|_]; [done|]. cbn. by rewrite IH.
Qed.

Lemma rows_inv_nonempty caption c :
  rows_inv caption c -> (1 <= length (entryWidgetList c))%nat.
Proof.
  intros (Hh & _). destruct (entryWidgetList c); [done|]. cbn. lia.
Qed.

Lemma add_entry_inv caption new c :
  rows_inv caption c -> rows_inv caption (add_entry new c).
Proof.
  intros (Hh & Hl & Hnd & Hlt). unfold rows_inv, add_entry. cbn.
  repeat split.
  - destruct (entryWidgetList c); [done|]. done.
  - by rewrite map_app, Hl.
  - apply NoDup_app. split; [done|]. split; [|apply NoDup_singleton].
    intros i Hi Hi'. apply list_elem_of_singleton in Hi'. subst i.
    rewrite Forall_forall in Hlt. specialize (Hlt _ Hi). lia.
  - apply Forall_app. split; [|apply Forall_singleton; lia].
    eapply Forall_impl; [exact Hlt|]. cbn. lia.
Qed.

Lemma remove_entry_inv caption c :
  rows_inv caption c ->
  exists c', remove_entry c = (Done tt, c') /\ rows_inv caption c'.
Proof.
  intros Hinv. assert (Hinv' := Hinv). destruct Hinv' as (Hh & Hl & Hnd & Hlt).
  unfold remove_entry.
  destruct (Z.eqb_spec (Z.of_nat (length (entryWidgetList c))) 1) as [H1|H1].
  - eexists. split; [reflexivity|]. done.
  - destruct (entryWidgetList c) as [|r rows _] eqn:El using rev_ind; [done|]. rewrite last_snoc. eexists. split; [reflexivity|].
    unfold rows_inv. cbn. rewrite removelast_last.
    rewrite Hl, map_app in *. cbn in *.
    apply NoDup_app in Hnd as (Hnd1 & Hnd2 & _).
    rewrite removeWidget_last.
    2:{ intros Hin. by apply (Hnd2 _ Hin), list_elem_of_singleton. }
    apply Forall_app in Hlt as [Hlt _].
    repeat split; try done.
    destruct rows as [|r1 rows]; [rewrite length_app in H1; cbn in H1; lia|].
    done.
Qed.

Lemma dialog_step_inv caption ev c errs :
  rows_inv caption c ->
  let st := dialog_step ev (c, errs) in
  rows_inv caption (fst st) /\
  snd st = if chose_nothing ev then errs ++ [Raised IndexError] else errs.
Proof.
  intros Hinv. destruct ev as [new| |files]; cbn.
  - split; [by apply add_entry_inv|done].
  - destruct (remove_entry_inv caption c Hinv) as (c' & -> & Hinv'). done.
  - destruct files; cbn; done.
Qed.

Lemma dialog_run_inv caption evs c errs :
  rows_inv caption c ->
  let st := dialog_run evs (c, errs) in
  rows_inv caption (fst st) /\
  length (snd st) = (length errs + length (List.filter chose_nothing evs))%nat.
Proof.
  revert c errs. induction evs as [|ev evs IH]; intros c errs Hinv.
  - cbn. split; [done|lia].
  - change (dialog_run (ev :: evs) (c, errs))
      with (dialog_run evs (dialog_step ev (c, errs))).
    destruct (dialog_step_inv caption ev c errs Hinv) as [H1 H2].
    destruct (dialog_step ev (c, errs)) as [c1 errs1]. cbn [fst snd] in H1, H2.
    destruct (IH c1 errs1 H1) as [H3 H4]. cbv zeta. split; [done|].
    rewrite H4, H2. cbn [List.filter].
    destruct (chose_nothing ev); cbn; rewrite ?length_app; cbn; lia.
Qed.

Lemma init_rows_inv caption : rows_inv caption (JPLScanConfig_init caption).
Proof.
  unfold rows_inv. cbn. repeat split.
  - apply NoDup_singleton.
  - apply Forall_singleton. lia.
Qed.

(** X14.  Whatever sequence of Add batch, Remove last batch and Save File
    Destination presses the configuration dialog receives, its first row is
    the caption row it was built with, the layout shows exactly the rows of
    [entryWidgetList], in order and without repetition, and the only
    exceptions that escape are the [IndexError]s of file dialogs closed with
    nothing selected: [remove_entry] never pops an empty list. *)
Theorem dialog_keeps_its_caption_row caption evs :
  let st := dialog_run evs (JPLScanConfig_init caption, []) in
  let c := fst st in
  head (entryWidgetList c) = Some (mkRow 0 caption) /\
  (1 <= length (entryWidgetList c))%nat /\
  entryLayout c = map widget_id (entryWidgetList c) /\
  NoDup (entryLayout c) /\
  length (snd st) = length (List.filter chose_nothing evs).
Proof.
  cbv zeta.
  destruct (dialog_run_inv caption evs _ [] (init_rows_inv caption)) as [Hinv Herr].
  cbv zeta in Herr. assert (Hn := rows_inv_nonempty _ _ Hinv).
  destruct Hinv as (Hh & Hl & Hnd & _). done.
Qed.

(** X15.  [remove_entry] right after [add_entry] restores the rows and the
    layout, and schedules the deletion of the row that was added.  On a dialog
    with a single row it removes nothing and shows the warning box. *)
Theorem remove_entry_undoes_add_entry caption new c :
  rows_inv caption c ->
  (exists c',
     remove_entry (add_entry new c) = (Done tt, c') /\
     entryWidgetList c' = entryWidgetList c /\
     entryLayout c' = entryLayout c /\
     config_out c' = config_out c ++ [deleteLater (widgets_built c)]) /\
  (length (entryWidgetList c) = 1%nat ->
   exists c',
     remove_entry c = (Done tt, c') /\
     entryWidgetList c' = entryWidgetList c /\
     entryLayout c' = entryLayout c /\
     config_out c' = config_out c ++
       [MsgWarning "Cannot remove batch!"%string
          "At least one batch entry is required!"%string]).
Proof.
  intros Hinv. assert (Hn := rows_inv_nonempty _ _ Hinv).
  destruct Hinv as (Hh & Hl & Hnd & Hlt). split.
  - unfold remove_entry, add_entry. cbn. rewrite length_app. cbn.
    destruct (Z.eqb_spec (Z.of_nat (length (entryWidgetList c) + 1)) 1); [lia|].
    rewrite last_snoc. eexists. split; [reflexivity|].
    cbn -[removeWidget removelast].
    rewrite removelast_last. split; [done|]. split; [|done].
    apply removeWidget_last.
    intros Hin. rewrite Forall_forall in Hlt. specialize (Hlt _ Hin). lia.
  - intros H1. unfold remove_entry. rewrite H1. cbn.
    eexists. split; [reflexivity|]. done.
Qed.

Lemma read_rows_valid av vdi rows n acc :
  Forall (fun r => fst (read_row av vdi r) = false) rows ->
  read_rows av vdi rows n acc = (n, acc ++ map (fun r => snd (read_row av vdi r)) rows).
Proof.
  revert n acc. induction rows as [|r rows IH]; intros n acc Hall; cbn.
  - by rewrite app_nil_r.
  - apply Forall_cons in Hall as [Hr Hall].
    destruct (read_row av vdi r) as [bad e]. cbn in *. subst bad. cbn.
    rewrite IH by done. by rewrite Z.mul_1_r, <- app_assoc.
Qed.

Lemma read_rows_stays_zero av vdi rows acc :
  fst (read_rows av vdi rows 0 acc) = 0.
Proof.
  revert acc. induction rows as [|r rows IH]; intros acc; cbn; [done|].
  destruct (read_row av vdi r) as [[] e]; cbn; apply IH.
Qed.

Lemma read_rows_invalid av vdi rows n acc r :
  r ∈ rows -> fst (read_row av vdi r) = true ->
  fst (read_rows av vdi rows n acc) = 0.
Proof.
  revert n acc. induction rows as [|r' rows IH]; intros n acc Hin Hbad;
    [by apply elem_of_nil in Hin|].
  cbn. apply elem_of_cons in Hin as [<-|Hin].
  - destruct (read_row av vdi r) as [bad e]. cbn in Hbad. subst bad. cbn.
    rewrite Z.mul_0_r. apply read_rows_stays_zero.
  - destruct (read_row av vdi r') as [[] e]; cbn; by apply IH.
Qed.

(** X16.  When the lock-in answers, a file name was chosen and every row
    passes its six validators, [get_settings] accepts the dialog and returns
    the file name with one setting tuple per row, in row order, each made of
    the validated values and the two selector indices; no error box is
    shown. *)
Theorem get_settings_returns_every_row av env c f :
  io_fails env (config_ticks c) = false ->
  config_filename c = Some f ->
  Forall (fun r => fst (read_row av (bandSelect_currentIndex env) r) = false)
    (entryWidgetList c) ->
  exists c',
    get_settings av env c =
      (Done (Some (map (fun r => snd (read_row av (bandSelect_currentIndex env) r))
                     (entryWidgetList c), f)), c') /\
    config_accepted c' = true /\
    config_out c' = config_out c ++ [apilc_read_tc] /\
    entryWidgetList c' = entryWidgetList c.
Proof.
  intros Hio Hf Hall. unfold get_settings. rewrite Hio.
  rewrite read_rows_valid by done. cbn. rewrite Hf.
  eexists. split; [reflexivity|]. done.
Qed.

(** X17.  One row with a validator status that is true, anywhere in the
    dialog, makes [get_settings] return [None]: the error box is shown, the
    dialog is not accepted, and the tuples of the valid rows are dropped,
    whether or not a file name was chosen. *)
Theorem get_settings_refuses_an_invalid_row av env c r :
  io_fails env (config_ticks c) = false ->
  r ∈ entryWidgetList c ->
  fst (read_row av (bandSelect_currentIndex env) r) = true ->
  exists c',
    get_settings av env c = (Done None, c') /\
    config_accepted c' = config_accepted c /\
    config_out c' = config_out c ++
      [apilc_read_tc;
       MsgError "Invalid input!"%string
         "Please fix invalid inputs before proceeding."%string] /\
    entryWidgetList c' = entryWidgetList c /\
    config_filename c' = config_filename c.
Proof.
  intros Hio Hin Hbad. unfold get_settings. rewrite Hio.
  assert (H0 := read_rows_invalid av (bandSelect_currentIndex env)
                  (entryWidgetList c) 1 [] r Hin Hbad).
  destruct (read_rows _ _ _ _ _) as [n es]. cbn in H0. subst n. cbn.
  eexists. split; [reflexivity|]. cbn. by rewrite <- app_assoc.
Qed.

Lemma dialog_run_no_file evs c errs :
  forallb (fun ev => negb (is_saveButton ev)) evs = true ->
  config_filename (fst (dialog_run evs (c, errs))) = config_filename c.
Proof.
  revert c errs. induction evs as [|ev evs IH]; intros c errs Hev; [done|].
  cbn in Hev. apply andb_true_iff in Hev as [H1 H2]. cbn.
  destruct ev as [new| |files]; [| |done]; cbn.
  - by rewrite IH.
  - unfold remove_entry. repeat case_match; rewrite IH by done; try done.
    all: simplify_eq; done.
Qed.

(** X18.  If Save File Destination was never pressed, [get_settings] on
    valid rows accepts the dialog and then raises [AttributeError] on
    [self.filename]: the dialog closes as accepted and nothing is
    returned. *)
Theorem get_settings_without_a_file av env caption evs :
  let c := fst (dialog_run evs (JPLScanConfig_init caption, [])) in
  forallb (fun ev => negb (is_saveButton ev)) evs = true ->
  io_fails env (config_ticks c) = false ->
  Forall (fun r => fst (read_row av (bandSelect_currentIndex env) r) = false)
    (entryWidgetList c) ->
  exists c',
    get_settings av env c = (Failed (AttributeError "filename"%string), c') /\
    config_accepted c' = true /\
    config_out c' = config_out c ++ [apilc_read_tc].
Proof.
  intros c Hev Hio Hall.
  assert (Hf : config_filename c = None) by (unfold c; by rewrite dialog_run_no_file).
  unfold get_settings. rewrite Hio, read_rows_valid by done. cbn. rewrite Hf.
  eexists. split; [reflexivity|]. done.
Qed.

Lemma read_rows_nonzero av vdi rows n acc :
  fst (read_rows av vdi rows n acc) <> 0 ->
  n <> 0 /\ Forall (fun r => fst (read_row av vdi r) = false) rows.
Proof.
  revert n acc. induction rows as [|r rows IH]; intros n acc H; cbn in H.
  - done.
  - destruct (read_row av vdi r) as [bad e] eqn:Er. destruct bad; cbn in H.
    + rewrite Z.mul_0_r in H. by rewrite read_rows_stays_zero in H.
    + destruct (IH _ _ H) as [Hn Hall]. split; [lia|].
      constructor; [by rewrite Er|done].
Qed.

(** X19.  Whenever [get_settings] returns a plan, the lock-in had answered, a
    file name had been chosen, every row had passed its validators, the
    dialog is accepted, and the plan has exactly one tuple per row, in row
    order. *)
Theorem get_settings_returns_only_valid_plans av env c plan f c' :
  get_settings av env c = (Done (Some (plan, f)), c') ->
  let vdi_index := bandSelect_currentIndex env in
  Forall (fun r => fst (read_row av vdi_index r) = false) (entryWidgetList c) /\
  plan = map (fun r => snd (read_row av vdi_index r)) (entryWidgetList c) /\
  length plan = length (entryWidgetList c) /\
  config_filename c = Some f /\
  config_accepted c' = true /\
  io_fails env (config_ticks c) = false.
Proof.
  unfold get_settings. destruct (io_fails env (config_ticks c)) eqn:Hio; [done|].
  destruct (read_rows _ _ _ _ _) as [n es] eqn:Er.
  destruct (Z.eqb_spec n 0) as [->|Hn]; cbn; [done|].
  destruct (config_filename c) as [f'|] eqn:Hf; [|done].
  intros [= <- <- <-].
  destruct (read_rows_nonzero av (bandSelect_currentIndex env) (entryWidgetList c) 1 [])
    as [_ Hall]; [by rewrite Er|].
  rewrite read_rows_valid in Er by done. injection Er as _ <-.
  cbn. rewrite length_map. done.
Qed.

(** * The further theorems at work in the laboratory *)

Lemma lab_window_built :
  JPLScanWindow_init lab [entry_10] "scan.lwa"%string = (Ok tt, lab_window).
Proof. vm_compute. reflexivity. Defined.

Lemma lab_axes_ok : axes_ok [entry_10; entry_20].
Proof.
  repeat constructor; eexists; (split; [vm_compute; reflexivity|discriminate]).
Defined.

Lemma lab_labels_ok : is_Some (entry_labels lab [entry_10; entry_20]).
Proof. eexists. vm_compute. reflexivity. Defined.


Lemma TestClass_window_completes_on_schedule_witness :
  axes_ok [entry_10; entry_20] /\
  is_Some (entry_labels lab [entry_10; entry_20]) /\
  exists w0,
    JPLScanWindow_init lab [entry_10; entry_20] "batch.lwa"%string = (Ok tt, w0) /\
    (1 <= length (x (singleScan w0)))%nat.
Proof.
  split; [exact lab_axes_ok|]. split; [exact lab_labels_ok|].
  destruct (TestClass_window_completes_on_schedule lab entry_10 [entry_20]
              "batch.lwa"%string lab_axes_ok lab_labels_ok) as (w0 & Hinit & HL & _).
  exists w0. split; [exact Hinit|exact HL].
Defined.

Lemma TestClass_batch_never_raises_witness :
  axes_ok [entry_10; entry_20] /\
  is_Some (entry_labels lab [entry_10; entry_20]) /\
  exists w0,
    JPLScanWindow_init lab [entry_10; entry_20] "batch.lwa"%string = (Ok tt, w0) /\
    uncaught (run lab (pauseButton_clicked :: lab_cycles 5) w0) = [].
Proof.
  split; [exact lab_axes_ok|]. split; [exact lab_labels_ok|].
  destruct (TestClass_batch_never_raises lab [entry_10; entry_20] "batch.lwa"%string
              (pauseButton_clicked :: lab_cycles 5) lab_axes_ok lab_labels_ok)
    as (w0 & Hinit & Hu & _).
  exists w0. split; [exact Hinit|exact Hu].
Defined.

Lemma SingleScan_never_records_witness :
  cls (singleScan lab_single_window) = SingleScan /\
  y (singleScan (run lab (lab_cycles 3) lab_single_window))
  = y (singleScan lab_single_window).
Proof.
  split; [reflexivity|].
  destruct (SingleScan_never_records lab lab_single_window (lab_cycles 3))
    as (_ & _ & _ & _ & Hy & _).
  { reflexivity. }
  exact Hy.
Defined.

Lemma SingleScan_pause_does_not_pause_witness :
  cls (singleScan lab_single_window) = SingleScan /\
  timeout (waitTimer (singleScan lab_single_window)) = [set_lockin_buffer_slot] /\
  pauseButton_checked (singleScan lab_single_window) = false /\
  accepted lab_single_window = false /\
  uncaught (step lab pauseButton_clicked lab_single_window)
  = uncaught lab_single_window ++ [TypeError].
Proof.
  split; [reflexivity|]. split; [vm_compute; reflexivity|].
  split; [vm_compute; reflexivity|]. split; [vm_compute; reflexivity|].
  destruct (SingleScan_pause_does_not_pause lab lab_single_window) as (_ & Hu & _).
  { reflexivity. }
  { vm_compute. reflexivity. }
  { vm_compute. reflexivity. }
  { vm_compute. reflexivity. }
  exact Hu.
Defined.

Lemma closed_dialog_is_inert_witness :
  JPLScanWindow_init lab [entry_10] "scan.lwa"%string = (Ok tt, lab_window) /\
  accepted (run lab [reject_answered true] lab_window) = true /\
  run lab (lab_cycles 2) (run lab [reject_answered true] lab_window)
  = run lab [reject_answered true] lab_window.
Proof.
  split; [exact lab_window_built|]. split; [vm_compute; reflexivity|].
  apply (closed_dialog_is_inert lab [entry_10] "scan.lwa"%string lab_window
           [reject_answered true] (lab_cycles 2) lab_window_built).
  vm_compute. reflexivity.
Defined.

Lemma abort_is_final_witness :
  accepted lab_window = false /\
  accepted (step lab (reject_answered true) lab_window) = true /\
  out (step lab (reject_answered true) lab_window) = out lab_window.
Proof.
  split; [vm_compute; reflexivity|].
  destruct (abort_is_final lab lab_window [itgTimer_timeout]) as (_ & Ha & Ho & _).
  { vm_compute. reflexivity. }
  split; [exact Ha|exact Ho].
Defined.

Lemma construction_checks_every_label_witness :
  entry_no_label ∈ [entry_10; entry_no_label] /\
  Z.of_nat (length (Shared_LIASENSLIST lab)) <= e_sens entry_no_label /\
  fst (JPLScanWindow_init lab [entry_10; entry_no_label] "scan.lwa"%string)
  = Raise IndexError.
Proof.
  assert (Hin : entry_no_label ∈ [entry_10; entry_no_label]).
  { apply elem_of_cons. right. apply elem_of_cons. left. reflexivity. }
  assert (Hbad : Z.of_nat (length (Shared_LIASENSLIST lab)) <= e_sens entry_no_label).
  { vm_compute. discriminate. }
  split; [exact Hin|]. split; [exact Hbad|].
  exact (proj1 (construction_checks_every_label lab [entry_10; entry_no_label]
                  "scan.lwa"%string entry_no_label Hin
                  (or_intror (or_introl Hbad)))).
Defined.

Lemma lab_0avg_installed :
  update_setting lab entry_0avg
    (window_of [entry_0avg] (TestClass_init "scan.lwa"%string))
  = (Ok tt,
     snd (update_setting lab entry_0avg
            (window_of [entry_0avg] (TestClass_init "scan.lwa"%string)))).
Proof. vm_compute. reflexivity. Defined.

Lemma no_average_completes_on_priming_witness :
  e_avg entry_0avg <= 0 /\
  exists w0 w1,
    update_setting lab entry_0avg
      (window_of [entry_0avg] (TestClass_init "scan.lwa"%string)) = (Ok tt, w0) /\
    record_and_next 5 w0 = (Ok tt, w1) /\
    check_done lab w1 = save_data lab w1.
Proof.
  split; [vm_compute; discriminate|].
  destruct (no_average_completes_on_priming lab 5 entry_0avg _ _ lab_0avg_installed)
    as (w1 & Hrec & _ & _ & _ & _ & _ & _ & _ & Hchk).
  { vm_compute. discriminate. }
  eexists _, w1. split; [exact lab_0avg_installed|]. split; [exact Hrec|exact Hchk].
Defined.

Lemma remove_entry_undoes_add_entry_witness :
  rows_inv lab_row (JPLScanConfig_init lab_row) /\
  exists c',
    remove_entry (add_entry lab_row (JPLScanConfig_init lab_row)) = (Done tt, c') /\
    entryWidgetList c' = entryWidgetList (JPLScanConfig_init lab_row).
Proof.
  split; [exact (init_rows_inv lab_row)|].
  destruct (remove_entry_undoes_add_entry lab_row lab_row (JPLScanConfig_init lab_row)
              (init_rows_inv lab_row)) as ((c' & Hrun & Hrows & _) & _).
  exists c'. split; [exact Hrun|exact Hrows].
Defined.

Lemma lab_rows_valid :
  Forall (fun r => fst (read_row lab_apival (bandSelect_currentIndex lab) r) = false)
    (entryWidgetList lab_config).
Proof. repeat constructor. Defined.

Lemma get_settings_returns_every_row_witness :
  io_fails lab (config_ticks lab_config) = false /\
  config_filename lab_config = Some "scan.lwa"%string /\
  exists c' plan,
    get_settings lab_apival lab lab_config = (Done (Some (plan, "scan.lwa"%string)), c') /\
    length plan = 2%nat.
Proof.
  split; [reflexivity|]. split; [reflexivity|].
  destruct (get_settings_returns_every_row lab_apival lab lab_config "scan.lwa"%string)
    as (c' & Hrun & _).
  { reflexivity. }
  { reflexivity. }
  { exact lab_rows_valid. }
  eexists c', _. split; [exact Hrun|]. reflexivity.
Defined.

Lemma get_settings_refuses_an_invalid_row_witness :
  io_fails lab (config_ticks lab_config_blank) = false /\
  mkRow 2 blank_row ∈ entryWidgetList lab_config_blank /\
  fst (read_row lab_apival (bandSelect_currentIndex lab) (mkRow 2 blank_row)) = true /\
  exists c', get_settings lab_apival lab lab_config_blank = (Done None, c').
Proof.
  assert (Hin : mkRow 2 blank_row ∈ entryWidgetList lab_config_blank).
  { apply elem_of_cons. right. apply elem_of_cons. right.
    apply elem_of_cons. left. reflexivity. }
  split; [reflexivity|]. split; [exact Hin|]. split; [reflexivity|].
  destruct (get_settings_refuses_an_invalid_row lab_apival lab lab_config_blank
              (mkRow 2 blank_row)) as (c' & Hrun & _).
  { reflexivity. }
  { exact Hin. }
  { reflexivity. }
  exists c'. exact Hrun.
Defined.

Lemma get_settings_without_a_file_witness :
  let evs := [addBatchButton_clicked lab_row] in
  let c := fst (dialog_run evs (JPLScanConfig_init lab_row, [])) in
  forallb (fun ev => negb (is_saveButton ev)) evs = true /\
  io_fails lab (config_ticks c) = false /\
  exists c',
    get_settings lab_apival lab c = (Failed (AttributeError "filename"%string), c') /\
    config_accepted c' = true.
Proof.
  cbv zeta. split; [reflexivity|]. split; [reflexivity|].
  destruct (get_settings_without_a_file lab_apival lab lab_row
              [addBatchButton_clicked lab_row]) as (c' & Hrun & Hacc & _).
  { reflexivity. }
  { reflexivity. }
  { repeat constructor. }
  exists c'. split; [exact Hrun|exact Hacc].
Defined.

Lemma save_data_needs_a_known_time_constant_witness :
  cls (singleScan lab_single_window) = SingleScan /\
  py_index (apival_LIATCLIST lab_unknown_tc)
    (reply_tc lab_unknown_tc (ticks lab_single_window)) = None /\
  exists w',
    save_data lab_unknown_tc lab_single_window = (Raise IndexError, w') /\
    current_entry_index w' = current_entry_index lab_single_window.
Proof.
  split; [reflexivity|]. split; [reflexivity|].
  destruct (save_data_needs_a_known_time_constant lab_unknown_tc lab_single_window
              "5 nV"%string) as (w' & Hrun & _ & _ & Hidx & _).
  { reflexivity. }
  { reflexivity. }
  { vm_compute. reflexivity. }
  { reflexivity. }
  exists w'. split; [exact Hrun|exact Hidx].
Defined.

Lemma bad_range_stalls_the_batch_witness :
  let w := window_of [entry_backwards] (TestClass_init "scan.lwa"%string) in
  gen_x_array (e_start entry_backwards) (e_stop entry_backwards) (e_step entry_backwards)
  = Raise InvalidRange /\
  exists w',
    next_entry lab w = (Raise InvalidRange, w') /\
    singleScan w' = singleScan w.
Proof.
  cbv zeta. split; [vm_compute; reflexivity|].
  destruct (bad_range_stalls_the_batch lab
              (window_of [entry_backwards] (TestClass_init "scan.lwa"%string))
              entry_backwards InvalidRange) as (w' & Hrun & Hscan & _).
  { reflexivity. }
  { vm_compute. discriminate. }
  { reflexivity. }
  { vm_compute. reflexivity. }
  exists w'. split; [exact Hrun|exact Hscan].
Defined.

Lemma pause_while_settling_only_delays_witness :
  cls (singleScan lab_window) = TestClass /\
  accepted lab_window = false /\
  pauseButton_checked (singleScan lab_window) = false /\
  timeout (waitTimer (singleScan lab_window)) = [set_lockin_buffer_slot] /\
  isActive (waitTimer (singleScan lab_window)) = true /\
  singleScan (run lab [pauseButton_clicked; waitTimer_timeout; pauseButton_clicked]
                lab_window)
  = singleScan lab_window.
Proof.
  split; [reflexivity|]. split; [vm_compute; reflexivity|].
  split; [vm_compute; reflexivity|]. split; [vm_compute; reflexivity|].
  split; [vm_compute; reflexivity|].
  destruct (pause_while_settling_only_delays lab lab_window) as (_ & H & _).
  { reflexivity. }
  { vm_compute. reflexivity. }
  { vm_compute. reflexivity. }
  { vm_compute. reflexivity. }
  { vm_compute. reflexivity. }
  rewrite H. reflexivity.
Defined.

Lemma lab_settings_read :
  get_settings lab_apival lab lab_config
  = (Done (Some (map (fun r => snd (read_row lab_apival (bandSelect_currentIndex lab) r))
                   (entryWidgetList lab_config), "scan.lwa"%string)),
     snd (get_settings lab_apival lab lab_config)).
Proof. vm_compute. reflexivity. Defined.

Lemma get_settings_returns_only_valid_plans_witness :
  exists plan c',
    get_settings lab_apival lab lab_config = (Done (Some (plan, "scan.lwa"%string)), c') /\
    length plan = length (entryWidgetList lab_config) /\
    config_accepted c' = true.
Proof.
  destruct (get_settings_returns_only_valid_plans lab_apival lab lab_config _ _ _
              lab_settings_read) as (_ & _ & Hlen & _ & Hacc & _).
  eexists _, _. split; [exact lab_settings_read|]. split; [exact Hlen|exact Hacc].
Defined.

(** * A window on the instrument-driving class *)

Lemma run_SingleScan env evs w :
  cls (singleScan w) = SingleScan -> nothing_recorded w (run env evs w).
Proof.
  revert w. induction evs as [|ev evs IH]; intros w Hc; [apply nothing_recorded_refl|].
  cbn. assert (H := step_SingleScan env ev w Hc).
  eapply nothing_recorded_trans; [exact H|]. apply IH.
  by rewrite (nothing_recorded_cls _ _ H).
Qed.

Lemma run_idle env n w :
  isActive (itgTimer (singleScan w)) = false ->
  isActive (waitTimer (singleScan w)) = false ->
  run env (lab_cycles n) w = w.
Proof.
  intros Hi Hw. induction n as [|n IH]; [done|].
  change (run env (lab_cycles (S n)) w)
    with (run env (lab_cycles n)
            (step env itgTimer_timeout (step env waitTimer_timeout w))).
  assert (E1 : step env waitTimer_timeout w = w) by (unfold step; by rewrite Hw).
  rewrite E1.
  assert (E2 : step env itgTimer_timeout w = w) by (unfold step; by rewrite Hi).
  by rewrite E2.
Qed.

Lemma markers_no_save t e :
  markers t = [installed e] ->
  forall f d h, save_lwa f d h ∉ t.
Proof.
  intros Hm f d h Hin.
  assert (H : completed ∈ markers t).
  { unfold markers. apply list_elem_of_omap. by exists (save_lwa f d h). }
  rewrite Hm in H. apply list_elem_of_singleton in H. done.
Qed.

(** C1.  A [SingleScan] widget as [__init__] builds it, in a batch window,
    with an entry of average count [N >= 1] installed and healthy
    instruments.  Whatever timer expiries and button presses arrive, the
    window never reaches Complete: the pass counter stays 0, so it never
    exceeds [N]; both arrays stay zero; nothing is completed and [save_lwa]
    is never called.  The first settle-and-integrate cycle shows why: the wait
    timer sends the four buffer commands and starts the integration timer,
    whose expiry raises [NameError] on [lcHandle] in [query_lockin_buffer]
    before a sample is read; after that no timer is running, and further
    expiries change nothing. *)
Theorem SingleScan_never_reaches_Complete env fname s entries e w0 evs :
  healthy env ->
  SingleScan_init env fname = Ok s ->
  1 <= e_avg e ->
  update_setting env e (window_of entries s) = (Ok tt, w0) ->
  let w' := run env evs w0 in
  let w1 := run env [waitTimer_timeout; itgTimer_timeout] w0 in
  current_avg (singleScan w') = 0 /\
  avg (singleScan w') = e_avg e /\
  (current_avg (singleScan w') >? avg (singleScan w')) = false /\
  y (singleScan w') = replicate (length (x (singleScan w'))) 0%Q /\
  y_sum (singleScan w') = replicate (length (x (singleScan w'))) 0%Q /\
  markers (out w') = [installed e] /\
  completions (out w') = 0%nat /\
  (forall f d h, save_lwa f d h ∉ out w') /\
  out w1 = out w0 ++ [lc_write "REST"; lc_write "SRAT13"; lc_write "SEND0";
                      lc_write "STRT"] /\
  uncaught w1 = [NameError "lcHandle"] /\
  y (singleScan w1) = y (singleScan w0) /\
  isActive (itgTimer (singleScan w1)) = false /\
  isActive (waitTimer (singleScan w1)) = false /\
  (forall n, run env (lab_cycles n) w1 = w1).
Proof.
  intros Hh Hinit HN Hup w' w1.
  assert (Hs : cls s = SingleScan /\ timeout (waitTimer s) = [set_lockin_buffer_slot] /\
               timeout (itgTimer s) = [query_lockin_buffer_slot] /\
               isActive (itgTimer s) = false).
  { revert Hinit. unfold SingleScan_init. case_match; [|done]. by intros [= <-]. }
  destruct Hs as (Hc & Hws & His & Hia).
  destruct (update_setting_installed _ _ _ _ Hup) as (xs & Hgen & Hfresh & Hset).
  cbn in Hset. rewrite Hc in Hset.
  assert (Hc0 : cls (singleScan w0) = SingleScan) by (unfold settings in Hset; congruence).
  assert (Hm0 : markers (out w0) = [installed e] /\
                uncaught w0 = [] /\
                waitTimer (singleScan w0) = start (setInterval (waitTimer s) (e_waittime e)) /\
                itgTimer (singleScan w0) = setInterval (itgTimer s) (e_itgtime e)).
  { revert Hup. unfold update_setting. munfold. rewrite Hgen. cbn. rewrite Hc. cbn.
    rewrite !Hh. cbn.
    assert (H1 := gen_x_array_nonempty _ _ _ _ Hgen).
    destruct xs as [|x0 xs']; [simpl in H1; lia|].
    change (Z.to_nat 0) with 0%nat. cbn. unfold ret. cbn. rewrite !Hh. cbn.
    intros [= <-]. cbn. done. }
  destruct Hm0 as (Hm0 & Hu0 & Hw0 & Hi0).
  assert (Hnr := run_SingleScan env evs w0 Hc0). fold w' in Hnr.
  destruct Hnr as (Hs' & Hp' & Hm' & _).
  unfold settings, pp_of, fresh in *.
  injection Hs' as _ _ _ Ex Ea _ _ _ _.
  injection Hset as _ _ _ Ex0 Ea0 _ _ _ _.
  injection Hp' as Ei Ec Ey Eys.
  injection Hfresh as Ei0 Ec0 Ey0 Eys0.
  assert (Hmk : markers (out w') = [installed e]) by congruence.
  split; [congruence|]. split; [congruence|].
  split; [rewrite Z.gtb_ltb; apply Z.ltb_ge; lia|].
  split; [congruence|]. split; [congruence|]. split; [done|].
  split; [by rewrite completions_markers, Hmk|].
  split; [by eapply markers_no_save|].
  assert (Hstep1 : step env waitTimer_timeout w0 =
    set_singleScan
      (set_itgTimer (start (itgTimer (singleScan w0)))
         (set_waitTimer (expire (waitTimer (singleScan w0))) (singleScan w0)))
      (set_ticks (4 + ticks w0)
         (set_out (out w0 ++ [lc_write "REST"; lc_write "SRAT13"; lc_write "SEND0";
                              lc_write "STRT"]) w0))).
  { unfold step. rewrite Hw0. cbn. rewrite Hws. cbn. unfold invoke.
    unfold set_lockin_buffer. munfold. cbn. rewrite Hc0. cbn. rewrite !Hh. cbn.
    rewrite <- !app_assoc. reflexivity. }
  subst w1. cbn [run fold_left]. rewrite Hstep1.
  unfold step. cbn. rewrite Hi0. cbn. rewrite His. cbn. unfold invoke.
  rewrite query_lockin_buffer_SingleScan by done. cbn.
  rewrite Hu0. repeat split; try done.
  intros n. by apply run_idle.
Qed.

Lemma SingleScan_never_reaches_Complete_witness :
  healthy lab /\
  SingleScan_init lab "scan.lwa" = Ok lab_single /\
  1 <= e_avg entry_10 /\
  update_setting lab entry_10 (window_of [entry_10] lab_single)
  = (Ok tt, lab_single_window) /\
  let w' := run lab (lab_cycles 2 ++ [pauseButton_clicked; pauseButton_clicked;
                                      waitTimer_timeout; itgTimer_timeout])
              lab_single_window in
  current_avg (singleScan w') = 0 /\
  completions (out w') = 0%nat /\
  uncaught (run lab (lab_cycles 1) lab_single_window) = [NameError "lcHandle"].
Proof.
  split; [exact healthy_lab|]. split; [vm_compute; reflexivity|].
  split; [vm_compute; discriminate|].
  split; [vm_compute; reflexivity|].
  destruct (SingleScan_never_reaches_Complete lab "scan.lwa"%string lab_single [entry_10]
              entry_10 lab_single_window
              (lab_cycles 2 ++ [pauseButton_clicked; pauseButton_clicked;
                                waitTimer_timeout; itgTimer_timeout])
              healthy_lab)
    as (H1 & _ & _ & _ & _ & _ & H2 & _ & _ & H3 & _).
  { vm_compute. reflexivity. }
  { vm_compute. discriminate. }
  { vm_compute. reflexivity. }
  cbv zeta. split; [exact H1|]. split; [exact H2|exact H3].
Defined.

(** * The batch with its box *)

Lemma finish_cut : finish = (finish_exec >> finish_resumed).
Proof. reflexivity. Qed.

Lemma pp_step_counter (L : Z) (v : Q) i p ys sm i' p' ys' sm' :
  pp_step L v (i, p, ys, sm) = (i', p', ys', sm') -> p <= p'.
Proof.
  unfold pp_step. repeat case_inner; intros [= <- <- <- <-]; lia.
Qed.

Lemma next_entry_exec_TestClass env w :
  wired env w ->
  accepted w = false ->
  (batchList_len w <= current_entry_index w + 1 ->
   0 <= current_x_index (singleScan w) < Z.of_nat (length (x (singleScan w)))) ->
  exists w',
    next_entry_exec env w = (Ok tt, w') /\
    TestClass_inv env w' /\
    at_entry w' /\
    entry_settings w' = entry_settings w /\
    current_entry_index w' = current_entry_index w + 1 /\
    markers (out w') =
      markers (out w) ++
      [match entry_settings w !! Z.to_nat (current_entry_index w + 1) with
       | Some e => installed e
       | None => finished
       end] /\
    accepted w' = false /\
    (batchList_len w <= current_entry_index w + 1 -> singleScan w' = singleScan w).
Proof.
  intros (Hc & Hall & Hlen & Hidx & Hitg & Hwait & Hy & Hs & Hu) Hacc Hrange.
  unfold next_entry_exec, bind at 1 2 3. cbn -[update_setting finish_exec].
  rewrite Hlen in *.
  destruct (Z.ltb_spec (current_entry_index w + 1)
              (Z.of_nat (length (entry_settings w)))) as [Hlt|Hge].
  - destruct (lookup_lt_is_Some_2 (entry_settings w)
                (Z.to_nat (current_entry_index w + 1))) as [e He]; [lia|].
    unfold bind, emit, from_option, py_index. cbn -[update_setting finish_exec].
    destruct (Z.leb_spec 0 (current_entry_index w + 1)); [|lia].
    rewrite He. unfold ret.
    assert (Hok : entry_ok env e) by (rewrite Forall_lookup in Hall; eauto).
    match goal with |- context [update_setting env e ?w0] =>
      destruct (update_setting_TestClass env e w0)
        as (w' & xs & Hup & Hne & Hscan & Hwin & Hm & Hgen);
        [done|done|] end.
    cbn -[markers] in Hscan, Hwin, Hm. injection Hwin as E1 E2 E3 E4 E5 E6.
    exists w'. split; [done|].
    split.
    { unfold TestClass_inv, wired. rewrite Hscan. cbn.
      rewrite E1, E2, E3, E4, E5, Hacc. unfold zeros_like. rewrite !length_replicate.
      repeat split; try done; try lia.
      destruct xs; [done|]. cbn. lia. }
    split.
    { unfold at_entry. rewrite E1, E3, He, Hscan. cbn. by intros e' [= <-]. }
    split; [done|]. split; [done|].
    split; [rewrite Hm, markers_app; cbn; by rewrite app_nil_r|].
    split; [congruence|]. intros ?. lia.
  - rewrite (lookup_ge_None_2 (entry_settings w)) by lia.
    unfold finish_exec, emit. cbn -[markers].
    eexists. split; [reflexivity|]. cbn -[markers].
    split.
    { unfold TestClass_inv, wired. cbn. rewrite Hacc.
      repeat split; try done; try lia; apply Hrange; lia. }
    split.
    { unfold at_entry. cbn. rewrite (lookup_ge_None_2 (entry_settings w)) by lia. done. }
    split; [done|]. split; [done|].
    split; [by rewrite markers_app|]. done.
Qed.

Lemma query_lockin_buffer_exec_TestClass env w :
  TestClass_inv env w ->
  accepted w = false ->
  at_entry w ->
  exists w',
    query_lockin_buffer_exec env w = (Ok tt, w') /\
    TestClass_inv env w' /\ at_entry w' /\ turn_exec w w' /\
    accepted w' = false /\
    (avg (singleScan w) < current_avg (singleScan w) ->
     current_entry_index w' = current_entry_index w + 1) /\
    (batchList_len w <= current_entry_index w + 1 ->
     current_entry_index w' = current_entry_index w + 1 ->
     itgTimer (singleScan w') = itgTimer (singleScan w) /\
     waitTimer (singleScan w') = waitTimer (singleScan w) /\
     avg (singleScan w') < current_avg (singleScan w')).
Proof.
  intros ((Hc & Hall & Hlen & Hidx & Hitg & Hwait & Hy & Hs & Hu) & Hrange & _) Hacc Hat.
  specialize (Hrange Hacc).
  unfold query_lockin_buffer_exec, bind at 1. rewrite read_sample_TestClass by done.
  set (v := random_sample env (ticks w)).
  set (w1 := set_ticks (S (ticks w))
               (set_out (out w ++ [print query_lockin_buffer_line]) w)).
  destruct (record_and_next_sim w1 v) as (w2 & Hrec & Hpp & Hq).
  { cbn. lia. }
  assert (Hfr := record_and_next_frame v w1). rewrite Hrec in Hfr. cbn [snd] in Hfr.
  assert (Hsil := record_and_next_silent v w1). rewrite Hrec in Hsil. cbn [snd] in Hsil.
  destruct Hsil as (_ & Hmk & _).
  assert (Hmk1 : markers (out w1) = markers (out w)).
  { unfold w1. cbn -[markers]. rewrite markers_app. cbn. by rewrite app_nil_r. }
  unfold frame_of, settings in Hfr. cbn in Hfr.
  injection Hfr as F1 F2 F3 F4 F5 F6 F7 F8 F9 F10 F11 F12 F13 F14 F15 F16 F17.
  cbv zeta in Hpp. change (singleScan w1) with (singleScan w) in Hpp.
  unfold pp_of in Hpp at 2.
  destruct (pp_step _ _ _) as [[[i' p'] ys'] sm'] eqn:Est.
  assert (Hi' := pp_step_index _ _ _ _ _ _ _ _ _ _ Est Hrange).
  assert (Hp' := pp_step_counter _ _ _ _ _ _ _ _ _ _ Est).
  destruct (pp_step_lengths _ _ _ _ _ _ _ _ _ _ Est) as [Hy' Hs']; [lia|].
  unfold pp_of in Hpp. injection Hpp as P1 P2 P3 P4.
  assert (Hwired : wired env w2).
  { unfold wired. rewrite F1, F4, F10, F11, F12, F13, F14, F15, F17, P3, P4.
    repeat split; try done; lia. }
  unfold bind at 1. rewrite Hrec. unfold bind at 1, get_scan.
  destruct (Z.gtb_spec (current_avg (singleScan w2)) (avg (singleScan w2))) as [Hchk|Hchk].
  - unfold save_data_exec, bind at 1. rewrite save_spectrum_TestClass by congruence.
    unfold move_to_next_entry_emit_exec.
    set (w3 := set_out (out w2 ++ [print save_data_line]) w2).
    destruct (next_entry_exec_TestClass env w3)
      as (w4 & Hn & Hinv4 & Hat4 & E1 & E2 & E3 & E4 & E5).
    { destruct Hwired as (?&?&?&?&?&?&?&?&?). by repeat split. }
    { cbn. congruence. }
    { intros _. cbn. rewrite P1, F4. lia. }
    unfold invoke. rewrite Hn.
    eexists. split; [reflexivity|]. split; [done|]. split; [done|].
    cbn -[markers] in E1, E2, E3, E5.
    split.
    { unfold turn_exec. split; [congruence|]. right. split; [congruence|].
      rewrite E3, markers_app, Hmk, Hmk1, F13, F15. cbn. by rewrite <- app_assoc. }
    split; [done|]. split; [intros _; congruence|].
    intros Hlast _. rewrite E5 by congruence. rewrite F10, F11. by repeat split.
  - destruct (tune_syn_TestClass env w2) as (f & ->); [congruence|rewrite P1, F4; lia|].
    eexists. split; [reflexivity|].
    destruct Hwired as (?&?&?&?&?&?&?&?&?).
    split.
    { unfold TestClass_inv, wired. cbn. rewrite F16, Hacc, P1, F4.
      repeat split; try done; try lia; cbn in *; congruence. }
    split.
    { unfold at_entry in *. cbn. rewrite F13, F15, F4, F5. exact Hat. }
    split.
    { unfold turn_exec. cbn -[markers]. split; [done|]. left. split; [done|].
      rewrite markers_app, Hmk, Hmk1. cbn. by rewrite app_nil_r. }
    cbn. split; [congruence|]. split; [intros Hlt; exfalso; lia|].
    intros _ Hcontra. exfalso. lia.
Qed.

Lemma step_exec_inv env ev w c :
  TestClass_inv env w -> at_entry w ->
  let w' := fst (step_exec env ev (w, c)) in
  TestClass_inv env w' /\ at_entry w' /\ turn_exec w w'.
Proof.
  intros Hinv Hat. assert (Hinv' := Hinv).
  destruct Hinv' as ((Hc & Hall & Hlen & Hidx & Hitg & Hwait & Hy & Hs & Hu) & Hrange & Hclosed).
  assert (Hsame : TestClass_inv env w /\ at_entry w /\ turn_exec w w).
  { split; [done|]. split; [done|]. split; [done|]. by left. }
  assert (Hkept : forall w',
    (cls (singleScan w'), entry_settings w', batchList_len w', current_entry_index w',
     timeout (itgTimer (singleScan w')), x (singleScan w'), y (singleScan w'),
     y_sum (singleScan w'), current_x_index (singleScan w'), uncaught w',
     avg (singleScan w'), markers (out w')) =
    (cls (singleScan w), entry_settings w, batchList_len w, current_entry_index w,
     timeout (itgTimer (singleScan w)), x (singleScan w), y (singleScan w),
     y_sum (singleScan w), current_x_index (singleScan w), uncaught w,
     avg (singleScan w), markers (out w)) ->
    timeout (waitTimer (singleScan w')) =
      (if pauseButton_checked (singleScan w') then [] else [set_lockin_buffer_slot]) ->
    (accepted w' = false -> accepted w = false) ->
    (accepted w' = true ->
     isActive (itgTimer (singleScan w')) = false /\
     isActive (waitTimer (singleScan w')) = false) ->
    TestClass_inv env w' /\ at_entry w' /\ turn_exec w w').
  { intros w' [= E1 E2 E3 E4 E5 E6 E7 E8 E9 E10 E11 E12] Hw' Ha' Hcl'.
    split.
    { unfold TestClass_inv, wired. rewrite E1, E2, E3, E4, E5, E6, E7, E8, E9, E10.
      split; [by repeat split|]. split; [intros Hf; by apply Hrange, Ha'|done]. }
    split.
    { unfold at_entry. rewrite E2, E4, E6, E11. exact Hat. }
    split; [done|]. by left. }
  destruct ev as [[| | |yes]|]; unfold step_exec; cbn [fst snd].
  - destruct (isActive (waitTimer (singleScan w))) eqn:Hact; [|done].
    assert (Hacc : accepted w = false).
    { destruct (accepted w); [|done]. destruct Hclosed as [_ ?]; congruence. }
    cbn [fst]. rewrite Hwait. destruct (pauseButton_checked (singleScan w)) eqn:Hp;
      cbn [invoke_all_exec fold_left run_slot_exec].
    + apply Hkept; cbn -[markers]; rewrite ?Hp, ?Hacc; done.
    + unfold invoke. rewrite set_lockin_buffer_TestClass by done.
      apply Hkept; cbn -[markers]; rewrite ?markers_app, ?Hp, ?Hacc; cbn;
        rewrite ?app_nil_r; done.
  - destruct (isActive (itgTimer (singleScan w))) eqn:Hact; [|done].
    assert (Hacc : accepted w = false).
    { destruct (accepted w); [|done]. destruct Hclosed as [? _]; congruence. }
    cbn [fst]. rewrite Hitg. cbn [invoke_all_exec fold_left run_slot_exec].
    match goal with |- context [invoke _ ?w0] =>
      destruct (query_lockin_buffer_exec_TestClass env w0)
        as (w' & Hq & Hinv' & Hat' & Ht & _) end.
    { apply Hkept; cbn; rewrite ?Hacc; done. }
    { done. }
    { unfold at_entry. cbn. exact Hat. }
    unfold invoke. rewrite Hq. split; [done|]. split; [done|]. exact Ht.
  - destruct (accepted w) eqn:Hacc; [done|]. cbn [orb].
    destruct (box_open (w, c)); [done|]. cbn [fst].
    unfold invoke, pause_scan. munfold. cbn. rewrite Hc, Hwait.
    destruct (pauseButton_checked (singleScan w)) eqn:Hp; cbn -[markers];
      apply Hkept; cbn -[markers]; rewrite ?markers_app, ?Hwait, ?Hp, ?Hc, ?Hacc;
      cbn; rewrite ?app_nil_r; done.
  - destruct (accepted w) eqn:Hacc; [done|]. cbn [orb].
    destruct (box_open (w, c)); [done|]. cbn [fst].
    destruct yes; unfold invoke, reject, stop_timers, accept; munfold; cbn -[markers];
      apply Hkept; cbn -[markers]; rewrite ?Hacc; done.
  - destruct (box_open (w, c)); [|done]. cbn [fst].
    unfold invoke, finish_resumed, stop_timers, accept; munfold; cbn -[markers];
      apply Hkept; cbn -[markers]; done.
Qed.

Lemma concat_replicate_snoc {A} (l : list A) (j : nat) :
  concat (replicate (S j) l) = concat (replicate j l) ++ l.
Proof.
  induction j as [|j IH]; [cbn; by rewrite app_nil_r|].
  cbn [replicate concat] in *. rewrite <- app_assoc. f_equal. exact IH.
Qed.

Lemma turn_exec_inv env entries w w' :
  batch_exec_inv env entries w ->
  TestClass_inv env w' -> at_entry w' -> turn_exec w w' ->
  batch_exec_inv env entries w'.
Proof.
  intros (_ & _ & He & i & j & HiK & Hj & Hidx & Hm) Hinv' Hat' (E0 & Ht).
  split; [done|]. split; [done|]. split; [congruence|].
  destruct Ht as [(E1 & E2)|(E1 & E2)].
  { exists i, j. repeat split; try done; congruence. }
  rewrite He, Hidx in E2.
  replace (Z.to_nat (Z.of_nat (i + j) + 1)) with (S (i + j)) in E2 by lia.
  destruct (decide (i = length entries)) as [Heq|Hne].
  - rewrite (lookup_ge_None_2 entries) in E2 by lia.
    exists i, (S j). split; [done|]. split; [done|]. split; [lia|].
    rewrite E2, Hm. unfold expected_exec. rewrite concat_replicate_snoc.
    by rewrite <- app_assoc.
  - assert (j = 0%nat) as -> by (destruct j; [done|]; exfalso; apply Hne, Hj; lia).
    rewrite Nat.add_0_r in *.
    destruct (lookup_lt_is_Some_2 entries i) as [e Hlk]; [lia|].
    unfold expected_exec in *. cbn [replicate concat] in *. rewrite app_nil_r in *.
    exists (S i), 0%nat. split; [lia|]. split; [lia|]. split; [lia|].
    cbn [replicate concat]. rewrite app_nil_r, E2, Hm.
    destruct (entries !! S i) as [e'|] eqn:Hnext.
    + by eapply expected_next.
    + by eapply expected_last.
Qed.

Lemma run_exec_inv env entries evs w c :
  batch_exec_inv env entries w ->
  batch_exec_inv env entries (fst (run_exec env evs (w, c))).
Proof.
  revert w c. induction evs as [|ev evs IH]; intros w c H; [done|].
  cbn [run_exec fold_left].
  destruct (step_exec env ev (w, c)) as [w' c'] eqn:Hst.
  apply IH.
  assert (H' := H). destruct H' as (Hinv & Hat & _).
  destruct (step_exec_inv env ev w c Hinv Hat) as (Hinv' & Hat' & Ht).
  rewrite Hst in *. cbn [fst] in *. by eapply turn_exec_inv.
Qed.

Lemma init_exec_inv env e rest fname :
  axes_ok (e :: rest) ->
  is_Some (entry_labels env (e :: rest)) ->
  exists w0,
    JPLScanWindow_init_exec env (e :: rest) fname = (Ok tt, w0) /\
    batch_exec_inv env (e :: rest) w0.
Proof.
  intros Hax [ls Hl]. unfold JPLScanWindow_init_exec. rewrite Hl.
  set (w := set_out [setCurrentRow 0] (window_of (e :: rest) (TestClass_init fname))).
  destruct (next_entry_exec_TestClass env w) as (w0 & Hn & Hinv & Hat & E1 & E2 & E3 & E4 & _).
  { unfold wired. cbn. repeat split; try done.
    apply Forall_forall. intros e' Hin. unfold axes_ok in Hax.
    rewrite Forall_forall in Hax. split; [by apply Hax|].
    by eapply entry_labels_ok. }
  { done. }
  { cbn. lia. }
  exists w0. split.
  { change ((emit (setCurrentRow 0) >> move_to_next_entry_emit_exec env)
              (window_of (e :: rest) (TestClass_init fname)))
      with (Ok tt, invoke (next_entry_exec env) w).
    unfold invoke. by rewrite Hn. }
  split; [done|]. split; [done|]. split; [done|].
  exists 0%nat, 0%nat. split; [lia|]. split; [lia|]. split; [by rewrite E2|].
  rewrite E3. done.
Qed.

Lemma boxes_shown_markers t :
  boxes_shown t = length (List.filter marker_finished (markers t)).
Proof.
  unfold boxes_shown, markers. induction t as [|e t IH]; [done|].
  destruct e as [| | | | | | | | [] | | | | |]; cbn; by rewrite ?IH.
Qed.

Lemma expected_exec_installs entries (i j : nat) :
  omap marker_entry (expected_exec entries i j) = take (S i) entries.
Proof.
  unfold expected_exec. rewrite omap_app, expected_installs.
  induction j as [|j IH]; [cbn; by rewrite app_nil_r|].
  rewrite concat_replicate_snoc, omap_app, app_assoc, IH. cbn. by rewrite app_nil_r.
Qed.

Lemma expected_exec_completions entries (i j : nat) :
  (i <= length entries)%nat ->
  length (List.filter marker_completed (expected_exec entries i j)) = (i + j)%nat.
Proof.
  intros Hi. unfold expected_exec.
  rewrite List.filter_app, length_app, expected_completions by done.
  f_equal. induction j as [|j IH]; [done|].
  rewrite concat_replicate_snoc, List.filter_app, length_app, IH. cbn. lia.
Qed.

Lemma expected_exec_finished entries (i j : nat) :
  (i <= length entries)%nat ->
  length (List.filter marker_finished (expected_exec entries i j))
  = ((if decide (i = length entries) then 1 else 0) + j)%nat.
Proof.
  intros Hi. unfold expected_exec.
  rewrite List.filter_app, length_app. f_equal.
  - unfold expected. rewrite List.filter_app, length_app.
    assert (H0 : forall l : list Entry,
      List.filter marker_finished (flat_map (fun e => [installed e; completed]) l) = []).
    { induction l as [|a l IH]; [done|]. cbn. exact IH. }
    rewrite H0. cbn [length Nat.add].
    destruct (decide (i = length entries)) as [->|Hne].
    + by rewrite lookup_ge_None_2.
    + destruct (lookup_lt_is_Some_2 entries i) as [e ->]; [lia|]. done.
  - clear. induction j as [|j IH]; [done|].
    rewrite concat_replicate_snoc, List.filter_app, length_app, IH. cbn. lia.
Qed.

Lemma batch_exec_inv_boxes env entries w :
  batch_exec_inv env entries w ->
  boxes_shown (out w) = 0%nat ->
  current_entry_index w < Z.of_nat (length entries).
Proof.
  intros (_ & _ & _ & i & j & HiK & Hj & Hidx & Hm) H0.
  rewrite boxes_shown_markers, Hm, expected_exec_finished in H0 by done.
  destruct (decide (i = length entries)); lia.
Qed.

Lemma step_exec_box env entries ev w c :
  batch_exec_inv env entries w ->
  box_inv entries (w, c) ->
  box_inv entries (step_exec env ev (w, c)).
Proof.
  intros Hb Hbox. assert (Hb' := Hb).
  destruct Hb' as (Hinv & Hat & He & _).
  assert (Hinv' := Hinv).
  destruct Hinv' as ((Hc & Hall & Hlen & Hidx & Hitg & Hwait & Hy & Hs & Hu) & Hrange & Hclosed).
  rewrite He in Hlen.
  assert (Hbox' := Hbox). destruct Hbox' as (Ha & Hle & Hthrough). cbn [fst snd] in *.
  destruct ev as [[| | |yes]|]; unfold step_exec; cbn [fst snd].
  - destruct (isActive (waitTimer (singleScan w))) eqn:Hact; [|done].
    assert (Hacc : accepted w = false).
    { destruct (accepted w); [|done]. destruct Hclosed as [_ ?]; congruence. }
    rewrite Hwait. destruct (pauseButton_checked (singleScan w)) eqn:Hp;
      cbn [invoke_all_exec fold_left run_slot_exec].
    + unfold box_inv. cbn. split; [done|]. split; [done|].
      intros HK _. destruct (Hthrough HK Hacc) as (H1 & H2 & H3).
      cbn in H2. split; [done|]. split; [done|]. intros E. congruence.
    + unfold invoke. rewrite set_lockin_buffer_TestClass by done.
      unfold box_inv. cbn. split; [done|]. split; [done|].
      intros HK _. destruct (Hthrough HK Hacc) as (H1 & H2 & H3).
      split; [done|]. split; [done|]. intros _. by apply H3.
  - destruct (isActive (itgTimer (singleScan w))) eqn:Hact; [|done].
    assert (Hacc : accepted w = false).
    { destruct (accepted w); [|done]. destruct Hclosed as [? _]; congruence. }
    rewrite Hitg. cbn [invoke_all_exec fold_left run_slot_exec].
    set (w1 := set_singleScan
                 (set_itgTimer (expire (itgTimer (singleScan w))) (singleScan w)) w).
    destruct (query_lockin_buffer_exec_TestClass env w1)
      as (w' & Hq & _ & _ & (_ & Ht) & Hacc' & Q1 & Q2).
    { split; [exact (proj1 Hinv)|]. cbn. rewrite Hacc.
      split; [intros _; by apply Hrange|done]. }
    { done. }
    { unfold at_entry. cbn. exact Hat. }
    unfold invoke. rewrite Hq. cbn in Ht, Q1, Q2.
    unfold box_inv. cbn [fst snd]. split; [auto|].
    destruct (Z.le_gt_cases (Z.of_nat (length entries)) (current_entry_index w))
      as [HK|HK].
    + destruct (Hthrough HK Hacc) as (H1 & H2 & H3).
      rewrite andb_true_r in H2. rewrite orb_true_r in H3.
      specialize (H3 eq_refl). specialize (Q1 H1).
      destruct Q2 as (T1 & T2 & T3); [lia|done|].
      split; [lia|]. intros _ _. rewrite T1, T2, H2. cbn. split; [done|].
      split; [done|]. intros ?; done.
    + split; [destruct Ht as [[-> _]|[-> _]]; lia|].
      intros HK' _.
      assert (Hnext : current_entry_index w' = current_entry_index w + 1).
      { destruct Ht as [[E _]|[E _]]; [lia|done]. }
      destruct Q2 as (T1 & T2 & T3); [lia|done|].
      rewrite T1, T2. cbn. rewrite andb_false_r, orb_false_r.
      split; [done|]. split; [done|]. intros _. lia.
  - destruct (accepted w) eqn:Hacc; [done|]. cbn [orb].
    destruct (box_open (w, c)) eqn:Hopen; [done|].
    unfold box_open in Hopen. cbn [fst snd] in Hopen. rewrite (Ha eq_refl) in *.
    apply Nat.ltb_ge in Hopen.
    assert (Hlt := batch_exec_inv_boxes env entries w Hb ltac:(lia)).
    unfold invoke, pause_scan. munfold. cbn. rewrite Hc, Hwait.
    destruct (pauseButton_checked (singleScan w)) eqn:Hp; cbn;
      unfold box_inv; cbn; rewrite ?Hacc; (split; [done|]); (split; [done|]);
      intros ?; lia.
  - destruct (accepted w) eqn:Hacc; [done|]. cbn [orb].
    destruct (box_open (w, c)) eqn:Hopen; [done|].
    unfold box_open in Hopen. cbn [fst snd] in Hopen. rewrite (Ha eq_refl) in *.
    apply Nat.ltb_ge in Hopen.
    assert (Hlt := batch_exec_inv_boxes env entries w Hb ltac:(lia)).
    destruct yes; unfold invoke, reject, stop_timers, accept; munfold; cbn;
      unfold box_inv; cbn; rewrite ?Hacc; (split; [done|]); (split; [done|]);
      intros ?; lia.
  - destruct (box_open (w, c)); [|done].
    unfold invoke, finish_resumed, stop_timers, accept; munfold; cbn.
    unfold box_inv; cbn. by repeat split.
Qed.

Lemma run_exec_box env entries evs w c :
  batch_exec_inv env entries w ->
  box_inv entries (w, c) ->
  batch_exec_inv env entries (fst (run_exec env evs (w, c))) /\
  box_inv entries (run_exec env evs (w, c)).
Proof.
  revert w c. induction evs as [|ev evs IH]; intros w c H Hbox; [done|].
  cbn [run_exec fold_left].
  assert (Hbox' := step_exec_box env entries ev w c H Hbox).
  assert (H' := run_exec_inv env entries [ev] w c H).
  cbn [run_exec fold_left] in H'.
  destruct (step_exec env ev (w, c)) as [w' c'] eqn:Hst.
  by apply IH.
Qed.

Lemma init_exec_box env e rest fname w0 :
  axes_ok (e :: rest) ->
  is_Some (entry_labels env (e :: rest)) ->
  JPLScanWindow_init_exec env (e :: rest) fname = (Ok tt, w0) ->
  box_inv (e :: rest) (w0, 0%nat).
Proof.
  intros Hax Hl Hinit.
  destruct (init_exec_inv env e rest fname Hax Hl) as (w0' & Hinit' & Hb).
  rewrite Hinit in Hinit'. injection Hinit' as <-.
  revert Hinit. destruct Hl as [ls Hl]. unfold JPLScanWindow_init_exec. rewrite Hl.
  set (w := set_out [setCurrentRow 0] (window_of (e :: rest) (TestClass_init fname))).
  change ((emit (setCurrentRow 0) >> move_to_next_entry_emit_exec env)
            (window_of (e :: rest) (TestClass_init fname)))
    with (Ok tt, invoke (next_entry_exec env) w).
  destruct Hb as ((Hw & _) & _ & _ & _).
  destruct (next_entry_exec_TestClass env w) as (w1 & Hn & _ & _ & _ & E2 & _).
  { unfold wired. cbn. repeat split; try done.
    apply Forall_forall. intros e' Hin. unfold axes_ok in Hax.
    rewrite Forall_forall in Hax. split; [by apply Hax|].
    by eapply entry_labels_ok. }
  { done. }
  { cbn. lia. }
  unfold invoke. rewrite Hn. intros [= <-].
  unfold box_inv. cbn [fst snd]. rewrite E2. cbn.
  split; [done|]. split; [lia|]. intros ?. lia.
Qed.

(** C4.  A batch window built on a plan of [K >= 1] entries whose axes can be
    generated and whose labels exist, after any sequence of timer expiries,
    button presses and closings of the job-finished box.  No exception has
    escaped, and the window under way is the one of the current entry.  Read
    at batch level, the trace is the first [i] entries installed and completed
    one after the other, in plan order, followed by the install of entry [i],
    or, when [i = K], by the job-finished box and then by [j <= 1] further
    completions of the last window, each followed by a box of its own: a
    timer that is running when the box opens fires inside it.  So every entry
    is installed at most once and in plan order, each install but the first
    comes right after the completion of the previous window, no entry is
    installed after the last, and a box has been shown exactly when [K]
    windows have completed. *)
Theorem batch_in_plan_order env entries fname evs :
  entries <> [] ->
  axes_ok entries ->
  is_Some (entry_labels env entries) ->
  exists w0,
    JPLScanWindow_init_exec env entries fname = (Ok tt, w0) /\
    let w := fst (run_exec env evs (w0, 0%nat)) in
    uncaught w = [] /\
    at_entry w /\
    exists i j : nat,
      (i <= length entries)%nat /\
      (j <= 1)%nat /\
      ((0 < j)%nat -> i = length entries) /\
      current_entry_index w = Z.of_nat (i + j) /\
      markers (out w) = expected_exec entries i j /\
      installs (out w) = take (S i) entries /\
      completions (out w) = (i + j)%nat /\
      boxes_shown (out w) = ((if decide (i = length entries) then 1 else 0) + j)%nat /\
      (batch_finished (out w) = true <-> i = length entries) /\
      (batch_finished (out w) = true <-> (length entries <= completions (out w))%nat).
Proof.
  intros Hne Hax Hl. destruct entries as [|e rest]; [done|].
  destruct (init_exec_inv env e rest fname Hax Hl) as (w0 & Hinit & Hb0).
  assert (Hbox0 := init_exec_box env e rest fname w0 Hax Hl Hinit).
  exists w0. split; [done|]. cbv zeta.
  destruct (run_exec_box env (e :: rest) evs w0 0%nat Hb0 Hbox0) as (Hb & Hbox).
  set (w := fst (run_exec env evs (w0, 0%nat))) in *.
  destruct Hb as (((_ & _ & _ & _ & _ & _ & _ & _ & Hu) & _) & Hat & _ & i & j
                  & HiK & Hj & Hidx & Hm).
  destruct Hbox as (_ & Hle & _). fold w in Hle.
  split; [done|]. split; [done|].
  assert (Hcomp : completions (out w) = (i + j)%nat).
  { by rewrite completions_markers, Hm, expected_exec_completions. }
  assert (Hfin : batch_finished (out w) = true <-> i = length (e :: rest)).
  { rewrite batch_finished_markers, Hm. unfold expected_exec.
    rewrite existsb_app, orb_true_iff, expected_finished by done.
    split; [|by left]. intros [?|Hr]; [done|]. apply Hj.
    destruct j; [done|lia]. }
  exists i, j. split; [done|]. split; [lia|]. split; [done|]. split; [done|].
  split; [done|].
  split; [by rewrite installs_markers, Hm, expected_exec_installs|].
  split; [done|].
  split; [by rewrite boxes_shown_markers, Hm, expected_exec_finished|].
  split; [done|].
  rewrite Hfin, Hcomp. split; [lia|]. intros H.
  destruct (decide (i = length (e :: rest))); [done|].
  assert (j = 0%nat) by (destruct j; [done|]; exfalso; apply n, Hj; lia). lia.
Qed.

Lemma batch_in_plan_order_witness :
  [entry_10; entry_20] <> [] /\
  axes_ok [entry_10; entry_20] /\
  is_Some (entry_labels lab [entry_10; entry_20]) /\
  exists w0,
    JPLScanWindow_init_exec lab [entry_10; entry_20] "batch.lwa"%string = (Ok tt, w0) /\
    let w := fst (run_exec lab lab_box_events (w0, 0%nat)) in
    uncaught w = [] /\
    markers (out w) =
      [installed entry_10; completed; installed entry_20; completed; finished;
       completed; finished] /\
    current_entry_index w = 3 /\
    accepted w = true.
Proof.
  assert (Hax : axes_ok [entry_10; entry_20]).
  { repeat constructor; eexists; (split; [vm_compute; reflexivity|done]). }
  assert (Hl : is_Some (entry_labels lab [entry_10; entry_20])).
  { vm_compute. eauto. }
  split; [done|]. split; [exact Hax|]. split; [exact Hl|].
  destruct (batch_in_plan_order lab [entry_10; entry_20] "batch.lwa"%string
              lab_box_events ltac:(done) Hax Hl)
    as (w0 & Hinit & Hu & _).
  exists w0. split; [exact Hinit|]. cbv zeta. split; [exact Hu|].
  assert (E : w0 = snd (JPLScanWindow_init_exec lab [entry_10; entry_20]
                          "batch.lwa"%string)) by (by rewrite Hinit).
  rewrite E. vm_compute. done.
Defined.
